(** * N-gram Automation Tool: the browser script, embedded and verified

    The repository consists of one script, [static/script.js], which is
    present in two variants: a simpler one (two state variables, a
    settings panel with two thresholds) and a richer one (analytics and
    archive views).  Both are embedded below, each in its own module, over
    a shared model of the JavaScript values they manipulate. *)

From Stdlib Require Import ZArith List String Ascii Bool Lia DecimalString.
From Stdlib Require Import Floats.SpecFloat.
Import ListNotations.
Open Scope string_scope.
Open Scope Z_scope.

(** ** JavaScript strings

    File names and messages are byte strings; [toLowerCase] acts on the
    ASCII letters, which is all [endsWith('.csv')] can observe. *)

Module JsString.

Definition lower_ascii (c : ascii) : ascii :=
  let n := nat_of_ascii c in
  if andb (Nat.leb 65 n) (Nat.leb n 90) then ascii_of_nat (n + 32) else c.

Fixpoint toLowerCase (s : string) : string :=
  match s with
  | EmptyString => EmptyString
  | String c r => String (lower_ascii c) (toLowerCase r)
  end.

(** [s.endsWith(suffix)]: the last [length suffix] characters of [s] are
    [suffix]. *)
Definition endsWith (s suffix : string) : bool :=
  let n := String.length s in
  let k := String.length suffix in
  andb (Nat.leb k n) (String.eqb (substring (n - k) k s) suffix).

(** Truthiness of a possibly absent string: [undefined], [null] and the
    empty string are falsy. *)
Definition truthy (o : option string) : bool :=
  match o with
  | Some s => negb (String.eqb s "")
  | None => false
  end.

(** [o || fallback] on strings. *)
Definition or_else (o : option string) (fallback : string) : string :=
  match o with
  | Some s => if String.eqb s "" then fallback else s
  | None => fallback
  end.

End JsString.

(** ** JavaScript numbers

    A Number is an IEEE 754 binary64 value; the arithmetic is the
    library's [SpecFloat] instantiated at precision 53.  The conversions
    between Numbers and decimal strings ([toString], [toFixed],
    [parseFloat]) follow the language specification, computing with the
    exact rational value of a Number. *)

Module JsNumber.

Definition prec : Z := 53.
Definition emax : Z := 1024.

Definition num : Type := spec_float.

Definition ofZ (z : Z) : num := binary_normalize prec emax z 0 false.
Definition ofN (n : N) : num := ofZ (Z.of_N n).

Definition add : num -> num -> num := SFadd prec emax.
Definition mul : num -> num -> num := SFmul prec emax.
Definition div : num -> num -> num := SFdiv prec emax.

Definition zero : num := S754_zero false.
Definition hundred : num := ofZ 100.

(** [x === 0]: both zeros compare equal, NaN does not. *)
Definition is_zero (x : num) : bool :=
  match x with
  | S754_zero _ => true
  | _ => false
  end.

(** Truthiness: [0], [-0] and [NaN] are falsy. *)
Definition truthy (x : num) : bool :=
  match x with
  | S754_zero _ | S754_nan => false
  | _ => true
  end.

(** [x || 0]. *)
Definition or_zero (x : num) : num := if truthy x then x else zero.

(** [x > 0]. *)
Definition gt_zero (x : num) : bool :=
  match x with
  | S754_infinity false | S754_finite false _ _ => true
  | _ => false
  end.

(** *** Exact values *)

(** The magnitude [m * 2^e] of a finite Number as a fraction. *)
Definition exact_num (m : positive) (e : Z) : Z := Z.pos m * 2 ^ Z.max e 0.
Definition exact_den (e : Z) : Z := 2 ^ Z.max (- e) 0.

(** [p / q] rounded to an integer, ties to even ([q > 0]). *)
Definition round_half_even (p q : Z) : Z :=
  let m := p / q in
  let r := 2 * (p mod q) in
  if r <? q then m
  else if q <? r then m + 1
  else if Z.even m then m else m + 1.

(** The [b] with [2^b <= p / q < 2^(b+1)], for [p, q > 0]. *)
Definition binade (p q : Z) : Z :=
  let d := Z.log2 p - Z.log2 q in
  let reaches := if 0 <=? d then q * 2 ^ d <=? p else q <=? p * 2 ^ (- d) in
  if reaches then d else d - 1.

(** The Number nearest to the fraction [p / q], ties to even: the
    significand has 53 bits, fewer below [2^-1022]; past the largest
    finite Number the result is infinite. *)
Definition nearest (neg : bool) (p q : Z) : num :=
  match p, q with
  | Z.pos _, Z.pos _ =>
      let e := Z.max (binade p q - 52) (- 1074) in
      let m :=
        if 0 <=? e then round_half_even p (q * 2 ^ e)
        else round_half_even (p * 2 ^ (- e)) q in
      let '(m', e') := if m =? 2 ^ 53 then (2 ^ 52, e + 1) else (m, e) in
      if 971 <? e' then S754_infinity neg
      else match m' with
           | Z.pos mp => S754_finite neg mp e'
           | _ => S754_zero neg
           end
  | Z0, Z.pos _ => S754_zero neg
  | _, _ => S754_nan
  end.

(** The Number nearest to [m * 10^e10]. *)
Definition decimal (neg : bool) (m e10 : Z) : num :=
  if 0 <=? e10 then nearest neg (m * 10 ^ e10) 1
  else nearest neg m (10 ^ (- e10)).

(** Two finite magnitudes denote the same value. *)
Definition same_magnitude (x y : num) : bool :=
  match x, y with
  | S754_finite _ mx ex, S754_finite _ my ey =>
      exact_num mx ex * exact_den ey =? exact_num my ey * exact_den ex
  | _, _ => false
  end.

(** *** Decimal digits

    Digit strings are handled as lists of characters and turned into
    strings at the end. *)

Local Open Scope list_scope.

Definition digit_char (d : Z) : ascii := ascii_of_nat (48 + Z.to_nat d).

Fixpoint digits_upto (fuel : nat) (n : Z) : list ascii :=
  match fuel with
  | O => []
  | S fuel' =>
      if n <? 10 then [digit_char n]
      else digits_upto fuel' (n / 10) ++ [digit_char (n mod 10)]
  end.

(** The decimal digits of a non-negative integer, most significant
    first. *)
Definition digits (n : Z) : list ascii :=
  digits_upto (S (Z.to_nat (Z.log2 n))) n.

Definition zeros (k : nat) : list ascii := repeat "0"%char k.

Definition text (l : list ascii) : string := string_of_list_ascii l.

(** The [n] with [10^(n-1) <= p / q < 10^n], for [p, q > 0]. *)
Definition decimal_exponent (p q : Z) : Z :=
  let c := Z.of_nat (List.length (digits p)) - Z.of_nat (List.length (digits q)) in
  let reaches := if 0 <=? c then q * 10 ^ c <=? p else q <=? p * 10 ^ (- c) in
  if reaches then c + 1 else c.

(** *** Number to string

    [shortest] finds the integers [s] (of [k] digits) and [n] of
    Number::toString: [s * 10^(n-k)] reads back as [x], with [k] as small
    as possible, and among the candidates the one closest to [x], the even
    one on a tie.  Seventeen digits always suffice. *)
Fixpoint shortest (fuel : nat) (k : nat) (p q n : Z) (x : num) : Z * nat * Z :=
  let kz := Z.of_nat k in
  let sc := n - kz in
  let P := if 0 <=? sc then p else p * 10 ^ (- sc) in
  let Q := if 0 <=? sc then q * 10 ^ sc else q in
  let lo := P / Q in
  let hi := lo + 1 in
  let r := 2 * (P - lo * Q) in
  let closest :=
    if r <? Q then lo else if Q <? r then hi
    else if Z.even lo then lo else hi in
  let carry (s : Z) : Z * nat * Z :=
    if s =? 10 ^ kz then (10 ^ (kz - 1), k, n + 1) else (s, k, n) in
  match fuel with
  | O => carry closest
  | S fuel' =>
      let ok_lo := same_magnitude (decimal false lo sc) x in
      let ok_hi := same_magnitude (decimal false hi sc) x in
      if ok_lo && ok_hi then carry closest
      else if ok_lo then carry lo
      else if ok_hi then carry hi
      else shortest fuel' (S k) p q n x
  end.

(** Steps 6 to 10 of Number::toString (radix 10). *)
Definition layout (s : Z) (k : nat) (n : Z) : list ascii :=
  let ds := digits s in
  let kz := Z.of_nat k in
  if (kz <=? n) && (n <=? 21) then ds ++ zeros (Z.to_nat (n - kz))
  else if (0 <? n) && (n <=? 21) then
    firstn (Z.to_nat n) ds ++ ["."%char] ++ skipn (Z.to_nat n) ds
  else if (-6 <? n) && (n <=? 0) then
    ["0"; "."]%char ++ zeros (Z.to_nat (- n)) ++ ds
  else
    let e := n - 1 in
    let es := (if e <? 0 then "-"%char else "+"%char) :: digits (Z.abs e) in
    if (k =? 1)%nat then ds ++ ["e"%char] ++ es
    else firstn 1 ds ++ ["."%char] ++ skipn 1 ds ++ ["e"%char] ++ es.

Definition toString (x : num) : string :=
  match x with
  | S754_nan => "NaN"
  | S754_zero _ => "0"
  | S754_infinity true => "-Infinity"
  | S754_infinity false => "Infinity"
  | S754_finite neg m e =>
      let p := exact_num m e in
      let q := exact_den e in
      let '(s, k, n) := shortest 16 1 p q (decimal_exponent p q) x in
      text ((if neg then ["-"%char] else []) ++ layout s k n)
  end.

(** *** Number.prototype.toFixed *)

(** The integer [n] for which [n / 10^f] is nearest to [p / q], the
    larger one on a tie ([p >= 0], [q > 0]). *)
Definition round_fixed (f : nat) (p q : Z) : Z :=
  (2 * p * 10 ^ Z.of_nat f + q) / (2 * q).

(** The integer [n] of [10^-f] units, written out: its digits, padded
    with zeros to more than [f] of them, with the point before the last
    [f]. *)
Definition fixed_digits (f : nat) (n : Z) : list ascii :=
  let m := digits n in
  match f with
  | O => m
  | _ =>
      let k := List.length m in
      let m' := if (k <=? f)%nat then zeros (f + 1 - k) ++ m else m in
      let k' := List.length m' in
      firstn (k' - f) m' ++ ["."%char] ++ skipn (k' - f) m'
  end.

(** [toFixed] of the exact non-negative value [p / q]. *)
Definition toFixed_exact (f : nat) (p q : Z) : string :=
  text (fixed_digits f (round_fixed f p q)).

(** [x.toFixed(f)]: values that are not finite, and magnitudes of
    [10^21] and above, are printed by [toString]; a negative value
    keeps its sign even when it rounds to zero. *)
Definition toFixed (f : nat) (x : num) : string :=
  match x with
  | S754_zero _ => toFixed_exact f 0 1
  | S754_finite neg m e =>
      let p := exact_num m e in
      let q := exact_den e in
      if 10 ^ 21 * q <=? p then toString x
      else ((if neg then "-" else "") ++ toFixed_exact f p q)%string
  | _ => toString x
  end.

(** *** parseFloat *)

Definition is_digit (c : ascii) : bool :=
  let n := nat_of_ascii c in ((48 <=? n) && (n <=? 57))%nat.

Definition digit_value (c : ascii) : Z := Z.of_nat (nat_of_ascii c) - 48.

Definition is_space (c : ascii) : bool :=
  let n := nat_of_ascii c in ((n =? 32) || ((9 <=? n) && (n <=? 13)))%nat.

Fixpoint skip_spaces (l : list ascii) : list ascii :=
  match l with
  | c :: r => if is_space c then skip_spaces r else l
  | [] => []
  end.

(** Reads a run of digits onto the accumulator, counting them. *)
Fixpoint read_digits (l : list ascii) (acc : Z) (count : nat)
  : Z * nat * list ascii :=
  match l with
  | c :: r =>
      if is_digit c then read_digits r (10 * acc + digit_value c) (S count)
      else (acc, count, l)
  | [] => (acc, count, [])
  end.

Definition read_sign (l : list ascii) : bool * list ascii :=
  match l with
  | "-"%char :: r => (true, r)
  | "+"%char :: r => (false, r)
  | _ => (false, l)
  end.

Fixpoint starts_with (pre l : list ascii) : bool :=
  match pre, l with
  | [], _ => true
  | a :: pre', b :: l' => Ascii.eqb a b && starts_with pre' l'
  | _ :: _, [] => false
  end.

(** The optional exponent part: it counts only when digits follow. *)
Definition read_exponent (l : list ascii) : Z :=
  match l with
  | c :: r =>
      if Ascii.eqb c "e" || Ascii.eqb c "E" then
        let '(eneg, r1) := read_sign r in
        let '(ev, ne, _) := read_digits r1 0 0 in
        if (ne =? 0)%nat then 0 else if eneg then - ev else ev
      else 0
  | [] => 0
  end.

(** What the longest prefix of a string that is a decimal literal
    denotes: [m * 10^e10] with a sign, an infinity, or nothing. *)
Inductive literal : Type :=
| NotANumber
| Infinite (neg : bool)
| Decimal (neg : bool) (m e10 : Z).

Definition read_literal (s : string) : literal :=
  let '(neg, l1) := read_sign (skip_spaces (list_ascii_of_string s)) in
  if starts_with (list_ascii_of_string "Infinity") l1 then Infinite neg
  else
    let '(ip, ni, l2) := read_digits l1 0 0 in
    let '(m, nf, l3) :=
      match l2 with
      | "."%char :: r => read_digits r ip 0
      | _ => (ip, O, l2)
      end in
    if (ni + nf =? 0)%nat then NotANumber
    else Decimal neg m (read_exponent l3 - Z.of_nat nf).

(** [parseFloat(s)]: the Number nearest to what the longest prefix of
    [s], after leading white space, denotes as a decimal literal; [NaN]
    when there is none. *)
Definition parseFloat (s : string) : num :=
  match read_literal s with
  | NotANumber => S754_nan
  | Infinite neg => S754_infinity neg
  | Decimal neg m e10 => decimal neg m e10
  end.

(** [parseFloat(v)] of a value that is either absent ([undefined] reads
    as [NaN]) or a Number, which is converted to its string first. *)
Definition parseFloat_value (o : option num) : num :=
  match o with
  | None => S754_nan
  | Some x => parseFloat (toString x)
  end.

End JsNumber.

(** ** The runtime around the script *)

(** Completions: a call returns normally or throws.  The state it has
    written up to the throw stays written. *)
Module Js.

Inductive completion (A : Type) : Type :=
| Normal (a : A)
| Throw (e : string).
Arguments Normal {A} a.
Arguments Throw {A} e.

Definition M (S A : Type) : Type := S -> completion A * S.

Definition ret {S A : Type} (a : A) : M S A := fun s => (Normal a, s).

Definition bind {S A B : Type} (m : M S A) (f : A -> M S B) : M S B :=
  fun s =>
    match m s with
    | (Normal a, s') => f a s'
    | (Throw e, s') => (Throw e, s')
    end.

Definition throw {S A : Type} (e : string) : M S A := fun s => (Throw e, s).

(** [try { body } catch (error) { handler }]. *)
Definition tryCatch {S A : Type} (body : M S A) (handler : string -> M S A)
  : M S A :=
  fun s =>
    match body s with
    | (Throw e, s') => handler e s'
    | r => r
    end.

Definition gets {S A : Type} (f : S -> A) : M S A := fun s => (Normal (f s), s).

Definition modify {S : Type} (f : S -> S) : M S unit :=
  fun s => (Normal tt, f s).

(** Reading a property of, or calling a method on, a value that may be
    [undefined] throws a TypeError. *)
Definition defined {S A : Type} (o : option A) (what : string) : M S A :=
  match o with
  | Some a => ret a
  | None => throw ("TypeError: " ++ what ++ " is undefined")
  end.

(** [xs.forEach(f)]. *)
Fixpoint forEach {S A : Type} (xs : list A) (f : A -> M S unit) : M S unit :=
  match xs with
  | [] => ret tt
  | x :: r => bind (f x) (fun _ => forEach r f)
  end.

Definition exec {S A : Type} (m : M S A) (s : S) : S := snd (m s).

(** Total correctness: from [s], the call returns normally, with a
    value and in a state that satisfy [post]. *)
Definition results {S A : Type} (m : M S A) (s : S) (post : A -> S -> Prop)
  : Prop :=
  exists a s', m s = (Normal a, s') /\ post a s'.

Definition ends {S A : Type} (m : M S A) (s : S) (post : S -> Prop) : Prop :=
  results m s (fun _ => post).

(** From [s], the call throws, in a state that satisfies [post]. *)
Definition throws {S A : Type} (m : M S A) (s : S) (post : S -> Prop) : Prop :=
  exists e s', m s = (Throw e, s') /\ post s'.

End Js.

Declare Scope js_scope.
Delimit Scope js_scope with js.
Notation "x <- c1 ;; c2" := (Js.bind c1 (fun x => c2))
  (at level 61, c1 at next level, right associativity) : js_scope.
Notation "c1 ;; c2" := (Js.bind c1 (fun _ => c2))
  (at level 61, right associativity) : js_scope.

(** The page.  An element is named by the id (or selector) the script
    looks it up with, and holds properties.  The markup is not part of
    the script: [present] tells which elements the page has, and is
    consulted where the script tests an element before using it; the
    elements it uses untested are taken to be there. *)
Module Dom.

#[local] Unset Elimination Schemes.
Inductive value : Type :=
| Str (s : string)
| Flag (b : bool)
| Locale (x : JsNumber.num)            (* x.toLocaleString() *)
| Currency (x : JsNumber.num)          (* formatCurrency(x) *)
| DateText (s : option string)         (* formatDate(s) *)
| Element (tag : string) (slots : list value)
| Children (items : list value).
#[local] Set Elimination Schemes.

Record dom : Type := {
  prop : string -> string -> value;
  present : string -> bool
}.

Definition set_prop (el name : string) (v : value) (d : dom) : dom :=
  {| prop := fun el' name' =>
       if String.eqb el el' && String.eqb name name' then v
       else prop d el' name';
     present := present d |}.

Definition display (d : dom) (el : string) : value := prop d el "style.display".
Definition textContent (d : dom) (el : string) : value := prop d el "textContent".

(** [el.appendChild(child)]. *)
Definition appendChild (el : string) (child : value) (d : dom) : dom :=
  let old :=
    match prop d el "innerHTML" with
    | Children l => l
    | _ => []
    end in
  set_prop el "innerHTML" (Children (old ++ [child])) d.

(** A page with every element, nothing set on any of them. *)
Definition blank : dom := {| prop := fun _ _ => Str ""; present := fun _ => true |}.

(** A file handed over by the file picker or a drop. *)
Record File : Type := { name : string; size : N }.

(** What awaiting [fetch(...)] and then [response.json()] may give. *)
Inductive fetched (A : Type) : Type :=
| FetchRejected
| JsonRejected
| Json (body : A).
Arguments FetchRejected {A}.
Arguments JsonRejected {A}.
Arguments Json {A} body.

End Dom.

(** ** Formatting helpers shared by both variants *)

Module Format.

Import JsNumber.

Definition k : Z := 1024.
Definition sizes : list string := ["Bytes"; "KB"; "MB"; "GB"].

(** [Math.floor(Math.log(bytes) / Math.log(k))] for [bytes >= 1]: the
    largest [i] with [k^i <= bytes]. *)
Definition log_k_floor (bytes : Z) : Z := Z.log2 bytes / 10.

(** [sizes[i]], printed: an index past the table reads [undefined]. *)
Definition unit_name (i : Z) : string := nth (Z.to_nat i) sizes "undefined".

(** [formatFileSize(bytes)].  [bytes] is a whole Number and [k^i] a power
    of two, so the quotient [bytes / Math.pow(k, i)] is computed exactly;
    [toFixed] is applied to that exact value. *)
Definition formatFileSize (bytes : N) : string :=
  if (bytes =? 0)%N then "0 Bytes"
  else
    let i := log_k_floor (Z.of_N bytes) in
    toString (parseFloat (toFixed_exact 2 (Z.of_N bytes) (k ^ i)))
      ++ " " ++ unit_name i.

End Format.

(** ** The JSON the server answers with *)

Module Server.

Import JsNumber.

(** Absent (or [null]) fields are [None]. *)
Record Summary : Type := {
  original_rows : option num;
  asins_removed : option num;
  campaigns_processed : option num;
  total_flagged : option num;
  total_spend : option num;
  total_sales : option num;
  total_orders : option num
}.

Record CampaignDetail : Type := {
  monograms : option num;
  bigrams : option num;
  trigrams : option num;
  search_terms : option num;
  spend : option num;
  sales : option num
}.

(** The answer of [POST /upload].  [campaign_details] is an object keyed
    by campaign name; its entries are kept in their order. *)
Record UploadResult : Type := {
  success : bool;
  output_file : option string;
  asin_file : option string;
  summary : option Summary;
  campaigns : option (list string);
  campaign_details : option (list (string * CampaignDetail));
  error : option string
}.

(** [v || 0] for a possibly absent Number. *)
Definition or_zero (o : option num) : num :=
  match o with
  | Some x => JsNumber.or_zero x
  | None => zero
  end.

End Server.

(** ** The simpler variant of the script *)

Module Simple.

Import Js Dom Server.
Local Open Scope js_scope.

(** The elements bound at the top of the script. *)
Definition uploadBox : string := "upload-box".
Definition fileInput : string := "file-input".
Definition fileInfo : string := "file-info".
Definition settingsSection : string := "settings-section".
Definition progressSection : string := "progress-section".
Definition progressText : string := "progress-text".
Definition resultsSection : string := "results-section".
Definition errorSection : string := "error-section".
Definition errorMessage : string := "error-message".
(** [document.querySelector('.upload-section')]. *)
Definition uploadSection : string := ".upload-section".

Inductive field : Type :=
| FileField (f : File)
| ValueField (v : value).

(** What the script does to the world outside the page model. *)
Inductive effect : Type :=
| Fetch (method url : string) (form : list (string * field))
| ConsoleError (label : string)
| Download (href filename : string)
| ScrollIntoView (el : string).

Record State : Type := {
  selectedFile : option File;
  outputFilename : option string;
  page : dom;
  trace : list effect
}.

Definition set_selectedFile (f : option File) (st : State) : State :=
  {| selectedFile := f; outputFilename := outputFilename st;
     page := page st; trace := trace st |}.

Definition set_outputFilename (o : option string) (st : State) : State :=
  {| selectedFile := selectedFile st; outputFilename := o;
     page := page st; trace := trace st |}.

Definition on_page (f : dom -> dom) (st : State) : State :=
  {| selectedFile := selectedFile st; outputFilename := outputFilename st;
     page := f (page st); trace := trace st |}.

Definition emit (e : effect) (st : State) : State :=
  {| selectedFile := selectedFile st; outputFilename := outputFilename st;
     page := page st; trace := trace st ++ [e] |}.

Definition assign (el name : string) (v : value) : M State unit :=
  modify (on_page (set_prop el name v)).

Definition set_display (el : string) (v : string) : M State unit :=
  assign el "style.display" (Str v).

Definition set_text (el : string) (v : value) : M State unit :=
  assign el "textContent" v.

(** [await fetch(url, {method, body})]. *)
Definition fetch {A : Type} (method url : string) (form : list (string * field))
    (reply : fetched A) : M State (fetched A) :=
  modify (emit (Fetch method url form)) ;;
  match reply with
  | FetchRejected => throw "TypeError: Failed to fetch"
  | r => ret r
  end.

(** [await response.json()]. *)
Definition json {A : Type} (response : fetched A) : M State A :=
  match response with
  | Json body => ret body
  | _ => throw "SyntaxError: Unexpected token"
  end.

Definition showSection (section : string) : M State unit :=
  (* Hide all sections *)
  set_display uploadSection "none" ;;
  set_display settingsSection "none" ;;
  set_display progressSection "none" ;;
  set_display resultsSection "none" ;;
  set_display errorSection "none" ;;
  (* Show requested section *)
  if String.eqb section "upload" then
    set_display uploadSection "block"
  else if String.eqb section "settings" then
    set_display uploadSection "block" ;;
    set_display settingsSection "block"
  else if String.eqb section "progress" then
    set_display progressSection "block"
  else if String.eqb section "results" then
    set_display resultsSection "block"
  else if String.eqb section "error" then
    set_display errorSection "block"
  else ret tt.

Definition updateProgress (message : string) : M State unit :=
  set_text progressText (Str message).

Definition showError (message : string) : M State unit :=
  set_text errorMessage (Str message) ;;
  showSection "error".

Definition handleFile (file : File) : M State unit :=
  (* Validate file type *)
  if negb (JsString.endsWith (JsString.toLowerCase (name file)) ".csv") then
    showError "Please upload a CSV file."
  (* Validate file size (50MB max) *)
  else if (50 * 1024 * 1024 <? size file)%N then
    showError "File size exceeds 50MB limit."
  else
    modify (set_selectedFile (Some file)) ;;
    (* Update UI *)
    set_text fileInfo
      (Str ("Selected: " ++ name file ++ " ("
            ++ Format.formatFileSize (size file) ++ ")")) ;;
    assign fileInfo "classList.success" (Flag true) ;;
    (* Show settings section *)
    set_display settingsSection "block" ;;
    (* Scroll to settings *)
    modify (emit (ScrollIntoView settingsSection)).

Definition formatCurrency (v : option JsNumber.num) : value :=
  Currency (JsNumber.parseFloat_value v).

Definition displayResults (result : UploadResult) : M State unit :=
  (* Update summary cards *)
  s <- defined (summary result) "result.summary" ;;
  rows <- defined (original_rows s) "result.summary.original_rows" ;;
  set_text "total-rows" (Locale rows) ;;
  asins <- defined (asins_removed s) "result.summary.asins_removed" ;;
  set_text "asins-removed" (Locale asins) ;;
  count <- defined (campaigns_processed s) "result.summary.campaigns_processed" ;;
  set_text "campaigns-count" (Locale count) ;;
  flagged <- defined (total_flagged s) "result.summary.total_flagged" ;;
  set_text "flagged-count" (Locale flagged) ;;
  (* Update metrics *)
  set_text "total-spend" (formatCurrency (total_spend s)) ;;
  set_text "total-sales" (formatCurrency (total_sales s)) ;;
  (* Update campaigns list *)
  assign "campaign-names" "innerHTML" (Children []) ;;
  names <- defined (campaigns result) "result.campaigns" ;;
  forEach names (fun campaign =>
    modify (on_page (appendChild "campaign-names" (Element "li" [Str campaign])))) ;;
  (* Show results section *)
  showSection "results".

(** [processFile()], with what the server answers to the request it
    sends, if it sends one. *)
Definition processFile (reply : fetched UploadResult) : M State unit :=
  sel <- gets selectedFile ;;
  match sel with
  | None => showError "Please select a file first."
  | Some file =>
      (* Show progress *)
      showSection "progress" ;;
      updateProgress "Uploading file..." ;;
      (* Prepare form data *)
      min_clicks <- gets (fun st => prop (page st) "min-clicks" "value") ;;
      min_spend <- gets (fun st => prop (page st) "min-spend" "value") ;;
      let formData :=
        [("file", FileField file);
         ("min_clicks", ValueField min_clicks);
         ("min_spend", ValueField min_spend)] in
      tryCatch
        (updateProgress "Processing CSV data..." ;;
         response <- fetch "POST" "/upload" formData reply ;;
         result <- json response ;;
         if success result then
           modify (set_outputFilename (output_file result)) ;;
           displayResults result
         else
           showError (JsString.or_else (error result)
                        "An error occurred while processing the file."))
        (fun _ =>
           modify (emit (ConsoleError "Error:")) ;;
           showError "Network error. Please check your connection and try again.")
  end.

Definition downloadFile : M State unit :=
  out <- gets outputFilename ;;
  if negb (JsString.truthy out) then showError "No file available for download."
  else
    let f := JsString.or_else out "" in
    modify (emit (Download ("/download/" ++ f) f)).

Definition resetForm : M State unit :=
  (* Reset state *)
  modify (set_selectedFile None) ;;
  modify (set_outputFilename None) ;;
  (* Reset file input *)
  assign fileInput "value" (Str "") ;;
  (* Reset file info *)
  set_text fileInfo (Str "") ;;
  assign fileInfo "classList.success" (Flag false) ;;
  (* Reset settings *)
  assign "min-clicks" "value" (Str "3") ;;
  assign "min-spend" "value" (Str "0.01") ;;
  (* Show upload section *)
  showSection "upload".

(** The state the script starts in. *)
Definition initial : State :=
  {| selectedFile := None; outputFilename := None; page := blank; trace := [] |}.

(** The primary-flow panels, and which of them are on show. *)
Definition panels : list string :=
  [uploadSection; settingsSection; progressSection; resultsSection; errorSection].

Definition shown (st : State) (el : string) : bool :=
  match display (page st) el with
  | Str v => String.eqb v "block"
  | _ => false
  end.

Definition visible_panels (st : State) : list string := filter (shown st) panels.

End Simple.

(** ** The richer variant of the script *)

Module Rich.

Import Js Dom Server.
Local Open Scope js_scope.

(** The elements bound at the top of the script. *)
Definition uploadBox : string := "upload-box".
Definition fileInput : string := "file-input".
Definition fileInfo : string := "file-info".
Definition processSection : string := "process-section".
Definition progressSection : string := "progress-section".
Definition progressText : string := "progress-text".
Definition resultsSection : string := "results-section".
Definition errorSection : string := "error-section".
Definition errorMessage : string := "error-message".
Definition downloadAsinBtn : string := "download-asin-btn".
Definition archiveBtn : string := "archive-btn".
(** [document.querySelector('.upload-section')]. *)
Definition uploadSection : string := ".upload-section".

(** [analyticsData]: the summary's fields spread out, and what is added
    to them.  The campaign details are objects, as the server sends
    them.  A detail that is [null], on which the renderers would throw
    where they read its counts, is not represented: what is stated of a
    snapshot is stated of snapshots without one. *)
Record Analytics : Type := {
  totals : Summary;
  campaigns : option (list string);
  campaignDetails : option (list (string * CampaignDetail));
  filename : option string;
  processedAt : option string
}.

Definition no_summary : Summary :=
  {| original_rows := None; asins_removed := None; campaigns_processed := None;
     total_flagged := None; total_spend := None; total_sales := None;
     total_orders := None |}.

(** An entry of the archive list. *)
Record ArchiveItem : Type := {
  item_id : option string;
  item_filename : option string;
  item_originalFilename : option string;
  item_processedAt : option string;
  item_summary : option Summary
}.

(** The answer of [GET /archive]; an entry may be [null]. *)
Record ArchiveList : Type := {
  list_success : bool;
  archives : option (list (option ArchiveItem))
}.

(** The answer of [POST /archive]. *)
Record ArchiveReply : Type := {
  reply_success : bool;
  reply_error : option string
}.

Inductive body : Type :=
| NoBody
| FormData (file : File)
| ArchiveRequest (filename : option string) (originalFilename : string)
    (summary : Analytics) (processedAt : string).

Inductive effect : Type :=
| Fetch (method url : string) (payload : body)
| ConsoleError (label : string)
| Download (href filename : string)
| ScrollIntoView (el : string)
| SetTimeout (delay : Z).

Record State : Type := {
  selectedFile : option File;
  outputFilename : option string;
  asinFilename : option string;
  lastProcessedData : option UploadResult;
  analyticsData : option Analytics;
  page : dom;
  trace : list effect
}.

Definition set_selectedFile (f : option File) (st : State) : State :=
  {| selectedFile := f; outputFilename := outputFilename st;
     asinFilename := asinFilename st; lastProcessedData := lastProcessedData st;
     analyticsData := analyticsData st; page := page st; trace := trace st |}.

Definition set_outputFilename (o : option string) (st : State) : State :=
  {| selectedFile := selectedFile st; outputFilename := o;
     asinFilename := asinFilename st; lastProcessedData := lastProcessedData st;
     analyticsData := analyticsData st; page := page st; trace := trace st |}.

Definition set_asinFilename (o : option string) (st : State) : State :=
  {| selectedFile := selectedFile st; outputFilename := outputFilename st;
     asinFilename := o; lastProcessedData := lastProcessedData st;
     analyticsData := analyticsData st; page := page st; trace := trace st |}.

Definition set_lastProcessedData (r : option UploadResult) (st : State) : State :=
  {| selectedFile := selectedFile st; outputFilename := outputFilename st;
     asinFilename := asinFilename st; lastProcessedData := r;
     analyticsData := analyticsData st; page := page st; trace := trace st |}.

Definition set_analyticsData (a : option Analytics) (st : State) : State :=
  {| selectedFile := selectedFile st; outputFilename := outputFilename st;
     asinFilename := asinFilename st; lastProcessedData := lastProcessedData st;
     analyticsData := a; page := page st; trace := trace st |}.

Definition on_page (f : dom -> dom) (st : State) : State :=
  {| selectedFile := selectedFile st; outputFilename := outputFilename st;
     asinFilename := asinFilename st; lastProcessedData := lastProcessedData st;
     analyticsData := analyticsData st; page := f (page st); trace := trace st |}.

Definition emit (e : effect) (st : State) : State :=
  {| selectedFile := selectedFile st; outputFilename := outputFilename st;
     asinFilename := asinFilename st; lastProcessedData := lastProcessedData st;
     analyticsData := analyticsData st; page := page st;
     trace := trace st ++ [e] |}.

Definition assign (el name : string) (v : value) : M State unit :=
  modify (on_page (set_prop el name v)).

Definition set_display (el : string) (v : string) : M State unit :=
  assign el "style.display" (Str v).

Definition set_text (el : string) (v : value) : M State unit :=
  assign el "textContent" v.

(** [if (el) ...]: the element was found in the page. *)
Definition found (el : string) : M State bool :=
  gets (fun st => present (page st) el).

Definition when_found (el : string) (m : M State unit) : M State unit :=
  b <- found el ;; if b then m else ret tt.

(** [await fetch(url, {method, body})]. *)
Definition fetch {A : Type} (method url : string) (payload : body)
    (reply : fetched A) : M State (fetched A) :=
  modify (emit (Fetch method url payload)) ;;
  match reply with
  | FetchRejected => throw "TypeError: Failed to fetch"
  | r => ret r
  end.

(** [await response.json()]. *)
Definition json {A : Type} (response : fetched A) : M State A :=
  match response with
  | Json b => ret b
  | _ => throw "SyntaxError: Unexpected token"
  end.

Definition showSection (section : string) : M State unit :=
  (* Hide all sections within dashboard *)
  when_found uploadSection (set_display uploadSection "none") ;;
  when_found processSection (set_display processSection "none") ;;
  when_found progressSection (set_display progressSection "none") ;;
  when_found resultsSection (set_display resultsSection "none") ;;
  when_found errorSection (set_display errorSection "none") ;;
  (* Show requested section *)
  if String.eqb section "upload" then
    when_found uploadSection (set_display uploadSection "block")
  else if String.eqb section "process" then
    when_found uploadSection (set_display uploadSection "block") ;;
    when_found processSection (set_display processSection "block")
  else if String.eqb section "progress" then
    when_found progressSection (set_display progressSection "block")
  else if String.eqb section "results" then
    when_found resultsSection (set_display resultsSection "block")
  else if String.eqb section "error" then
    when_found errorSection (set_display errorSection "block")
  else ret tt.

Definition updateProgress (message : string) : M State unit :=
  set_text progressText (Str message).

Definition showError (message : string) : M State unit :=
  set_text errorMessage (Str message) ;;
  showSection "error".

Definition handleFile (file : File) : M State unit :=
  (* Validate file type *)
  if negb (JsString.endsWith (JsString.toLowerCase (name file)) ".csv") then
    showError "Please upload a CSV file."
  (* Validate file size (50MB max) *)
  else if (50 * 1024 * 1024 <? size file)%N then
    showError "File size exceeds 50MB limit."
  else
    modify (set_selectedFile (Some file)) ;;
    (* Update UI *)
    set_text fileInfo
      (Str ("Selected: " ++ name file ++ " ("
            ++ Format.formatFileSize (size file) ++ ")")) ;;
    assign fileInfo "classList.success" (Flag true) ;;
    (* Show process section *)
    set_display processSection "block" ;;
    (* Scroll to process button *)
    modify (emit (ScrollIntoView processSection)).

Definition formatCurrency (v : option JsNumber.num) : value :=
  Currency (JsNumber.parseFloat_value v).

Definition displayResults (result : UploadResult) : M State unit :=
  (* Update summary cards *)
  s <- defined (summary result) "result.summary" ;;
  rows <- defined (original_rows s) "result.summary.original_rows" ;;
  set_text "total-rows" (Locale rows) ;;
  asins <- defined (asins_removed s) "result.summary.asins_removed" ;;
  set_text "asins-removed" (Locale asins) ;;
  count <- defined (campaigns_processed s) "result.summary.campaigns_processed" ;;
  set_text "campaigns-count" (Locale count) ;;
  (* Update metrics *)
  set_text "total-spend" (formatCurrency (total_spend s)) ;;
  set_text "total-sales" (formatCurrency (total_sales s)) ;;
  (* Update campaigns list *)
  assign "campaign-names" "innerHTML" (Children []) ;;
  names <- defined (Server.campaigns result) "result.campaigns" ;;
  forEach names (fun campaign =>
    modify (on_page (appendChild "campaign-names" (Element "li" [Str campaign])))) ;;
  (* Show/hide ASIN download button *)
  when_found downloadAsinBtn
    (if JsString.truthy (asin_file result)
     then set_display downloadAsinBtn "inline-flex"
     else set_display downloadAsinBtn "none") ;;
  (* Show results section *)
  showSection "results".

(** [processFile()], with what the server answers to the request it
    sends, if it sends one, and the time [new Date().toISOString()]
    reads. *)
Definition processFile (reply : fetched UploadResult) (now : string)
  : M State unit :=
  sel <- gets selectedFile ;;
  match sel with
  | None => showError "Please select a file first."
  | Some file =>
      (* Show progress *)
      showSection "progress" ;;
      updateProgress "Uploading file..." ;;
      tryCatch
        (updateProgress "Processing CSV data..." ;;
         response <- fetch "POST" "/upload" (FormData file) reply ;;
         result <- json response ;;
         if success result then
           modify (set_outputFilename (output_file result)) ;;
           modify (set_asinFilename (asin_file result)) ;;
           modify (set_lastProcessedData (Some result)) ;;
           (* Store analytics data *)
           modify (set_analyticsData (Some
             {| totals := match summary result with
                          | Some s => s
                          | None => no_summary
                          end;
                campaigns := Server.campaigns result;
                campaignDetails := Some match campaign_details result with
                                        | Some d => d
                                        | None => []
                                        end;
                filename := Some (name file);
                processedAt := Some now |})) ;;
           displayResults result
         else
           showError (JsString.or_else (error result)
                        "An error occurred while processing the file."))
        (fun _ =>
           modify (emit (ConsoleError "Error:")) ;;
           showError "Network error. Please check your connection and try again.")
  end.

Definition downloadFile : M State unit :=
  out <- gets outputFilename ;;
  if negb (JsString.truthy out) then showError "No file available for download."
  else
    let f := JsString.or_else out "" in
    modify (emit (Download ("/download/" ++ f) f)).

Definition downloadAsinFile : M State unit :=
  out <- gets asinFilename ;;
  if negb (JsString.truthy out) then showError "No ASIN file available for download."
  else
    let f := JsString.or_else out "" in
    modify (emit (Download ("/download/" ++ f) f)).

(** The two faces of the archive button. *)
Definition archiveButtonIdle : value := Element "svg-archive" [Str "Archive Report"].
Definition archiveButtonDone : value := Element "svg-check" [Str "Archived!"].

(** The callback handed to [setTimeout]. *)
Definition archiveButtonRevert : M State unit :=
  assign archiveBtn "innerHTML" archiveButtonIdle ;;
  assign archiveBtn "disabled" (Flag false) ;;
  assign archiveBtn "style.opacity" (Str "1").

(** [archiveReport()], with the server's answer and the current time. *)
Definition archiveReport (reply : fetched ArchiveReply) (now : string)
  : M State unit :=
  out <- gets outputFilename ;;
  data <- gets analyticsData ;;
  match data with
  | Some summary =>
      if negb (JsString.truthy out) then showError "No report available to archive."
      else
        tryCatch
          (sel <- gets selectedFile ;;
           let originalFilename :=
             match sel with
             | Some f => name f
             | None => "Unknown"
             end in
           response <- fetch "POST" "/archive"
                         (ArchiveRequest out originalFilename summary now) reply ;;
           result <- json response ;;
           if reply_success result then
             (* Show success message *)
             assign archiveBtn "innerHTML" archiveButtonDone ;;
             assign archiveBtn "disabled" (Flag true) ;;
             assign archiveBtn "style.opacity" (Str "0.7") ;;
             (* Reset button after 2 seconds *)
             modify (emit (SetTimeout 2000))
           else
             showError (JsString.or_else (reply_error result)
                          "Failed to archive report."))
          (fun _ =>
             modify (emit (ConsoleError "Error archiving:")) ;;
             showError "Failed to archive report. Please try again.")
  | None => showError "No report available to archive."
  end.

(** [`${v}`] of a possibly absent string. *)
Definition interpolate (o : option string) : string :=
  match o with
  | Some v => v
  | None => "undefined"
  end.

(** One entry of the archive list, as the template lays it out. *)
Definition archiveItem (entry : option ArchiveItem) : M State value :=
  item <- defined entry "item" ;;
  let totals :=
    match item_summary item with
    | Some t => t
    | None => no_summary
    end in
  ret (Element "archive-item"
         [Str (interpolate (item_id item));
          Str (JsString.or_else (item_originalFilename item) "Search Term Report");
          DateText (item_processedAt item);
          Str (interpolate (item_filename item));
          Str (JsNumber.toString (or_zero (campaigns_processed totals)));
          formatCurrency (Some (or_zero (total_spend totals)));
          formatCurrency (Some (or_zero (total_sales totals)))]).

(** [xs.map(f)] for an [f] that may throw. *)
Fixpoint mapM {A B : Type} (f : A -> M State B) (xs : list A) : M State (list B) :=
  match xs with
  | [] => ret []
  | x :: r => y <- f x ;; ys <- mapM f r ;; ret (y :: ys)
  end.

(** [loadArchive()], with the server's answer. *)
Definition loadArchive (reply : fetched ArchiveList) : M State unit :=
  tryCatch
    (response <- fetch "GET" "/archive" NoBody reply ;;
     result <- json response ;;
     match list_success result, archives result with
     | true, Some (first :: rest) =>
         set_display "archive-empty" "none" ;;
         set_display "archive-content" "block" ;;
         items <- mapM archiveItem (first :: rest) ;;
         assign "archive-list" "innerHTML" (Children items)
     | _, _ =>
         set_display "archive-empty" "block" ;;
         set_display "archive-content" "none"
     end)
    (fun _ => modify (emit (ConsoleError "Error loading archive:"))).

(** The current [analyticsData], which the renderers dereference. *)
Definition currentAnalytics : M State Analytics :=
  data <- gets analyticsData ;;
  defined data "analyticsData".

(** [Object.keys(d).length === 0] or [d] absent. *)
Definition no_details (a : Analytics) : bool :=
  match campaignDetails a with
  | Some (_ :: _) => false
  | _ => true
  end.

Definition details_of (a : Analytics) : list (string * CampaignDetail) :=
  match campaignDetails a with
  | Some d => d
  | None => []
  end.

Definition updateCampaignBreakdownTable : M State unit :=
  assign "campaign-breakdown-body" "innerHTML" (Children []) ;;
  a <- currentAnalytics ;;
  if no_details a then
    (* If no detailed data, show basic campaign list *)
    match campaigns a with
    | Some names =>
        forEach names (fun campaign =>
          modify (on_page (appendChild "campaign-breakdown-body"
            (Element "tr" [Str campaign; Str "-"; Str "-"; Str "-";
                           Str "-"; Str "-"; Str "-"]))))
    | None => ret tt
    end
  else
    forEach (details_of a) (fun '(campaignName, data) =>
      modify (on_page (appendChild "campaign-breakdown-body"
        (Element "tr"
           [Str campaignName;
            Locale (or_zero (monograms data));
            Locale (or_zero (bigrams data));
            Locale (or_zero (trigrams data));
            Locale (or_zero (search_terms data));
            formatCurrency (Some (or_zero (spend data)));
            formatCurrency (Some (or_zero (sales data)))])))).

(** The three-category total of a campaign. *)
Definition total (data : CampaignDetail) : JsNumber.num :=
  JsNumber.add (JsNumber.add (or_zero (monograms data)) (or_zero (bigrams data)))
               (or_zero (trigrams data)).

(** [((count || 0) / total * 100).toFixed(1)]. *)
Definition percent (count : option JsNumber.num) (total : JsNumber.num) : string :=
  JsNumber.toFixed 1
    (JsNumber.mul (JsNumber.div (or_zero count) total) JsNumber.hundred).

Definition legend (label : string) (count : option JsNumber.num) (pct : string)
  : value :=
  Str (label ++ ": " ++ JsNumber.toString (or_zero count) ++ " (" ++ pct ++ "%)").

(** The card of one campaign. *)
Definition distributionCard (campaignName : string) (data : CampaignDetail)
  : value :=
  let monoPercent := percent (monograms data) (total data) in
  let biPercent := percent (bigrams data) (total data) in
  let triPercent := percent (trigrams data) (total data) in
  Element "distribution-card"
    [Str campaignName;
     Element "distribution-bar"
       [Str (monoPercent ++ "%"); Str (biPercent ++ "%"); Str (triPercent ++ "%")];
     Element "distribution-legend"
       [legend "Mono" (monograms data) monoPercent;
        legend "Bi" (bigrams data) biPercent;
        legend "Tri" (trigrams data) triPercent]].

Definition updateDistributionGrid : M State unit :=
  assign "distribution-grid" "innerHTML" (Children []) ;;
  a <- currentAnalytics ;;
  if no_details a then ret tt
  else
    forEach (details_of a) (fun '(campaignName, data) =>
      if JsNumber.is_zero (total data) then ret tt
      else
        modify (on_page (appendChild "distribution-grid"
                           (distributionCard campaignName data)))).

(** The text of the ACOS field, before the percent sign. *)
Definition acos (a : Analytics) : string :=
  let spend := JsNumber.or_zero (JsNumber.parseFloat_value (total_spend (totals a))) in
  let sales := JsNumber.or_zero (JsNumber.parseFloat_value (total_sales (totals a))) in
  if JsNumber.gt_zero sales then
    JsNumber.toFixed 1 (JsNumber.mul (JsNumber.div spend sales) JsNumber.hundred)
  else "0".

(** [campaigns_processed || campaigns?.length || 0]. *)
Definition campaignCount (a : Analytics) : JsNumber.num :=
  let processed := or_zero (campaigns_processed (totals a)) in
  if JsNumber.truthy processed then processed
  else match campaigns a with
       | Some names => JsNumber.ofZ (Z.of_nat (List.length names))
       | None => JsNumber.zero
       end.

Definition updateAnalyticsSection : M State unit :=
  data <- gets analyticsData ;;
  match data with
  | None =>
      set_display "analytics-empty" "block" ;;
      set_display "analytics-content" "none"
  | Some a =>
      set_display "analytics-empty" "none" ;;
      set_display "analytics-content" "block" ;;
      (* Update overview stats *)
      set_text "analytics-campaigns" (Locale (campaignCount a)) ;;
      (* Calculate total N-grams *)
      let sum (get : CampaignDetail -> option JsNumber.num) :=
        fold_left (fun acc entry => JsNumber.add acc (or_zero (get (snd entry))))
                  (details_of a) JsNumber.zero in
      set_text "analytics-monograms" (Locale (sum monograms)) ;;
      set_text "analytics-bigrams" (Locale (sum bigrams)) ;;
      set_text "analytics-trigrams" (Locale (sum trigrams)) ;;
      (* Update financial summary *)
      set_text "analytics-spend" (formatCurrency (Some (or_zero (total_spend (totals a))))) ;;
      set_text "analytics-sales" (formatCurrency (Some (or_zero (total_sales (totals a))))) ;;
      (* Calculate ACOS *)
      set_text "analytics-acos" (Str (acos a ++ "%")) ;;
      (* Calculate orders (if available) *)
      set_text "analytics-orders" (Locale (or_zero (total_orders (totals a)))) ;;
      (* Update campaign breakdown table *)
      updateCampaignBreakdownTable ;;
      (* Update distribution grid *)
      updateDistributionGrid
  end.

Definition resetForm : M State unit :=
  (* Reset state *)
  modify (set_selectedFile None) ;;
  modify (set_outputFilename None) ;;
  modify (set_asinFilename None) ;;
  (* Reset file input *)
  assign fileInput "value" (Str "") ;;
  (* Reset file info *)
  set_text fileInfo (Str "") ;;
  assign fileInfo "classList.success" (Flag false) ;;
  (* Reset archive button *)
  assign archiveBtn "innerHTML" archiveButtonIdle ;;
  assign archiveBtn "disabled" (Flag false) ;;
  assign archiveBtn "style.opacity" (Str "1") ;;
  (* Hide ASIN download button *)
  when_found downloadAsinBtn (set_display downloadAsinBtn "none") ;;
  (* Show upload section *)
  showSection "upload".

(** The state the script starts in. *)
Definition initial : State :=
  {| selectedFile := None; outputFilename := None; asinFilename := None;
     lastProcessedData := None; analyticsData := None;
     page := blank; trace := [] |}.

(** The primary-flow panels, and which of them are on show: a panel of
    the page whose display is ['block']. *)
Definition panels : list string :=
  [uploadSection; processSection; progressSection; resultsSection; errorSection].

Definition shown (st : State) (el : string) : bool :=
  present (page st) el &&
  match display (page st) el with
  | Str v => String.eqb v "block"
  | _ => false
  end.

Definition visible_panels (st : State) : list string := filter (shown st) panels.

(** The page has the five panels. *)
Definition has_panels (st : State) : Prop :=
  forall el, In el panels -> present (page st) el = true.

End Rich.

(** ** Events and the handlers bound to them *)

(** The event a handler is called with: the files it carries (those of
    [e.dataTransfer] for a drop, of [e.target] for a change of the file
    input) and the two flags that [preventDefault] and [stopPropagation]
    set. *)
Module Event.

Import Dom.

Record t : Type := {
  files : list File;
  defaultPrevented : bool;
  propagationStopped : bool
}.

Definition preventDefault (e : t) : t :=
  {| files := files e; defaultPrevented := true;
     propagationStopped := propagationStopped e |}.

Definition stopPropagation (e : t) : t :=
  {| files := files e; defaultPrevented := defaultPrevented e;
     propagationStopped := true |}.

(** An event as the browser hands it over. *)
Definition carrying (fs : list File) : t :=
  {| files := fs; defaultPrevented := false; propagationStopped := false |}.

End Event.

(** The drag-and-drop and file-input handlers of the simpler variant.
    Each returns the event as it leaves it. *)
Module SimpleHandlers.

Import Js Dom Simple.
Local Open Scope js_scope.

Definition handleDragOver (e : Event.t) : M State Event.t :=
  let e := Event.preventDefault e in
  let e := Event.stopPropagation e in
  assign uploadBox "classList.dragover" (Flag true) ;;
  ret e.

Definition handleDragLeave (e : Event.t) : M State Event.t :=
  let e := Event.preventDefault e in
  let e := Event.stopPropagation e in
  assign uploadBox "classList.dragover" (Flag false) ;;
  ret e.

Definition handleDrop (e : Event.t) : M State Event.t :=
  let e := Event.preventDefault e in
  let e := Event.stopPropagation e in
  assign uploadBox "classList.dragover" (Flag false) ;;
  match Event.files e with
  | file :: _ => handleFile file
  | [] => ret tt
  end ;;
  ret e.

Definition handleFileSelect (e : Event.t) : M State Event.t :=
  match Event.files e with
  | file :: _ => handleFile file
  | [] => ret tt
  end ;;
  ret e.

End SimpleHandlers.

(** The same handlers in the richer variant. *)
Module RichHandlers.

Import Js Dom Rich.
Local Open Scope js_scope.

Definition handleDragOver (e : Event.t) : M State Event.t :=
  let e := Event.preventDefault e in
  let e := Event.stopPropagation e in
  assign uploadBox "classList.dragover" (Flag true) ;;
  ret e.

Definition handleDragLeave (e : Event.t) : M State Event.t :=
  let e := Event.preventDefault e in
  let e := Event.stopPropagation e in
  assign uploadBox "classList.dragover" (Flag false) ;;
  ret e.

Definition handleDrop (e : Event.t) : M State Event.t :=
  let e := Event.preventDefault e in
  let e := Event.stopPropagation e in
  assign uploadBox "classList.dragover" (Flag false) ;;
  match Event.files e with
  | file :: _ => handleFile file
  | [] => ret tt
  end ;;
  ret e.

Definition handleFileSelect (e : Event.t) : M State Event.t :=
  match Event.files e with
  | file :: _ => handleFile file
  | [] => ret tt
  end ;;
  ret e.

End RichHandlers.

(** ** Navigation and the archive actions of the richer variant *)

Module Navigation.

Import Js Dom Server Rich.
Local Open Scope js_scope.

(** What the selectors of [navigateToSection] find in the page, in
    document order: the elements matching [.nav-item[data-section]],
    each with the value of its [data-section] attribute, and the
    elements matching [.section-content].  A section is named by its id,
    a navigation item by any name of its own.  The script never changes
    what the selectors match. *)
Record Layout : Type := {
  navItems : list (string * string);
  sectionContents : list string
}.

(** [toUpperCase] of one character of the ASCII range: the letters a to
    z become A to Z, every other character is kept. *)
Definition upper_ascii (c : ascii) : ascii :=
  let n := nat_of_ascii c in
  if andb (Nat.leb 97 n) (Nat.leb n 122) then ascii_of_nat (n - 32) else c.


(** [s.charAt(0).toUpperCase() + s.slice(1)], for an [s] with
    [ascii_initial].  What [toUpperCase] makes of a first character
    beyond ASCII is not modelled: what is stated of the breadcrumb is
    stated of names with [ascii_initial] only. *)
Definition capitalize (s : string) : string :=
  match s with
  | EmptyString => EmptyString
  | String c r => String (upper_ascii c) r
  end.

(** [navigateToSection(sectionName)], with the answer to the request
    that [loadArchive] sends when the section is the archive. *)
Definition navigateToSection (layout : Layout) (sectionName : string)
    (archive : fetched ArchiveList) : M State unit :=
  (* Update nav items *)
  forEach (navItems layout) (fun '(item, dataSection) =>
    assign item "classList.active" (Flag false) ;;
    if String.eqb dataSection sectionName
    then assign item "classList.active" (Flag true)
    else ret tt) ;;
  (* Update breadcrumb *)
  set_text "breadcrumb-current" (Str (capitalize sectionName)) ;;
  (* Hide all sections *)
  forEach (sectionContents layout) (fun section => set_display section "none") ;;
  (* Show requested section *)
  when_found ("section-" ++ sectionName)
    (set_display ("section-" ++ sectionName) "block") ;;
  (* Special handling for analytics section *)
  (if String.eqb sectionName "analytics" then updateAnalyticsSection else ret tt) ;;
  (* Special handling for archive section *)
  (if String.eqb sectionName "archive" then loadArchive archive else ret tt).

(** The click handler that [initializeNavigation] binds to a navigation
    item. *)
Definition navItemClick (layout : Layout) (dataSection : string) (e : Event.t)
    (archive : fetched ArchiveList) : M State Event.t :=
  let e := Event.preventDefault e in
  navigateToSection layout dataSection archive ;;
  ret e.

(** [downloadArchive(filename)]. *)
Definition downloadArchive (filename : string) : M State unit :=
  modify (emit (Download ("/download/" ++ filename) filename)).

(** An archived report as [GET /archive/<id>] returns it; its summary is
    the analytics snapshot it was archived with. *)
Record ArchiveEntry : Type := {
  entry_summary : option Analytics
}.

Record ArchiveEntryReply : Type := {
  entry_success : bool;
  entry_archive : option ArchiveEntry
}.

(** [x || []] and [x || {}]: an array or object, even an empty one, is
    kept. *)
Definition or_empty {A : Type} (o : option (list A)) : list A :=
  match o with
  | Some l => l
  | None => []
  end.

(** [viewArchiveAnalytics(archiveId)], with the server's answer. *)
Definition viewArchiveAnalytics (layout : Layout) (archiveId : string)
    (reply : fetched ArchiveEntryReply) : M State unit :=
  tryCatch
    (response <- fetch "GET" ("/archive/" ++ archiveId) NoBody reply ;;
     result <- json response ;;
     match entry_success result, entry_archive result with
     | true, Some entry =>
         modify (set_analyticsData (entry_summary entry)) ;;
         data <- gets analyticsData ;;
         a <- defined data "analyticsData" ;;
         modify (set_analyticsData (Some
           {| totals := totals a;
              campaigns := Some (or_empty (campaigns a));
              campaignDetails := campaignDetails a;
              filename := filename a;
              processedAt := processedAt a |})) ;;
         modify (set_analyticsData (Some
           {| totals := totals a;
              campaigns := Some (or_empty (campaigns a));
              campaignDetails := Some (or_empty (campaignDetails a));
              filename := filename a;
              processedAt := processedAt a |})) ;;
         (* the section is not the archive: no request follows *)
         navigateToSection layout "analytics" FetchRejected
     | _, _ => ret tt
     end)
    (fun _ => modify (emit (ConsoleError "Error loading archive analytics:"))).

(** The answer of [DELETE /archive/<id>]. *)
Record DeleteReply : Type := {
  delete_success : bool;
  delete_error : option string
}.

(** [deleteArchive(archiveId)], with the user's answer to the
    confirmation, the server's answer to the deletion and its answer to
    the reload of the list.  The result is the message of the alert the
    call ends with, if it ends with one. *)
Definition deleteArchive (archiveId : string) (confirmed : bool)
    (reply : fetched DeleteReply) (archive : fetched ArchiveList)
  : M State (option string) :=
  if negb confirmed then ret None
  else
    tryCatch
      (response <- fetch "DELETE" ("/archive/" ++ archiveId) NoBody reply ;;
       result <- json response ;;
       if delete_success result then
         loadArchive archive ;;
         ret None
       else
         ret (Some (JsString.or_else (delete_error result)
                      "Failed to delete archive.")))
      (fun _ =>
         modify (emit (ConsoleError "Error deleting archive:")) ;;
         ret (Some "Failed to delete archive. Please try again.")).

End Navigation.

(** * Properties *)

(** ** Numbers and their decimal strings *)

Module NumberFacts.

Import JsNumber.
Local Open Scope list_scope.

Lemma digits_upto_fuel (f f' : nat) (n : Z) :
  0 <= n -> n < 2 ^ Z.of_nat f -> n < 2 ^ Z.of_nat f' ->
  (1 <= f)%nat -> (1 <= f')%nat ->
  digits_upto f n = digits_upto f' n.
Proof.
  revert f' n. induction f as [|f IH]; intros f' n H0 Hf Hf' H1 H1'; [lia|].
  destruct f' as [|f']; [lia|]. cbn [digits_upto].
  destruct (Z.ltb_spec n 10) as [Hn|Hn]; [reflexivity|].
  rewrite Nat2Z.inj_succ, Z.pow_succ_r in Hf, Hf' by lia.
  assert (Hd : n / 10 <= n / 2)
    by (apply Z.div_le_compat_l; lia).
  assert (Hh : n / 2 < 2 ^ Z.of_nat f)
    by (apply Z.div_lt_upper_bound; lia).
  assert (Hh' : n / 2 < 2 ^ Z.of_nat f')
    by (apply Z.div_lt_upper_bound; lia).
  assert (Hq : 0 <= n / 10) by (apply Z.div_pos; lia).
  assert (Hq1 : 1 <= n / 10) by (apply Z.div_le_lower_bound; lia).
  f_equal. apply IH; try lia.
  - destruct f; [simpl in Hh; lia | lia].
  - destruct f'; [simpl in Hh'; lia | lia].
Qed.

Lemma digits_upto_S f n :
  digits_upto (S f) n
  = if n <? 10 then [digit_char n]
    else digits_upto f (n / 10) ++ [digit_char (n mod 10)].
Proof. reflexivity. Qed.

Lemma digits_small n : 0 <= n < 10 -> digits n = [digit_char n].
Proof.
  intros H. unfold digits. cbn [digits_upto].
  destruct (Z.ltb_spec n 10); [reflexivity | lia].
Qed.

Lemma digits_step n :
  10 <= n -> digits n = digits (n / 10) ++ [digit_char (n mod 10)].
Proof.
  intros H. unfold digits. rewrite digits_upto_S at 1.
  destruct (Z.ltb_spec n 10); [lia|]. f_equal.
  assert (Hq1 : 1 <= n / 10) by (apply Z.div_le_lower_bound; lia).
  pose proof (Z.log2_spec n ltac:(lia)) as [_ Hn].
  pose proof (Z.log2_spec (n / 10) ltac:(lia)) as [_ Hq].
  pose proof (Z.log2_nonneg n). pose proof (Z.log2_nonneg (n / 10)).
  assert (3 <= Z.log2 n) by (apply (Z.log2_le_pow2 n 3); lia).
  rewrite Z.pow_succ_r in Hn by lia.
  apply digits_upto_fuel; try lia.
  - rewrite Z2Nat.id by lia.
    apply Z.le_lt_trans with (n / 2);
      [apply Z.div_le_compat_l; lia | apply Z.div_lt_upper_bound; lia].
  - rewrite Nat2Z.inj_succ, Z2Nat.id by lia. exact Hq.
Qed.

Lemma digits_length n : 0 <= n -> (1 <= List.length (digits n))%nat.
Proof.
  intros H. destruct (Z.lt_ge_cases n 10).
  - rewrite digits_small by lia. simpl. lia.
  - rewrite digits_step by lia. rewrite length_app. simpl. lia.
Qed.

(** [round_fixed] picks the nearest multiple of [10^-f], the larger one
    on a tie. *)
Lemma round_fixed_nearest f p q :
  0 <= p -> 0 < q ->
  let n := round_fixed f p q in
  0 <= n /\ 2 * n * q <= 2 * p * 10 ^ Z.of_nat f + q < 2 * (n + 1) * q.
Proof.
  intros Hp Hq n. unfold n, round_fixed.
  assert (H10 : 0 < 10 ^ Z.of_nat f) by (apply Z.pow_pos_nonneg; lia).
  set (a := 2 * p * 10 ^ Z.of_nat f + q).
  assert (Ha : 0 <= a) by (unfold a; nia).
  pose proof (Z.div_mod a (2 * q) ltac:(lia)) as E.
  pose proof (Z.mod_pos_bound a (2 * q) ltac:(lia)) as B.
  pose proof (Z.div_pos a (2 * q) Ha ltac:(lia)).
  split; [assumption|]. nia.
Qed.

(** One digit after the point. *)
Lemma fixed_digits_one n :
  0 <= n ->
  fixed_digits 1 n = digits (n / 10) ++ ["."%char; digit_char (n mod 10)].
Proof.
  intros H. unfold fixed_digits. destruct (Z.lt_ge_cases n 10) as [Hn|Hn].
  - rewrite digits_small by lia. rewrite Z.div_small, Z.mod_small by lia.
    rewrite digits_small by lia. reflexivity.
  - rewrite digits_step by lia.
    pose proof (digits_length (n / 10) ltac:(apply Z.div_pos; lia)) as L.
    rewrite length_app. cbn [List.length].
    destruct (Nat.leb_spec (List.length (digits (n / 10)) + 1) 1); [lia|].
    rewrite length_app. cbn [List.length].
    replace (List.length (digits (n / 10)) + 1 - 1)%nat
      with (List.length (digits (n / 10)) + 0)%nat by lia.
    rewrite firstn_app_2, skipn_app.
    rewrite Nat.add_0_r, skipn_all, Nat.sub_diag. cbn [firstn skipn].
    rewrite app_nil_r. reflexivity.
Qed.


Lemma exact_num_pos m e : 0 < exact_num m e.
Proof.
  unfold exact_num. apply Z.mul_pos_pos; [lia|].
  apply Z.pow_pos_nonneg; lia.
Qed.

Lemma exact_den_pos e : 0 < exact_den e.
Proof. unfold exact_den. apply Z.pow_pos_nonneg; lia. Qed.

(** [toFixed(1)] of a finite Number below [10^21]: the sign, the digits
    of the whole part, a point and one digit, which together read [n]
    tenths, [n] being nearest to ten times the magnitude. *)
Lemma toFixed_one_decimal neg m e :
  let p := exact_num m e in
  let q := exact_den e in
  let n := round_fixed 1 p q in
  p < 10 ^ 21 * q ->
  toFixed 1 (S754_finite neg m e)
  = ((if neg then "-" else "")
     ++ text (digits (n / 10) ++ ["."%char; digit_char (n mod 10)]))%string
  /\ 0 <= n /\ 2 * n * q <= 2 * p * 10 + q < 2 * (n + 1) * q.
Proof.
  intros p q n H.
  destruct (round_fixed_nearest 1 p q) as (Hn & Hr);
    [pose proof (exact_num_pos m e); fold p in H0; lia | apply exact_den_pos|].
  fold n in Hn, Hr. change (10 ^ Z.of_nat 1) with 10 in Hr.
  split; [|split; assumption].
  unfold toFixed. fold p q.
  destruct (Z.leb_spec (10 ^ 21 * q) p); [lia|].
  unfold toFixed_exact. fold n. rewrite fixed_digits_one by exact Hn.
  reflexivity.
Qed.

(** *** File sizes *)



(** *** Printing hundredths

    What follows establishes how [toString] prints the Number nearest to
    [n / 100]: first how close [nearest] comes to the fraction it rounds,
    then which candidates of the digit search read back, and last how the
    digits found are laid out. *)












(** *** Reading candidates back *)





(** *** The decimal exponent *)




Lemma pow10_split a b : 0 <= a -> 0 <= b -> 10 ^ (a + b) = 10 ^ a * 10 ^ b.
Proof. intros. apply Z.pow_add_r; lia. Qed.



(** *** One step of the search *)







(** *** The search on a number of hundredths *)

Section Hundredths.

Variables (m : positive) (E s tz : Z) (ks : nat).

Let n := s * 10 ^ tz.
Let x := nearest false n 100.
Let N := Z.of_nat ks + tz - 2.

Hypothesis HE : 128 <= E.
Hypothesis Hacc : - 100 <= 2 * (Z.pos m * 100 - n * E) <= 100.
Hypothesis Htz : 0 <= tz.
Hypothesis Hks : (1 <= ks)%nat.
Hypothesis Hs : 10 ^ (Z.of_nat ks - 1) <= s < 10 ^ Z.of_nat ks.
Hypothesis H10 : s mod 10 <> 0.
Hypothesis Hn : n < 2 ^ 44.







End Hundredths.



(** *** Reading digits *)









(** *** Laying out a number of hundredths *)

(** [n / 100] in decimal notation, with at most two decimals and no
    trailing zero among them. *)
Definition trimmed (n : Z) : list ascii :=
  let whole := digits (n / 100) in
  let d1 := n / 10 mod 10 in
  let d0 := n mod 10 in
  if d0 =? 0 then
    if d1 =? 0 then whole else (whole ++ ["."%char; digit_char d1])%list
  else (whole ++ ["."%char; digit_char d1; digit_char d0])%list.





(** *** Printing a number of hundredths *)




(** [nearest] rounds as the division of Numbers does (the operands here
    are Numbers themselves). *)
Example nearest_as_div :
  nearest false 1 3 = div (ofZ 1) (ofZ 3)
  /\ nearest false 1 100 = div (ofZ 1) (ofZ 100)
  /\ nearest false 15 10 = div (ofZ 15) (ofZ 10)
  /\ nearest false 102399 100 = div (ofZ 102399) (ofZ 100)
  /\ nearest true 7 (3 * 2 ^ 70) = div (ofZ (-7)) (ofZ (3 * 2 ^ 70))
  /\ nearest false (2 ^ 53 - 1) 7 = div (ofZ (2 ^ 53 - 1)) (ofZ 7).
Proof. vm_compute. repeat split. Qed.

Example trimmed_samples :
  text (trimmed 0) = "0" /\ text (trimmed 5) = "0.05"
  /\ text (trimmed 150) = "1.5" /\ text (trimmed 100) = "1"
  /\ text (trimmed 1234) = "12.34" /\ text (trimmed 102400) = "1024".
Proof. vm_compute. repeat split. Qed.

End NumberFacts.

(** ** The runtime *)

Section Runtime.

Import Js.
Context {S : Type}.

Lemma forEach_modify {A : Type} (g : A -> S -> S) (xs : list A) (s : S) :
  forEach xs (fun x => modify (g x)) s
  = (Normal tt, fold_left (fun acc x => g x acc) xs s).
Proof.
  revert s. induction xs as [|x r IH]; intros s; simpl.
  - reflexivity.
  - unfold bind at 1. unfold modify at 1. apply IH.
Qed.

Lemma forEach_ext {A : Type} (f g : A -> M S unit) (xs : list A) :
  (forall x s, f x s = g x s) -> forall s, forEach xs f s = forEach xs g s.
Proof.
  intros H. induction xs as [|x r IH]; intros s; simpl.
  - reflexivity.
  - unfold bind. rewrite H. destruct (g x s) as [[[]|e] s']; [apply IH | reflexivity].
Qed.

Lemma results_mono {A : Type} (m : M S A) s (P Q : A -> S -> Prop) :
  results m s P -> (forall a s', P a s' -> Q a s') -> results m s Q.
Proof. intros (a & s' & E & H) HPQ. exists a, s'. auto. Qed.

Lemma results_ret {A : Type} (a : A) s (post : A -> S -> Prop) :
  post a s -> results (ret a) s post.
Proof. intros H. exists a, s. auto. Qed.

Lemma results_bind {A B : Type} (m : M S A) (f : A -> M S B) s
    (post : B -> S -> Prop) :
  results m s (fun a s' => results (f a) s' post) -> results (bind m f) s post.
Proof.
  intros (a & s' & E & b & s'' & E' & H). exists b, s''.
  unfold bind. rewrite E. auto.
Qed.

Lemma results_modify (f : S -> S) s (post : unit -> S -> Prop) :
  post tt (f s) -> results (modify f) s post.
Proof. intros H. exists tt, (f s). auto. Qed.

Lemma results_gets {A : Type} (f : S -> A) s (post : A -> S -> Prop) :
  post (f s) s -> results (gets f) s post.
Proof. intros H. exists (f s), s. auto. Qed.

Lemma results_forEach_modify {A : Type} (g : A -> S -> S) xs s
    (post : unit -> S -> Prop) :
  post tt (fold_left (fun acc x => g x acc) xs s) ->
  results (forEach xs (fun x => modify (g x))) s post.
Proof. intros H. eexists _, _. rewrite forEach_modify. auto. Qed.

Lemma results_tryCatch {A : Type} (body : M S A) handler s
    (post : A -> S -> Prop) :
  results body s post -> results (tryCatch body handler) s post.
Proof.
  intros (a & s' & E & H). exists a, s'. unfold tryCatch. rewrite E. auto.
Qed.

Lemma results_caught {A : Type} (body : M S A) handler s
    (post : A -> S -> Prop) :
  throws body s (fun s' => forall e, results (handler e) s' post) ->
  results (tryCatch body handler) s post.
Proof.
  intros (e & s' & E & H). destruct (H e) as (a & s'' & E' & H').
  exists a, s''. unfold tryCatch. rewrite E. auto.
Qed.

Lemma throws_throw {A : Type} e s (post : S -> Prop) :
  post s -> throws (@throw S A e) s post.
Proof. intros H. exists e, s. auto. Qed.

Lemma throws_bind {A B : Type} (m : M S A) (f : A -> M S B) s
    (post : S -> Prop) :
  results m s (fun a s' => throws (f a) s' post) -> throws (bind m f) s post.
Proof.
  intros (a & s' & E & e & s'' & E' & H). exists e, s''.
  unfold bind. rewrite E. auto.
Qed.

Lemma throws_first {A B : Type} (m : M S A) (f : A -> M S B) s
    (post : S -> Prop) :
  throws m s post -> throws (bind m f) s post.
Proof.
  intros (e & s' & E & H). exists e, s'. unfold bind. rewrite E. auto.
Qed.

Lemma throws_mono {A : Type} (m : M S A) s (P Q : S -> Prop) :
  throws m s P -> (forall s', P s' -> Q s') -> throws m s Q.
Proof. intros (e & s' & E & H) HPQ. exists e, s'. auto. Qed.

(** A call either returns or throws, never both. *)
Lemma results_not_throws {A : Type} (m : M S A) s P Q :
  results m s P -> throws m s Q -> False.
Proof.
  intros (a & s' & E & _) (e & s'' & E' & _). rewrite E in E'. discriminate.
Qed.

End Runtime.

(** ** The page *)

Module DomFacts.

Import Dom.

Lemma prop_set_same el name v d : prop (set_prop el name v d) el name = v.
Proof. unfold set_prop. cbn [prop]. rewrite !String.eqb_refl. reflexivity. Qed.

Lemma prop_set_other el name v d el' name' :
  String.eqb el el' && String.eqb name name' = false ->
  prop (set_prop el name v d) el' name' = prop d el' name'.
Proof. intros H. unfold set_prop. cbn [prop]. rewrite H. reflexivity. Qed.

Lemma appendChild_children el child d l :
  prop d el "innerHTML" = Children l ->
  prop (appendChild el child d) el "innerHTML" = Children (l ++ [child]).
Proof.
  intros H. unfold appendChild. rewrite prop_set_same, H. reflexivity.
Qed.

Lemma appendChild_other el child d el' name' :
  String.eqb el el' && String.eqb "innerHTML" name' = false ->
  prop (appendChild el child d) el' name' = prop d el' name'.
Proof. intros H. unfold appendChild. apply prop_set_other, H. Qed.

(** Appending children in a loop, some entries being passed over. *)
Lemma fold_appendChild {A : Type} (keep : A -> bool) (child : A -> value)
    el xs d l :
  prop d el "innerHTML" = Children l ->
  let d' := fold_left
              (fun acc x => if keep x then appendChild el (child x) acc else acc)
              xs d in
  prop d' el "innerHTML" = Children (l ++ map child (filter keep xs))
  /\ present d' = present d
  /\ forall el' name',
       String.eqb el el' && String.eqb "innerHTML" name' = false ->
       prop d' el' name' = prop d el' name'.
Proof.
  revert d l. induction xs as [|x r IH]; intros d l H; cbn [fold_left filter map].
  - rewrite app_nil_r. auto.
  - destruct (keep x); cbn [map].
    + destruct (IH (appendChild el (child x) d) (l ++ [child x])%list
                  (appendChild_children _ _ _ _ H)) as (C & P & F).
      rewrite <- app_assoc in C. repeat split; [exact C | exact P |].
      intros el' name' Hn. rewrite F by exact Hn. apply appendChild_other, Hn.
    + apply IH, H.
Qed.

End DomFacts.

(** ** What input acquisition accepts *)

Module Upload.

Import Dom.

(** The name ends in [.csv], whatever the case of its letters. *)
Definition has_csv_name (file : File) : bool :=
  JsString.endsWith (JsString.toLowerCase (name file)) ".csv".

(** The size is above 52,428,800 bytes. *)
Definition too_large (file : File) : bool := (52428800 <? size file)%N.

Definition rejected (file : File) : Prop :=
  has_csv_name file = false \/ too_large file = true.

(** The message a rejected file is answered with. *)
Definition rejection (file : File) : string :=
  if has_csv_name file then "File size exceeds 50MB limit."
  else "Please upload a CSV file.".

End Upload.

(** A name outside a list differs from each name in it. *)
Lemma unrecognized_eqb section (names : list string) :
  ~ In section names -> forall n, In n names -> String.eqb section n = false.
Proof.
  intros H n Hn. apply String.eqb_neq. intros ->. exact (H Hn).
Qed.

(** ** The simpler variant *)

Module SimpleFacts.

Import Js Dom Server Simple.

(** The panels a state name stands for. *)
Definition implied (section : string) : list string :=
  if String.eqb section "upload" then [uploadSection]
  else if String.eqb section "settings" then [uploadSection; settingsSection]
  else if String.eqb section "progress" then [progressSection]
  else if String.eqb section "results" then [resultsSection]
  else if String.eqb section "error" then [errorSection]
  else [].

Definition recognized : list string :=
  ["upload"; "settings"; "progress"; "results"; "error"].

Definition among (el : string) (els : list string) : bool :=
  existsb (String.eqb el) els.

(** Exactly the panels [els] are on show: their display is ['block'],
    that of every other panel is ['none']. *)
Definition exactly (els : list string) (st : State) : Prop :=
  forall el, In el panels ->
    display (page st) el = Str (if among el els then "block" else "none").

(** The message is in the error panel, which is on show. *)
Definition reported (message : string) (st : State) : Prop :=
  textContent (page st) errorMessage = Str message /\ exactly [errorSection] st.

Ltac each_panel :=
  let el := fresh "el" in
  let H := fresh "H" in
  intros el H; simpl in H;
  repeat (destruct H as [H|H]; [subst el; reflexivity|]);
  contradiction.

Ltac by_section section :=
  destruct (String.eqb section "upload");
  [|destruct (String.eqb section "settings");
    [|destruct (String.eqb section "progress");
      [|destruct (String.eqb section "results");
        [|destruct (String.eqb section "error")]]]].

Ltac run :=
  repeat (first [ progress (unfold bind at 1; simpl)
                | progress (unfold tryCatch at 1; simpl)
                | rewrite forEach_modify ]).

Ltac done_with tac := eexists _, _; split; [reflexivity | tac].

Lemma simple_showSection_ends section st :
  ends (showSection section) st (exactly (implied section)).
Proof.
  unfold showSection, implied. by_section section; done_with each_panel.
Qed.

Lemma simple_showError_ends message st :
  ends (showError message) st
    (fun st' => reported message st' /\ selectedFile st' = selectedFile st
                /\ outputFilename st' = outputFilename st
                /\ trace st' = trace st).
Proof.
  done_with ltac:(repeat split; each_panel).
Qed.

(** A reply that carries everything [displayResults] dereferences. *)
Definition complete (result : UploadResult) : bool :=
  match summary result, campaigns result with
  | Some s, Some _ =>
      match original_rows s, asins_removed s, campaigns_processed s,
            total_flagged s with
      | Some _, Some _, Some _, Some _ => true
      | _, _, _, _ => false
      end
  | _, _ => false
  end.

(** The upload went through: the server answered, reported success and
    sent a complete result. *)
Definition delivered (reply : fetched UploadResult) : bool :=
  match reply with
  | Json result => success result && complete result
  | _ => false
  end.

Lemma simple_processFile_unselected reply st :
  selectedFile st = None ->
  processFile reply st = showError "Please select a file first." st.
Proof.
  intros H. unfold processFile. unfold bind at 1, gets at 1.
  rewrite H. reflexivity.
Qed.

Lemma simple_processFile_ends reply st file :
  selectedFile st = Some file ->
  ends (processFile reply) st
    (exactly (if delivered reply then [resultsSection] else [errorSection])).
Proof.
  intros H. unfold ends, results, processFile, displayResults.
  unfold bind at 1, gets at 1.
  rewrite H. destruct reply as [| |result]; simpl.
  - run. done_with each_panel.
  - run. done_with each_panel.
  - destruct result as [[|] out asin sm cs det err]; simpl.
    + destruct sm as [[[r|] [a|] [c|] [f|] sp sa o]|]; destruct cs as [names|];
        simpl; run; done_with each_panel.
    + run. done_with each_panel.
Qed.

Lemma simple_handleFile_rejects file st :
  Upload.rejected file ->
  ends (handleFile file) st
    (fun st' => reported (Upload.rejection file) st'
                /\ selectedFile st' = selectedFile st
                /\ outputFilename st' = outputFilename st
                /\ trace st' = trace st).
Proof.
  unfold Upload.rejected, Upload.rejection, Upload.has_csv_name,
    Upload.too_large, handleFile.
  change (50 * 1024 * 1024)%N with 52428800%N.
  intros [H|H].
  - rewrite H. simpl. apply simple_showError_ends.
  - rewrite H.
    destruct (JsString.endsWith (JsString.toLowerCase (name file)) ".csv");
      simpl; apply simple_showError_ends.
Qed.

Lemma simple_handleFile_accepts file st :
  Upload.has_csv_name file = true -> Upload.too_large file = false ->
  ends (handleFile file) st
    (fun st' => selectedFile st' = Some file
                /\ trace st' = (trace st ++ [ScrollIntoView settingsSection])%list).
Proof.
  unfold Upload.has_csv_name, Upload.too_large, handleFile.
  change (50 * 1024 * 1024)%N with 52428800%N.
  intros H1 H2. rewrite H1, H2. simpl.
  done_with ltac:(split; reflexivity).
Qed.

Lemma simple_showSection_unrecognized section st :
  ~ In section recognized ->
  ends (showSection section) st (exactly []).
Proof.
  intros H. pose proof (unrecognized_eqb _ _ H) as E.
  unfold showSection.
  rewrite (E "upload"), (E "settings"), (E "progress"), (E "results"),
    (E "error") by (simpl; tauto).
  done_with each_panel.
Qed.

Lemma simple_resetForm_ends st :
  ends resetForm st
    (fun st' => selectedFile st' = None /\ outputFilename st' = None
                /\ exactly [uploadSection] st').
Proof. done_with ltac:(repeat split; each_panel). Qed.

End SimpleFacts.

(** ** The richer variant *)

Module RichFacts.

Import Js Dom Server Rich.

(** The panels a state name stands for. *)
Definition implied (section : string) : list string :=
  if String.eqb section "upload" then [uploadSection]
  else if String.eqb section "process" then [uploadSection; processSection]
  else if String.eqb section "progress" then [progressSection]
  else if String.eqb section "results" then [resultsSection]
  else if String.eqb section "error" then [errorSection]
  else [].

Definition recognized : list string :=
  ["upload"; "process"; "progress"; "results"; "error"].

Definition among (el : string) (els : list string) : bool :=
  existsb (String.eqb el) els.

(** Exactly the panels [els] are on show: their display is ['block'],
    that of every other panel is ['none']. *)
Definition exactly (els : list string) (st : State) : Prop :=
  forall el, In el panels ->
    display (page st) el = Str (if among el els then "block" else "none").

(** The message is in the error panel, which is on show. *)
Definition reported (message : string) (st : State) : Prop :=
  textContent (page st) errorMessage = Str message /\ exactly [errorSection] st.

(** The script's variables and what it did outside the page are as
    before. *)
Definition untouched (st st' : State) : Prop :=
  selectedFile st' = selectedFile st /\ outputFilename st' = outputFilename st
  /\ asinFilename st' = asinFilename st
  /\ lastProcessedData st' = lastProcessedData st
  /\ analyticsData st' = analyticsData st
  /\ trace st' = trace st.

Lemma has_panels_each st :
  has_panels st ->
  present (page st) uploadSection = true
  /\ present (page st) processSection = true
  /\ present (page st) progressSection = true
  /\ present (page st) resultsSection = true
  /\ present (page st) errorSection = true.
Proof. intros H. repeat split; apply H; simpl; tauto. Qed.

Ltac each_panel :=
  let el := fresh "el" in
  let H := fresh "H" in
  intros el H; simpl in H;
  repeat (destruct H as [H|H]; [subst el; reflexivity|]);
  contradiction.

Ltac by_section section :=
  destruct (String.eqb section "upload");
  [|destruct (String.eqb section "process");
    [|destruct (String.eqb section "progress");
      [|destruct (String.eqb section "results");
        [|destruct (String.eqb section "error")]]]].

Ltac with_panels H :=
  destruct (has_panels_each _ H) as (?P1 & ?P2 & ?P3 & ?P4 & ?P5).

Ltac run :=
  repeat (first [ progress (unfold bind at 1; simpl)
                | progress (unfold tryCatch at 1; simpl)
                | rewrite forEach_modify
                | match goal with
                  | E : present _ _ = _ |- _ => rewrite E
                  end
                | progress simpl ]).

Ltac done_with tac := eexists _, _; split; [reflexivity | tac].

(** The page has the same elements as before. *)
Definition same_shape (st st' : State) : Prop :=
  present (page st') = present (page st).

Lemma has_panels_shape st st' :
  has_panels st -> same_shape st st' -> has_panels st'.
Proof. intros H E el Hel. rewrite E. apply H, Hel. Qed.

(** A loop of page writes is one page write. *)
Lemma fold_on_page {A : Type} (g : A -> dom -> dom) xs h st :
  fold_left (fun acc x => on_page (g x) acc) xs (on_page h st)
  = on_page (fun d => fold_left (fun d' x => g x d') xs (h d)) st.
Proof.
  revert h. induction xs as [|x r IH]; intros h; simpl.
  - reflexivity.
  - apply (IH (fun d => g x (h d))).
Qed.

Lemma fold_present {A : Type} (g : A -> dom -> dom) xs d :
  (forall x d', present (g x d') = present d') ->
  present (fold_left (fun d' x => g x d') xs d) = present d.
Proof.
  intros Hg. revert d. induction xs as [|x r IH]; intros d; simpl.
  - reflexivity.
  - rewrite IH. apply Hg.
Qed.

Ltac shape_cbn :=
  cbn [page present on_page set_prop appendChild emit set_selectedFile
       set_outputFilename set_asinFilename set_lastProcessedData
       set_analyticsData selectedFile outputFilename asinFilename
       lastProcessedData analyticsData trace].

Ltac shape :=
  unfold same_shape, untouched in *;
  repeat match goal with
         | |- context [fold_left _ _ (on_page _ _)] => rewrite fold_on_page
         end;
  shape_cbn;
  repeat match goal with
         | |- context [present (fold_left _ _ _)] =>
             rewrite fold_present by (intros; reflexivity)
         end;
  shape_cbn;
  try reflexivity; try assumption.

Ltac step :=
  match goal with
  | |- ends _ _ _ => unfold ends
  | |- results (bind _ _) _ _ => apply results_bind
  | |- results (modify _) _ _ => apply results_modify
  | |- results (gets _) _ _ => apply results_gets
  | |- results (ret _) _ _ => apply results_ret
  | |- results (forEach _ _) _ _ =>
      apply results_forEach_modify;
      repeat match goal with
             | |- context [fold_left _ _ (on_page _ _)] => rewrite fold_on_page
             end
  | |- results (assign _ _ _) _ _ => unfold assign
  | |- results (set_display _ _) _ _ => unfold set_display
  | |- results (set_text _ _) _ _ => unfold set_text
  | |- results (updateProgress _) _ _ => unfold updateProgress
  | |- results (defined (Some _) _) _ _ => apply results_ret
  | |- results (defined _ _) _ _ =>
      progress cbn [original_rows asins_removed campaigns_processed
                    total_flagged summary Server.campaigns]
  | |- throws (defined _ _) _ _ =>
      progress cbn [original_rows asins_removed campaigns_processed
                    total_flagged summary Server.campaigns]
  | |- results (fetch _ _ _ _) _ _ =>
      unfold fetch; apply results_bind, results_modify, results_ret
  | |- results (json (Json _)) _ _ => apply results_ret
  | |- throws (bind (fetch _ _ _ FetchRejected) _) _ _ =>
      apply throws_first; unfold fetch;
      apply throws_bind, results_modify, throws_throw
  | |- throws (bind (json JsonRejected) _) _ _ =>
      apply throws_first, throws_throw
  | |- throws (bind (defined None _) _) _ _ => apply throws_first, throws_throw
  | |- throws (bind (defined (Some _) _) _) _ _ => apply throws_bind
  | |- throws (bind (defined _ _) _) _ _ =>
      progress cbn [original_rows asins_removed campaigns_processed
                    total_flagged summary Server.campaigns]
  | |- throws (bind _ _) _ _ => apply throws_bind
  | |- throws (defined None _) _ _ => apply throws_throw
  | |- throws (throw _) _ _ => apply throws_throw
  | |- _ => progress cbv beta
  end.

Lemma results_when_found el m st (post : unit -> State -> Prop) :
  (present (page st) el = true -> results m st post) ->
  (present (page st) el = false -> post tt st) ->
  results (when_found el m) st post.
Proof.
  intros H1 H2. unfold when_found, found. apply results_bind, results_gets.
  destruct (present (page st) el); [apply H1 | apply results_ret, H2]; reflexivity.
Qed.

Lemma rich_showSection_ends section st :
  has_panels st ->
  ends (showSection section) st
    (fun st' => exactly (implied section) st' /\ untouched st st'
                /\ same_shape st st').
Proof.
  intros H. with_panels H.
  unfold ends, results, showSection, implied, when_found, found.
  by_section section; run;
    done_with ltac:(split; [each_panel | repeat split]).
Qed.

Lemma rich_showError_ends message st :
  has_panels st ->
  ends (showError message) st
    (fun st' => reported message st' /\ untouched st st' /\ same_shape st st').
Proof.
  intros H. with_panels H.
  unfold ends, results, showError, showSection, when_found, found.
  run. done_with ltac:(repeat split; each_panel).
Qed.

(** A reply that carries everything [displayResults] dereferences. *)
Definition complete (result : UploadResult) : bool :=
  match summary result, Server.campaigns result with
  | Some s, Some _ =>
      match original_rows s, asins_removed s, campaigns_processed s with
      | Some _, Some _, Some _ => true
      | _, _, _ => false
      end
  | _, _ => false
  end.

(** The upload went through: the server answered, reported success and
    sent a complete result. *)
Definition delivered (reply : fetched UploadResult) : bool :=
  match reply with
  | Json result => success result && complete result
  | _ => false
  end.

Lemma displayResults_ends result st :
  has_panels st -> complete result = true ->
  ends (displayResults result) st
    (fun st' => exactly [resultsSection] st' /\ trace st' = trace st).
Proof.
  intros Hp. unfold complete, ends, displayResults.
  destruct result as [ok out asin [[[r|] [a|] [c|] f sp sa o]|] [names|] det err];
    cbn [summary Server.campaigns original_rows asins_removed
         campaigns_processed asin_file total_spend total_sales];
    try discriminate.
  intros _. repeat step.
  apply results_when_found; intros PA;
    [destruct (JsString.truthy asin); repeat step | cbv beta].
  all: eapply results_mono;
    [apply rich_showSection_ends, (has_panels_shape st); [exact Hp | shape]|].
  all: intros _ s' (X & U & _); split; [exact X|].
  all: destruct U as (_ & _ & _ & _ & _ & ->); shape.
Qed.

Lemma displayResults_throws result st :
  complete result = false ->
  throws (displayResults result) st
    (fun st' => same_shape st st' /\ trace st' = trace st).
Proof.
  unfold complete, displayResults.
  destruct result as [ok out asin [[[r|] [a|] [c|] f sp sa o]|] [names|] det err];
    cbn [summary Server.campaigns original_rows asins_removed
         campaigns_processed asin_file total_spend total_sales];
    try discriminate; intros _; repeat step; split; shape.
Qed.

Lemma rich_processFile_unselected reply now st :
  selectedFile st = None ->
  processFile reply now st = showError "Please select a file first." st.
Proof.
  intros H. unfold processFile. unfold bind at 1, gets at 1.
  rewrite H. reflexivity.
Qed.

Ltac then_error Hp :=
  eapply results_mono;
  [apply rich_showError_ends, (has_panels_shape _ _ Hp); shape
  |intros _ ? ((_ & ?) & _); assumption].

Lemma rich_processFile_ends reply now st file :
  has_panels st -> selectedFile st = Some file ->
  ends (processFile reply now) st
    (exactly (if delivered reply then [resultsSection] else [errorSection])).
Proof.
  intros Hp H. unfold ends, processFile.
  apply results_bind, results_gets. rewrite H.
  apply results_bind. eapply results_mono; [apply rich_showSection_ends, Hp|].
  intros _ s1 (_ & _ & Sh1). repeat step.
  destruct reply as [| |result]; cbn [delivered].
  - apply results_caught. repeat step.
    intros e. repeat step. then_error Hp.
  - apply results_caught. repeat step.
    intros e. repeat step. then_error Hp.
  - destruct (success result) eqn:Hs; cbn [andb];
      [destruct (complete result) eqn:Hc|].
    + apply results_tryCatch. repeat step.
      rewrite Hs. repeat step.
      eapply results_mono;
        [apply displayResults_ends; [apply (has_panels_shape _ _ Hp); shape | exact Hc]|].
      intros _ s' (X & _). exact X.
    + apply results_caught. repeat step.
      rewrite Hs. repeat step.
      eapply throws_mono; [apply displayResults_throws, Hc|].
      intros s' (Sh & _) e. repeat step.
      eapply results_mono;
        [apply rich_showError_ends, (has_panels_shape _ _ Hp)|].
      * shape. rewrite Sh. shape.
      * intros _ ? ((_ & ?) & _); assumption.
    + apply results_tryCatch. repeat step.
      rewrite Hs. then_error Hp.
Qed.

Lemma rich_handleFile_rejects file st :
  has_panels st -> Upload.rejected file ->
  ends (handleFile file) st
    (fun st' => reported (Upload.rejection file) st' /\ untouched st st').
Proof.
  unfold Upload.rejected, Upload.rejection, Upload.has_csv_name,
    Upload.too_large, handleFile.
  change (50 * 1024 * 1024)%N with 52428800%N.
  intros Hp H.
  assert (E : forall message,
             ends (showError message) st
               (fun st' => reported message st' /\ untouched st st')).
  { intros message. eapply results_mono; [apply rich_showError_ends, Hp|].
    intros _ s' (R & U & _). auto. }
  destruct H as [H|H]; rewrite H.
  - apply E.
  - destruct (JsString.endsWith (JsString.toLowerCase (name file)) ".csv");
      apply E.
Qed.


(** Whatever panels the page has, none is on show after a call with an
    unrecognized name. *)
Lemma rich_showSection_unrecognized section st :
  ~ In section recognized ->
  ends (showSection section) st (fun st' => visible_panels st' = []).
Proof.
  intros H. pose proof (unrecognized_eqb _ _ H) as E.
  unfold ends, results, showSection, when_found, found.
  rewrite (E "upload"), (E "process"), (E "progress"), (E "results"),
    (E "error") by (simpl; tauto).
  unfold visible_panels, shown.
  destruct (present (page st) uploadSection) eqn:P1;
  destruct (present (page st) processSection) eqn:P2;
  destruct (present (page st) progressSection) eqn:P3;
  destruct (present (page st) resultsSection) eqn:P4;
  destruct (present (page st) errorSection) eqn:P5;
  run; eexists _, _; (split; [reflexivity|]); simpl;
  rewrite ?P1, ?P2, ?P3, ?P4, ?P5; reflexivity.
Qed.

Lemma showSection_unrecognized_hides section st :
  has_panels st -> ~ In section recognized ->
  ends (showSection section) st (exactly []).
Proof.
  intros Hp H. eapply results_mono; [apply rich_showSection_ends, Hp|].
  intros _ s' (X & _). revert X.
  pose proof (unrecognized_eqb _ _ H) as F. unfold implied.
  rewrite (F "upload"), (F "process"), (F "progress"), (F "results"),
    (F "error") by (simpl; tauto).
  exact (fun X => X).
Qed.

(** Calls that write properties of the page's elements and do nothing
    else. *)
Definition page_only (m : M State unit) : Prop :=
  forall st, ends m st (fun st' => untouched st st' /\ same_shape st st').

Lemma page_only_assign el name v : page_only (assign el name v).
Proof. intros st. repeat step. split; shape. repeat split. Qed.

Lemma page_only_ret : page_only (ret tt).
Proof. intros st. repeat step. split; shape. repeat split. Qed.

Lemma page_only_bind m n :
  page_only m -> page_only n -> page_only (bind m (fun _ => n)).
Proof.
  intros Hm Hn st. apply results_bind.
  eapply results_mono; [apply Hm|]. intros _ s1 (U1 & S1).
  eapply results_mono; [apply Hn|]. intros _ s2 (U2 & S2).
  unfold untouched, same_shape in *.
  destruct U1 as (A1 & B1 & C1 & D1 & E1 & F1).
  destruct U2 as (A2 & B2 & C2 & D2 & E2 & F2).
  repeat split; congruence.
Qed.

Lemma page_only_when_found el m : page_only m -> page_only (when_found el m).
Proof.
  intros Hm st. apply results_when_found; intros _.
  - apply Hm.
  - split; shape. repeat split.
Qed.

Lemma showSection_page_only section : page_only (showSection section).
Proof.
  unfold showSection, set_display.
  by_section section;
    repeat first [ apply page_only_bind | apply page_only_when_found
                 | apply page_only_assign | apply page_only_ret ].
Qed.

Lemma rich_resetForm_ends st :
  ends resetForm st
    (fun st' => selectedFile st' = None /\ outputFilename st' = None
                /\ asinFilename st' = None
                /\ lastProcessedData st' = lastProcessedData st
                /\ analyticsData st' = analyticsData st
                /\ trace st' = trace st).
Proof.
  unfold ends, resetForm. repeat step.
  apply results_when_found; intros _; repeat step.
  all: eapply results_mono; [apply showSection_page_only|].
  all: intros _ s' ((A & B & C & D & E & F) & _).
  all: rewrite A, B, C, D, E, F; repeat split.
Qed.

Lemma resetForm_shows_upload st :
  has_panels st -> ends resetForm st (exactly [uploadSection]).
Proof.
  intros Hp. unfold ends, resetForm. repeat step.
  apply results_when_found; intros _; repeat step.
  all: eapply results_mono;
    [apply rich_showSection_ends, (has_panels_shape _ _ Hp); shape|].
  all: intros _ s' (X & _); exact X.
Qed.

Lemma archiveReport_unavailable reply now st :
  has_panels st ->
  JsString.truthy (outputFilename st) = false \/ analyticsData st = None ->
  ends (archiveReport reply now) st
    (fun st' => reported "No report available to archive." st'
                /\ untouched st st').
Proof.
  intros Hp H. unfold ends, archiveReport. repeat step.
  assert (E : ends (showError "No report available to archive.") st
               (fun st' => reported "No report available to archive." st'
                           /\ untouched st st')).
  { eapply results_mono; [apply rich_showError_ends, Hp|].
    intros _ s' (R & U & _). auto. }
  destruct (analyticsData st) as [a|]; [|exact E].
  destruct H as [H|H]; [rewrite H; exact E | discriminate].
Qed.

(** *** The distribution view *)

(** A campaign gets a card unless its three-category total is zero. *)
Definition in_grid (entry : string * CampaignDetail) : bool :=
  negb (JsNumber.is_zero (total (snd entry))).

Definition cards (details : list (string * CampaignDetail)) : list value :=
  map (fun entry => distributionCard (fst entry) (snd entry))
      (filter in_grid details).

(** Only the markup inside elements has changed. *)
Definition only_markup (st st' : State) : Prop :=
  untouched st st' /\ same_shape st st'
  /\ forall el name, String.eqb "innerHTML" name = false ->
       prop (page st') el name = prop (page st) el name.

Lemma on_page_id st : on_page (fun d => d) st = st.
Proof. destruct st; reflexivity. Qed.

Lemma no_details_cards a : no_details a = true -> details_of a = [].
Proof.
  unfold no_details, details_of.
  destruct (campaignDetails a) as [[|e r]|]; [reflexivity | discriminate | reflexivity].
Qed.

Lemma analytics_after_write st f a :
  analyticsData st = Some a ->
  results currentAnalytics (on_page f st)
    (fun a' st' => a' = a /\ st' = on_page f st).
Proof.
  intros H. unfold currentAnalytics. apply results_bind, results_gets.
  cbn [analyticsData on_page]. rewrite H. apply results_ret. auto.
Qed.

Lemma updateDistributionGrid_ends st a :
  analyticsData st = Some a ->
  ends updateDistributionGrid st
    (fun st' => prop (page st') "distribution-grid" "innerHTML"
                = Children (cards (details_of a))
                /\ only_markup st st').
Proof.
  intros H. unfold ends, updateDistributionGrid, assign.
  apply results_bind, results_modify, results_bind.
  eapply results_mono; [apply analytics_after_write, H|].
  intros a' s' (-> & ->).
  destruct (no_details a) eqn:Hn.
  - apply results_ret. rewrite (no_details_cards _ Hn).
    split; [apply DomFacts.prop_set_same|].
    split; [repeat split|]. split; [reflexivity|].
    intros el name Hne. apply DomFacts.prop_set_other.
    rewrite Hne. apply andb_false_r.
  - set (g := fun entry : string * CampaignDetail =>
                on_page (fun d => if in_grid entry
                                  then appendChild "distribution-grid"
                                         (distributionCard (fst entry) (snd entry)) d
                                  else d)).
    eexists tt, _. split.
    + rewrite (forEach_ext _ (fun entry => modify (g entry))).
      * rewrite forEach_modify. unfold g. rewrite fold_on_page. reflexivity.
      * intros [n d] s. unfold g, in_grid. cbn [fst snd].
        destruct (JsNumber.is_zero (total d)); cbn [negb].
        -- unfold modify. rewrite on_page_id. reflexivity.
        -- reflexivity.
    + cbn [page on_page].
      destruct (DomFacts.fold_appendChild in_grid
                  (fun entry => distributionCard (fst entry) (snd entry))
                  "distribution-grid" (details_of a)
                  (set_prop "distribution-grid" "innerHTML" (Children []) (page st))
                  [] (DomFacts.prop_set_same _ _ _ _)) as (C & P & F).
      split; [exact C|]. split; [repeat split|].
      split; [unfold same_shape; cbn [page on_page]; rewrite P; reflexivity|].
      intros el name Hne. cbn [page on_page].
      rewrite F by (rewrite Hne; apply andb_false_r).
      apply DomFacts.prop_set_other. rewrite Hne. apply andb_false_r.
Qed.

Lemma only_markup_trans st1 st2 st3 :
  only_markup st1 st2 -> only_markup st2 st3 -> only_markup st1 st3.
Proof.
  unfold only_markup, untouched, same_shape.
  intros ((A1 & B1 & C1 & D1 & E1 & F1) & S1 & M1)
         ((A2 & B2 & C2 & D2 & E2 & F2) & S2 & M2).
  repeat split; try congruence.
  intros el name Hn. rewrite M2, M1 by exact Hn. reflexivity.
Qed.

(** Filling an emptied element with children changes markup only. *)
Lemma refill_only_markup {A : Type} el (child : A -> value) xs st :
  only_markup st
    (on_page (fun d => fold_left (fun d' x => appendChild el (child x) d') xs
                         (set_prop el "innerHTML" (Children []) d)) st).
Proof.
  destruct (DomFacts.fold_appendChild (fun _ => true) child el xs
              (set_prop el "innerHTML" (Children []) (page st)) []
              (DomFacts.prop_set_same _ _ _ _)) as (_ & P & F).
  cbv beta iota in P, F.
  split; [repeat split|].
  split; [unfold same_shape; cbn [page on_page]; rewrite P; reflexivity|].
  intros el' name Hne. cbn [page on_page].
  rewrite F by (rewrite Hne; apply andb_false_r).
  apply DomFacts.prop_set_other. rewrite Hne. apply andb_false_r.
Qed.

Lemma updateCampaignBreakdownTable_ends st a :
  analyticsData st = Some a ->
  ends updateCampaignBreakdownTable st (only_markup st).
Proof.
  intros H. unfold ends, updateCampaignBreakdownTable, assign.
  apply results_bind, results_modify, results_bind.
  eapply results_mono; [apply analytics_after_write, H|].
  intros a' s' (-> & ->).
  destruct (no_details a); [destruct (campaigns a) as [names|]|].
  - eexists tt, _. split.
    + rewrite forEach_modify, fold_on_page. reflexivity.
    + apply refill_only_markup.
  - apply results_ret.
    split; [repeat split|]. split; [reflexivity|].
    intros el name Hne. apply DomFacts.prop_set_other.
    rewrite Hne. apply andb_false_r.
  - eexists tt, _. split.
    + rewrite (forEach_ext _ (fun entry => modify (on_page
                 (appendChild "campaign-breakdown-body"
                    (Element "tr"
                       [Str (fst entry);
                        Locale (or_zero (monograms (snd entry)));
                        Locale (or_zero (bigrams (snd entry)));
                        Locale (or_zero (trigrams (snd entry)));
                        Locale (or_zero (search_terms (snd entry)));
                        formatCurrency (Some (or_zero (spend (snd entry))));
                        formatCurrency (Some (or_zero (sales (snd entry))))])))))
        by (intros [n d] s; reflexivity).
      rewrite forEach_modify, fold_on_page. reflexivity.
    + apply (refill_only_markup "campaign-breakdown-body"
               (fun entry : string * CampaignDetail => Element "tr" _)).
Qed.

(** *** The analytics view *)

Lemma updateAnalyticsSection_ends st a :
  analyticsData st = Some a ->
  ends updateAnalyticsSection st
    (fun st' => textContent (page st') "analytics-acos" = Str (acos a ++ "%")
                /\ untouched st st').
Proof.
  intros H. unfold ends, updateAnalyticsSection.
  apply results_bind, results_gets. rewrite H.
  do 10 (apply results_bind; unfold set_display, set_text, assign;
         apply results_modify).
  apply results_bind.
  eapply results_mono;
    [apply (updateCampaignBreakdownTable_ends _ a); exact H|].
  intros [] s1 M1.
  eapply results_mono;
    [apply (updateDistributionGrid_ends s1 a);
     destruct M1 as ((_ & _ & _ & _ & -> & _) & _); exact H|].
  intros [] s2 (_ & M2).
  destruct (only_markup_trans _ _ _ M1 M2) as (U & _ & F).
  split; [|exact U].
  unfold textContent. rewrite F by reflexivity. reflexivity.
Qed.

(** *** The archive list *)

Definition archive_request : effect := Fetch "GET" "/archive" NoBody.

(** The list is empty or the server reported failure. *)
Definition nothing_to_list (result : ArchiveList) : Prop :=
  list_success result = false \/ archives result = None
  \/ archives result = Some [].

Lemma loadArchive_returns reply st :
  exists st', loadArchive reply st = (Normal tt, st').
Proof.
  unfold loadArchive, tryCatch.
  match goal with
  | |- context [let (_, _) := ?body st in _] => destruct (body st) as [[[]|e] s']
  | |- context [match ?body st with _ => _ end] => destruct (body st) as [[[]|e] s']
  end; eexists; reflexivity.
Qed.

Lemma loadArchive_placeholder result st :
  nothing_to_list result ->
  ends (loadArchive (Json result)) st
    (fun st' => display (page st') "archive-empty" = Str "block"
                /\ display (page st') "archive-content" = Str "none"
                /\ prop (page st') "archive-list" "innerHTML"
                   = prop (page st) "archive-list" "innerHTML"
                /\ trace st' = (trace st ++ [archive_request])%list).
Proof.
  intros H. unfold ends, loadArchive. apply results_tryCatch.
  repeat step.
  assert (E : forall s,
             results (set_display "archive-empty" "block" ;;
                      set_display "archive-content" "none")%js s
               (fun _ s' => s' = on_page (set_prop "archive-content" "style.display" (Str "none"))
                                  (on_page (set_prop "archive-empty" "style.display" (Str "block")) s)))
    by (intros s; repeat step; reflexivity).
  destruct H as [H|[H|H]]; rewrite H; try destruct (list_success result);
    try destruct (archives result) as [[|? ?]|]; try discriminate;
    (eapply results_mono; [apply E|]); intros _ s' ->; repeat split.
Qed.

Lemma loadArchive_failed (reply : fetched ArchiveList) st :
  reply = FetchRejected \/ reply = JsonRejected ->
  ends (loadArchive reply) st
    (fun st' => page st' = page st
                /\ trace st' = (trace st ++ [archive_request;
                                             ConsoleError "Error loading archive:"])%list
                /\ selectedFile st' = selectedFile st
                /\ outputFilename st' = outputFilename st
                /\ asinFilename st' = asinFilename st
                /\ lastProcessedData st' = lastProcessedData st
                /\ analyticsData st' = analyticsData st).
Proof.
  intros [-> | ->]; unfold ends, loadArchive; apply results_caught;
    repeat step; intros e; repeat step; cbn [trace emit page];
    rewrite <- app_assoc; repeat split.
Qed.

End RichFacts.

(** ** More on the page *)

Module PageFacts.

Import Dom.

(** Appending one child per entry. *)
Lemma fold_appendChild_all {A : Type} (child : A -> value) el xs d l :
  prop d el "innerHTML" = Children l ->
  let d' := fold_left (fun acc x => appendChild el (child x) acc) xs d in
  prop d' el "innerHTML" = Children (l ++ map child xs)
  /\ present d' = present d
  /\ forall el' name',
       String.eqb el el' && String.eqb "innerHTML" name' = false ->
       prop d' el' name' = prop d el' name'.
Proof.
  revert d l. induction xs as [|x r IH]; intros d l H; cbn [fold_left map].
  - rewrite app_nil_r. auto.
  - destruct (IH (appendChild el (child x) d) (l ++ [child x])%list
                (DomFacts.appendChild_children _ _ _ _ H)) as (C & P & F).
    rewrite <- app_assoc in C. repeat split; [exact C | exact P |].
    intros el' name' Hn. rewrite F by exact Hn.
    apply DomFacts.appendChild_other, Hn.
Qed.

Lemma refill_children {A : Type} el (child : A -> value) xs d :
  prop (fold_left (fun d' x => appendChild el (child x) d') xs
          (set_prop el "innerHTML" (Children []) d)) el "innerHTML"
  = Children (map child xs).
Proof.
  destruct (fold_appendChild_all child el xs
              (set_prop el "innerHTML" (Children []) d) []
              (DomFacts.prop_set_same _ _ _ _)) as (C & _).
  exact C.
Qed.

(** A property of another element, or another property of the same
    element, is not the one just written. *)
Ltac elsewhere :=
  repeat (rewrite DomFacts.prop_set_other;
          [|solve [ reflexivity
                  | apply andb_false_intro2; reflexivity
                  | apply andb_false_intro1; apply String.eqb_neq; congruence ]]).

End PageFacts.

(** ** What a call of the richer variant leaves alone *)

Module Footprint.

Import Js Dom Server Rich.

(** A relation between the state before a call and the state after it
    that holds however the call ends, for every call built from steps
    that keep it. *)
Section Preserved.

Context {S : Type}.
Variable R : S -> S -> Prop.
Hypothesis R_refl : forall st, R st st.
Hypothesis R_trans : forall st1 st2 st3, R st1 st2 -> R st2 st3 -> R st1 st3.

Definition preserves {A : Type} (m : M S A) : Prop :=
  forall st, R st (exec m st).

Lemma preserves_ret {A : Type} (a : A) : preserves (ret a).
Proof. intros st. apply R_refl. Qed.

Lemma preserves_throw {A : Type} e : preserves (@throw S A e).
Proof. intros st. apply R_refl. Qed.

Lemma preserves_gets {A : Type} (f : S -> A) : preserves (gets f).
Proof. intros st. apply R_refl. Qed.

Lemma preserves_defined {A : Type} (o : option A) what :
  preserves (defined o what).
Proof. destruct o; [apply preserves_ret | apply preserves_throw]. Qed.

Lemma preserves_modify (f : S -> S) :
  (forall st, R st (f st)) -> preserves (modify f).
Proof. intros H st. apply H. Qed.

Lemma preserves_bind {A B : Type} (m : M S A) (f : A -> M S B) :
  preserves m -> (forall a, preserves (f a)) -> preserves (bind m f).
Proof.
  intros Hm Hf st. specialize (Hm st). unfold exec, bind in *.
  destruct (m st) as [[a|e] s']; cbn [snd] in *.
  - eapply R_trans; [exact Hm | apply Hf].
  - exact Hm.
Qed.

Lemma preserves_tryCatch {A : Type} (body : M S A) handler :
  preserves body -> (forall e, preserves (handler e)) ->
  preserves (tryCatch body handler).
Proof.
  intros Hb Hh st. specialize (Hb st). unfold exec, tryCatch in *.
  destruct (body st) as [[a|e] s']; cbn [snd] in *.
  - exact Hb.
  - eapply R_trans; [exact Hb | apply Hh].
Qed.

Lemma preserves_forEach {A : Type} (xs : list A) (f : A -> M S unit) :
  (forall x, preserves (f x)) -> preserves (forEach xs f).
Proof.
  intros H. induction xs as [|x r IH]; cbn [forEach].
  - apply preserves_ret.
  - apply preserves_bind; [apply H | intros _; exact IH].
Qed.

(** A call that returns has ended in the state [exec] gives. *)
Lemma results_preserved {A : Type} (m : M S A) st (post : A -> S -> Prop) :
  preserves m -> results m st post ->
  results m st (fun a st' => post a st' /\ R st st').
Proof.
  intros Hw (a & st' & E & H). exists a, st'. split; [exact E|].
  split; [exact H|]. specialize (Hw st). unfold exec in Hw.
  rewrite E in Hw. exact Hw.
Qed.

End Preserved.

Section PreservedRich.

Variable R : State -> State -> Prop.
Hypothesis R_refl : forall st, R st st.
Hypothesis R_trans : forall st1 st2 st3, R st1 st2 -> R st2 st3 -> R st1 st3.

Lemma preserves_mapM {A B : Type} (f : A -> M State B) (xs : list A) :
  (forall x, preserves R (f x)) -> preserves R (mapM f xs).
Proof.
  intros H. induction xs as [|x r IH]; cbn [mapM].
  - apply (preserves_ret R R_refl).
  - apply (preserves_bind R R_trans); [apply H | intros y].
    apply (preserves_bind R R_trans);
      [exact IH | intros ys; apply (preserves_ret R R_refl)].
Qed.

Lemma preserves_when_found el m :
  preserves R m -> preserves R (when_found el m).
Proof.
  intros H. unfold when_found, found.
  apply (preserves_bind R R_trans); [apply (preserves_gets R R_refl)|].
  intros [|]; [exact H | apply (preserves_ret R R_refl)].
Qed.

End PreservedRich.

(** Two facts about the state a call returns in hold together. *)
Lemma results_and {S A : Type} (m : M S A) st (P Q : A -> S -> Prop) :
  results m st P -> results m st Q ->
  results m st (fun a st' => P a st' /\ Q a st').
Proof.
  intros (a & st' & E & H) (a' & st'' & E' & H'). rewrite E in E'.
  injection E' as <- <-. exists a, st'. auto.
Qed.

(** Apart from the properties [W] names, the page is as it was. *)
Definition page_kept (W : string -> string -> bool) (st st' : State) : Prop :=
  present (page st') = present (page st)
  /\ forall el name, W el name = false ->
       prop (page st') el name = prop (page st) el name.

Lemma page_kept_refl W st : page_kept W st st.
Proof. split; reflexivity. Qed.

Lemma page_kept_trans W st1 st2 st3 :
  page_kept W st1 st2 -> page_kept W st2 st3 -> page_kept W st1 st3.
Proof.
  intros (P1 & F1) (P2 & F2). split; [congruence|].
  intros el name H. rewrite F2, F1 by exact H. reflexivity.
Qed.

Lemma page_kept_same W st st' : page st' = page st -> page_kept W st st'.
Proof. intros E. unfold page_kept. rewrite E. split; reflexivity. Qed.

Lemma page_kept_weaken (W W' : string -> string -> bool) st st' :
  (forall el name, W el name = true -> W' el name = true) ->
  page_kept W st st' -> page_kept W' st st'.
Proof.
  intros H (P & F). split; [exact P|].
  intros el name H'. apply F. destruct (W el name) eqn:E; [|reflexivity].
  rewrite (H _ _ E) in H'. discriminate.
Qed.

(** Whichever way the call ends, it has written no property outside
    [W]. *)
Definition writes {A : Type} (W : string -> string -> bool) (m : M State A)
  : Prop :=
  preserves (page_kept W) m.

Lemma writes_assign W el name v :
  W el name = true -> writes W (assign el name v).
Proof.
  intros H st. split; [reflexivity|]. intros el' name' H'.
  unfold assign, modify, exec. cbn [snd page on_page].
  apply DomFacts.prop_set_other.
  destruct (String.eqb_spec el el') as [<-|]; [|reflexivity].
  destruct (String.eqb_spec name name') as [<-|]; [congruence | reflexivity].
Qed.

Lemma writes_appendChild W el child :
  W el "innerHTML" = true ->
  writes W (modify (on_page (appendChild el child))).
Proof.
  intros H st. split; [reflexivity|]. intros el' name' H'.
  unfold modify, exec. cbn [snd page on_page].
  apply DomFacts.appendChild_other.
  destruct (String.eqb_spec el el') as [<-|]; [|reflexivity].
  destruct (String.eqb_spec "innerHTML" name') as [<-|]; [congruence | reflexivity].
Qed.

Lemma writes_weaken {A : Type} (W W' : string -> string -> bool) (m : M State A) :
  (forall el name, W el name = true -> W' el name = true) ->
  writes W m -> writes W' m.
Proof. intros H Hm st. apply (page_kept_weaken W W' _ _ H), Hm. Qed.

(** The five variables of the script are as before. *)
Definition same_variables (st st' : State) : Prop :=
  selectedFile st' = selectedFile st /\ outputFilename st' = outputFilename st
  /\ asinFilename st' = asinFilename st
  /\ lastProcessedData st' = lastProcessedData st
  /\ analyticsData st' = analyticsData st.

Lemma same_variables_refl st : same_variables st st.
Proof. repeat split. Qed.

Lemma same_variables_trans st1 st2 st3 :
  same_variables st1 st2 -> same_variables st2 st3 -> same_variables st1 st3.
Proof.
  intros (A1 & B1 & C1 & D1 & E1) (A2 & B2 & C2 & D2 & E2).
  repeat split; congruence.
Qed.

Lemma untouched_variables st st' :
  RichFacts.untouched st st' -> same_variables st st'.
Proof. intros (A & B & C & D & E & _). repeat split; assumption. Qed.

(** Whichever way the call ends, it has assigned to none of the five
    variables. *)
Definition reads_only {A : Type} (m : M State A) : Prop :=
  preserves same_variables m.

(** The steps a call is built from, taken apart. *)
Ltac taken_apart_by unfolding R_refl R_trans leaf :=
  repeat first
    [ leaf
    | match goal with
      | |- preserves _ (bind _ _) => apply (preserves_bind _ R_trans); [|intros ?]
      | |- preserves _ (ret _) => apply (preserves_ret _ R_refl)
      | |- preserves _ (throw _) => apply (preserves_throw _ R_refl)
      | |- preserves _ (gets _) => apply (preserves_gets _ R_refl)
      | |- preserves _ (defined _ _) => apply (preserves_defined _ R_refl)
      | |- preserves _ (tryCatch _ _) =>
          apply (preserves_tryCatch _ R_trans); [|intros ?]
      | |- preserves _ (forEach _ _) =>
          apply (preserves_forEach _ R_refl R_trans); intros ?
      | |- preserves _ (mapM _ _) =>
          apply (preserves_mapM _ R_refl R_trans); intros ?
      | |- preserves _ (when_found _ _) =>
          apply (preserves_when_found _ R_refl R_trans)
      | |- preserves _ (if ?b then _ else _) => destruct b
      | |- preserves _ (match ?x with _ => _ end) => destruct x
      end
    | unfolding ].

Ltac taken_apart R_refl R_trans leaf :=
  taken_apart_by
    ltac:(progress unfold set_display, set_text, assign, fetch, json,
            currentAnalytics, archiveItem)
    R_refl R_trans leaf.

Ltac footprint :=
  unfold writes;
  let r := uconstr:(page_kept_refl _) in
  let t := uconstr:(page_kept_trans _) in
  taken_apart r t
    ltac:(idtac; match goal with
          | H : writes _ ?m |- preserves _ ?m => exact H
          | |- preserves _ (assign _ _ _) =>
              apply writes_assign; reflexivity
          | |- preserves _ (modify (on_page (set_prop ?el ?name ?v))) =>
              apply (writes_assign _ el name v); reflexivity
          | |- preserves _ (modify (on_page (appendChild _ _))) =>
              apply writes_appendChild; reflexivity
          | |- preserves _ (modify _) =>
              solve [apply preserves_modify; intros; apply page_kept_same;
                     reflexivity]
          end).

Ltac variables_kept :=
  unfold reads_only;
  taken_apart same_variables_refl same_variables_trans
    ltac:(idtac; match goal with
          | H : reads_only ?m |- preserves _ ?m => exact H
          | |- preserves _ (assign _ _ _) =>
              solve [apply preserves_modify; intros; repeat split]
          | |- preserves _ (modify _) =>
              solve [apply preserves_modify; intros; repeat split]
          end).

End Footprint.

(** ** The upload cycle of the richer variant, in detail *)

Module RichFlow.

Import Js Dom Server Rich RichFacts PageFacts Footprint.

Ltac lookup :=
  unfold textContent, display; cbn [page on_page];
  elsewhere; first [apply DomFacts.prop_set_same | reflexivity].

(** The display of the five panels. *)
Definition panel_display (el name : string) : bool :=
  String.eqb name "style.display" && among el panels.

(** The display of the five panels and the text of the error message. *)
Definition error_report (el name : string) : bool :=
  panel_display el name
  || (String.eqb name "textContent" && String.eqb el errorMessage).

Lemma showSection_writes section : writes panel_display (showSection section).
Proof.
  unfold showSection, set_display.
  by_section section;
    footprint.
Qed.

Lemma showError_writes message : writes error_report (showError message).
Proof.
  unfold showError, set_text.
  apply (preserves_bind _ (page_kept_trans _)); [|intros _].
  - apply writes_assign. reflexivity.
  - eapply writes_weaken; [|apply showSection_writes].
    intros el name H. unfold error_report. rewrite H. reflexivity.
Qed.

(** A call that returns has ended in the state [exec] gives. *)
Lemma results_writes {A : Type} W (m : M State A) st (post : A -> State -> Prop) :
  writes W m -> results m st post ->
  results m st (fun a st' => post a st' /\ page_kept W st st').
Proof.
  intros Hw (a & st' & E & H). exists a, st'. split; [exact E|].
  split; [exact H|]. specialize (Hw st). unfold exec in Hw.
  rewrite E in Hw. exact Hw.
Qed.

Lemma showSection_spec section st :
  has_panels st ->
  ends (showSection section) st
    (fun st' => exactly (implied section) st' /\ untouched st st'
                /\ page_kept panel_display st st').
Proof.
  intros Hp. eapply results_mono.
  - apply results_writes; [apply showSection_writes|].
    apply rich_showSection_ends, Hp.
  - intros _ s' ((X & U & _) & K). auto.
Qed.

Lemma showError_spec message st :
  has_panels st ->
  ends (showError message) st
    (fun st' => reported message st' /\ untouched st st'
                /\ page_kept error_report st st').
Proof.
  intros Hp. eapply results_mono.
  - apply results_writes; [apply showError_writes|].
    apply rich_showError_ends, Hp.
  - intros _ s' ((X & U & _) & K). auto.
Qed.


(** What [displayResults] writes on the results panel. *)
Definition summary_shown (s : Summary) (rows asins count : JsNumber.num)
    (names : list string) (st' : State) : Prop :=
  textContent (page st') "total-rows" = Locale rows
  /\ textContent (page st') "asins-removed" = Locale asins
  /\ textContent (page st') "campaigns-count" = Locale count
  /\ textContent (page st') "total-spend" = formatCurrency (total_spend s)
  /\ textContent (page st') "total-sales" = formatCurrency (total_sales s)
  /\ prop (page st') "campaign-names" "innerHTML"
     = Children (map (fun campaign => Element "li" [Str campaign]) names).

(** The ASIN download button, where the page has one, is on show exactly
    when the result names an ASIN file. *)
Definition asin_button (result : UploadResult) (st' : State) : Prop :=
  present (page st') downloadAsinBtn = true ->
  display (page st') downloadAsinBtn
  = Str (if JsString.truthy (asin_file result) then "inline-flex" else "none").

Lemma summary_shown_kept W s rows asins count names st st' :
  summary_shown s rows asins count names st -> page_kept W st st' ->
  W "total-rows" "textContent" = false ->
  W "asins-removed" "textContent" = false ->
  W "campaigns-count" "textContent" = false ->
  W "total-spend" "textContent" = false ->
  W "total-sales" "textContent" = false ->
  W "campaign-names" "innerHTML" = false ->
  summary_shown s rows asins count names st'.
Proof.
  intros (A & B & C & D & E & F) (_ & K) W1 W2 W3 W4 W5 W6.
  unfold summary_shown, textContent in *.
  rewrite (K _ _ W1), (K _ _ W2), (K _ _ W3), (K _ _ W4), (K _ _ W5),
    (K _ _ W6).
  auto 7.
Qed.

Lemma displayResults_renders result s rows asins count names st :
  has_panels st ->
  summary result = Some s -> original_rows s = Some rows ->
  asins_removed s = Some asins -> campaigns_processed s = Some count ->
  Server.campaigns result = Some names ->
  ends (displayResults result) st
    (fun st' => exactly [resultsSection] st' /\ untouched st st'
                /\ summary_shown s rows asins count names st'
                /\ asin_button result st').
Proof.
  intros Hp Hs Hr Ha Hc Hn. unfold ends, displayResults.
  rewrite Hs. repeat step. rewrite Hr. repeat step. rewrite Ha. repeat step.
  rewrite Hc. repeat step. rewrite Hn. repeat step.
  match goal with
  | |- results _ ?s0 _ => set (s1 := s0)
  end.
  assert (T1 : summary_shown s rows asins count names s1).
  { unfold summary_shown, s1, textContent. cbn [page on_page].
    match goal with
    | |- context [fold_left _ names ?d] =>
        destruct (fold_appendChild_all (fun x => Element "li" [Str x])
                    "campaign-names" names d []
                    (DomFacts.prop_set_same _ _ _ _)) as (C & _ & F)
    end.
    cbv zeta in C, F. rewrite !F by reflexivity.
    repeat split; try (elsewhere; apply DomFacts.prop_set_same).
    exact C. }
  assert (U1 : untouched st s1) by (unfold s1; repeat split).
  assert (P1 : has_panels s1)
    by (apply (has_panels_shape st); [exact Hp | unfold s1; shape]).
  clearbody s1.
  assert (Fin : forall s2,
             untouched st s2 -> has_panels s2 ->
             summary_shown s rows asins count names s2 ->
             asin_button result s2 ->
             results (showSection "results") s2
               (fun _ st' => exactly [resultsSection] st' /\ untouched st st'
                             /\ summary_shown s rows asins count names st'
                             /\ asin_button result st')).
  { intros s2 U2 P2 T2 B2.
    eapply results_mono; [apply showSection_spec, P2|].
    intros _ st' (X & U & K). split; [exact X|]. split.
    - unfold untouched in *. intuition congruence.
    - split; [apply (summary_shown_kept _ _ _ _ _ _ _ _ T2 K); reflexivity|].
      unfold asin_button, display in *. destruct K as (Sh & K).
      rewrite Sh, (K downloadAsinBtn "style.display" eq_refl). exact B2. }
  apply results_when_found; intros PA.
  - destruct (JsString.truthy (asin_file result)) eqn:TA; repeat step.
    all: apply Fin;
      [ exact U1
      | apply (has_panels_shape s1); [exact P1 | shape]
      | apply (summary_shown_kept
                 (fun el name => String.eqb downloadAsinBtn el
                                 && String.eqb "style.display" name)
                 _ _ _ _ _ s1);
        [ exact T1
        | apply (writes_assign _ downloadAsinBtn "style.display" _ eq_refl s1)
        | reflexivity .. ]
      | unfold asin_button; rewrite TA; intros _; lookup ].
  - apply Fin; try assumption.
    intros H. rewrite H in PA. discriminate.
Qed.

(** The analytics snapshot [processFile] stores for a result. *)
Definition snapshot_of (result : UploadResult) (file : File) (now : string)
  : Analytics :=
  {| totals := match summary result with
               | Some s => s
               | None => no_summary
               end;
     campaigns := Server.campaigns result;
     campaignDetails := Some match campaign_details result with
                             | Some d => d
                             | None => []
                             end;
     filename := Some (name file);
     processedAt := Some now |}.

(** The variables after a reply that reported success. *)
Definition stored (result : UploadResult) (file : File) (now : string)
    (st' : State) : Prop :=
  selectedFile st' = Some file
  /\ outputFilename st' = output_file result
  /\ asinFilename st' = asin_file result
  /\ lastProcessedData st' = Some result
  /\ analyticsData st' = Some (snapshot_of result file now).

Definition upload_request (file : File) : effect :=
  Fetch "POST" "/upload" (FormData file).

Lemma displayResults_throws_untouched result st :
  complete result = false ->
  throws (displayResults result) st
    (fun st' => same_shape st st' /\ untouched st st').
Proof.
  unfold complete, displayResults.
  destruct result as [ok out asin [[[r|] [a|] [c|] f sp sa o]|] [names|] det err];
    cbn [summary Server.campaigns original_rows asins_removed
         campaigns_processed asin_file total_spend total_sales];
    try discriminate; intros _; repeat step; (split; [shape | repeat split]).
Qed.

Lemma processFile_delivers result s rows asins count names now st file :
  has_panels st -> selectedFile st = Some file ->
  success result = true ->
  summary result = Some s -> original_rows s = Some rows ->
  asins_removed s = Some asins -> campaigns_processed s = Some count ->
  Server.campaigns result = Some names ->
  ends (processFile (Json result) now) st
    (fun st' => exactly [resultsSection] st'
                /\ stored result file now st'
                /\ trace st' = (trace st ++ [upload_request file])%list
                /\ summary_shown s rows asins count names st'
                /\ asin_button result st').
Proof.
  intros Hp H Hok Hs Hr Ha Hc Hn. unfold ends, processFile.
  apply results_bind, results_gets. rewrite H.
  apply results_bind. eapply results_mono; [apply showSection_spec, Hp|].
  intros _ s1 (_ & U1 & K1). repeat step.
  apply results_tryCatch. repeat step. rewrite Hok. repeat step.
  eapply results_mono.
  - apply (displayResults_renders result s rows asins count names);
      try assumption.
    apply (has_panels_shape st); [exact Hp|]. destruct K1 as (Sh & _). shape.
  - intros _ st' (X & U & T & B).
    destruct U1 as (A1 & B1 & C1 & D1 & E1 & F1).
    destruct U as (A2 & B2 & C2 & D2 & E2 & F2).
    cbn [selectedFile outputFilename asinFilename lastProcessedData
         analyticsData trace on_page emit set_outputFilename set_asinFilename
         set_lastProcessedData set_analyticsData] in A2, B2, C2, D2, E2, F2.
    split; [exact X|]. split.
    + unfold stored, snapshot_of. rewrite A2, A1, H. auto.
    + split; [rewrite F2, F1; reflexivity|]. auto.
Qed.

(** The message of the error panel after a reply that did not report
    success. *)
Lemma processFile_refused result now st file :
  has_panels st -> selectedFile st = Some file ->
  success result = false ->
  ends (processFile (Json result) now) st
    (fun st' => reported (JsString.or_else (error result)
                            "An error occurred while processing the file.") st'
                /\ selectedFile st' = Some file
                /\ outputFilename st' = outputFilename st
                /\ asinFilename st' = asinFilename st
                /\ lastProcessedData st' = lastProcessedData st
                /\ analyticsData st' = analyticsData st
                /\ trace st' = (trace st ++ [upload_request file])%list).
Proof.
  intros Hp H Hok. unfold ends, processFile.
  apply results_bind, results_gets. rewrite H.
  apply results_bind. eapply results_mono; [apply showSection_spec, Hp|].
  intros _ s1 (_ & U1 & K1). repeat step.
  apply results_tryCatch. repeat step. rewrite Hok.
  eapply results_mono.
  - apply rich_showError_ends.
    apply (has_panels_shape st); [exact Hp|]. destruct K1 as (Sh & _). shape.
  - intros _ st' (X & U & _).
    destruct U1 as (A1 & B1 & C1 & D1 & E1 & F1).
    destruct U as (A2 & B2 & C2 & D2 & E2 & F2).
    cbn [selectedFile outputFilename asinFilename lastProcessedData
         analyticsData trace on_page emit] in A2, B2, C2, D2, E2, F2.
    split; [exact X|]. rewrite A2, B2, C2, D2, E2, F2, A1, B1, C1, D1, E1, F1.
    auto 7.
Qed.

(** The request failed, or what came back was not JSON. *)
Lemma processFile_unreachable (reply : fetched UploadResult) now st file :
  has_panels st -> selectedFile st = Some file ->
  reply = FetchRejected \/ reply = JsonRejected ->
  ends (processFile reply now) st
    (fun st' => reported "Network error. Please check your connection and try again." st'
                /\ selectedFile st' = Some file
                /\ outputFilename st' = outputFilename st
                /\ asinFilename st' = asinFilename st
                /\ lastProcessedData st' = lastProcessedData st
                /\ analyticsData st' = analyticsData st
                /\ trace st' = (trace st ++ [upload_request file;
                                             ConsoleError "Error:"])%list).
Proof.
  intros Hp H Hr. unfold ends, processFile.
  apply results_bind, results_gets. rewrite H.
  apply results_bind. eapply results_mono; [apply showSection_spec, Hp|].
  intros _ s1 (_ & U1 & K1). repeat step.
  apply results_caught.
  destruct Hr as [-> | ->]; repeat step; intros e; repeat step.
  all: eapply results_mono;
    [ apply rich_showError_ends;
      apply (has_panels_shape st); [exact Hp|]; destruct K1 as (Sh & _); shape
    | ].
  all: intros _ st' (X & U & _);
    destruct U1 as (A1 & B1 & C1 & D1 & E1 & F1);
    destruct U as (A2 & B2 & C2 & D2 & E2 & F2);
    cbn [selectedFile outputFilename asinFilename lastProcessedData
         analyticsData trace on_page emit] in A2, B2, C2, D2, E2, F2;
    (split; [exact X|]);
    rewrite A2, B2, C2, D2, E2, F2, A1, B1, C1, D1, E1, F1, <- app_assoc;
    auto 7.
Qed.

(** The reply reported success but lacks what [displayResults] reads. *)
Lemma processFile_malformed result now st file :
  has_panels st -> selectedFile st = Some file ->
  success result = true -> complete result = false ->
  ends (processFile (Json result) now) st
    (fun st' => reported "Network error. Please check your connection and try again." st'
                /\ stored result file now st'
                /\ trace st' = (trace st ++ [upload_request file;
                                             ConsoleError "Error:"])%list).
Proof.
  intros Hp H Hok Hc. unfold ends, processFile.
  apply results_bind, results_gets. rewrite H.
  apply results_bind. eapply results_mono; [apply showSection_spec, Hp|].
  intros _ s1 (_ & U1 & K1). repeat step.
  apply results_caught. repeat step. rewrite Hok. repeat step.
  eapply throws_mono; [apply displayResults_throws_untouched, Hc|].
  intros s2 (Sh2 & U2) e. repeat step.
  eapply results_mono.
  - apply rich_showError_ends. apply (has_panels_shape st); [exact Hp|].
    destruct K1 as (Sh1 & _). shape. rewrite Sh2. shape.
  - intros _ st' (X & U & _).
    destruct U1 as (A1 & B1 & C1 & D1 & E1 & F1).
    destruct U2 as (A2 & B2 & C2 & D2 & E2 & F2).
    destruct U as (A3 & B3 & C3 & D3 & E3 & F3).
    cbn [selectedFile outputFilename asinFilename lastProcessedData
         analyticsData trace on_page emit set_outputFilename set_asinFilename
         set_lastProcessedData set_analyticsData]
      in A2, B2, C2, D2, E2, F2, A3, B3, C3, D3, E3, F3.
    split; [exact X|]. split.
    + unfold stored, snapshot_of.
      rewrite A3, A2, A1, H, B3, B2, C3, C2, D3, D2, E3, E2. auto.
    + rewrite F3, F2, F1, <- app_assoc. reflexivity.
Qed.

(** *** Archiving a report *)

(** The name [archiveReport] sends as the original file name. *)
Definition original_name (st : State) : string :=
  match selectedFile st with
  | Some f => name f
  | None => "Unknown"
  end.

Definition archive_post (st : State) (out : string) (a : Analytics)
    (now : string) : effect :=
  Fetch "POST" "/archive" (ArchiveRequest (Some out) (original_name st) a now).







(** The server answered the archive request with a failure. *)
Lemma archiveReport_refused result now st out a :
  has_panels st ->
  outputFilename st = Some out -> out <> "" -> analyticsData st = Some a ->
  reply_success result = false ->
  ends (archiveReport (Json result) now) st
    (fun st' => reported (JsString.or_else (reply_error result)
                            "Failed to archive report.") st'
                /\ same_variables st st'
                /\ trace st' = (trace st ++ [archive_post st out a now])%list).
Proof.
  intros Hp Ho Hne Ha Hok. unfold ends, archiveReport.
  apply results_bind, results_gets. apply results_bind, results_gets.
  rewrite Ha, Ho. cbn [JsString.truthy].
  apply String.eqb_neq in Hne. rewrite Hne. cbn [negb].
  apply results_tryCatch. repeat step. rewrite Hok.
  eapply results_mono.
  - apply rich_showError_ends. apply (has_panels_shape st); [exact Hp | shape].
  - intros _ st' (X & U & _). split; [exact X|].
    destruct U as (A2 & B2 & C2 & D2 & E2 & F2).
    cbn [selectedFile outputFilename asinFilename lastProcessedData
         analyticsData trace on_page emit] in A2, B2, C2, D2, E2, F2.
    split; [repeat split; assumption|]. exact F2.
Qed.

(** The archive request failed, or what came back was not JSON. *)
Lemma archiveReport_unreachable (reply : fetched ArchiveReply) now st out a :
  has_panels st ->
  outputFilename st = Some out -> out <> "" -> analyticsData st = Some a ->
  reply = FetchRejected \/ reply = JsonRejected ->
  ends (archiveReport reply now) st
    (fun st' => reported "Failed to archive report. Please try again." st'
                /\ same_variables st st'
                /\ trace st' = (trace st ++ [archive_post st out a now;
                                             ConsoleError "Error archiving:"])%list).
Proof.
  intros Hp Ho Hne Ha Hr. unfold ends, archiveReport.
  apply results_bind, results_gets. apply results_bind, results_gets.
  rewrite Ha, Ho. cbn [JsString.truthy].
  apply String.eqb_neq in Hne. rewrite Hne. cbn [negb].
  apply results_caught.
  destruct Hr as [-> | ->]; repeat step; intros e; repeat step.
  all: eapply results_mono;
    [ apply rich_showError_ends; apply (has_panels_shape st); [exact Hp | shape]
    | ].
  all: intros _ st' (X & U & _); (split; [exact X|]);
    destruct U as (A2 & B2 & C2 & D2 & E2 & F2);
    cbn [selectedFile outputFilename asinFilename lastProcessedData
         analyticsData trace on_page emit] in A2, B2, C2, D2, E2, F2;
    (split; [repeat split; assumption|]);
    rewrite F2, <- app_assoc; reflexivity.
Qed.

(** *** The archive list *)

(** The markup of one archived report. *)
Definition archiveEntry (item : ArchiveItem) : value :=
  let totals :=
    match item_summary item with
    | Some t => t
    | None => no_summary
    end in
  Element "archive-item"
    [Str (interpolate (item_id item));
     Str (JsString.or_else (item_originalFilename item) "Search Term Report");
     DateText (item_processedAt item);
     Str (interpolate (item_filename item));
     Str (JsNumber.toString (or_zero (campaigns_processed totals)));
     formatCurrency (Some (or_zero (total_spend totals)));
     formatCurrency (Some (or_zero (total_sales totals)))].

Lemma mapM_archiveItem_all items st :
  mapM archiveItem (map Some items) st = (Normal (map archiveEntry items), st).
Proof.
  induction items as [|item r IH]; [reflexivity|].
  cbn [map mapM]. unfold bind at 1.
  change (archiveItem (Some item) st) with (Normal (archiveEntry item), st).
  cbv iota beta. unfold bind at 1. rewrite IH. reflexivity.
Qed.

Lemma mapM_archiveItem_null entries st :
  In None entries -> exists e, mapM archiveItem entries st = (Throw e, st).
Proof.
  induction entries as [|entry r IH]; intros H; [destruct H|].
  destruct entry as [item|].
  - destruct H as [H|H]; [discriminate|]. destruct (IH H) as (e & E).
    exists e. cbn [mapM]. unfold bind at 1.
    change (archiveItem (Some item) st) with (Normal (archiveEntry item), st).
    cbv iota beta. unfold bind at 1. rewrite E. reflexivity.
  - eexists. reflexivity.
Qed.

(** The two placeholders of the archive view and the list itself. *)
Definition archive_view (el name : string) : bool :=
  (String.eqb name "style.display"
   && among el ["archive-empty"; "archive-content"])
  || (String.eqb name "innerHTML" && String.eqb el "archive-list").

Lemma loadArchive_writes reply : writes archive_view (loadArchive reply).
Proof. unfold loadArchive. footprint. Qed.

Lemma loadArchive_reads_only reply : reads_only (loadArchive reply).
Proof. unfold loadArchive. variables_kept. Qed.

Lemma loadArchive_lists result items st :
  list_success result = true -> archives result = Some (map Some items) ->
  items <> [] ->
  ends (loadArchive (Json result)) st
    (fun st' => display (page st') "archive-empty" = Str "none"
                /\ display (page st') "archive-content" = Str "block"
                /\ prop (page st') "archive-list" "innerHTML"
                   = Children (map archiveEntry items)
                /\ trace st' = (trace st ++ [archive_request])%list).
Proof.
  intros Hok Ha Hne. unfold ends, loadArchive. apply results_tryCatch.
  repeat step. rewrite Hok, Ha.
  destruct items as [|item r]; [contradiction|]. cbn [map].
  repeat step.
  eexists _, _. split; [apply (mapM_archiveItem_all (item :: r))|].
  repeat step. repeat split.
Qed.

Lemma loadArchive_null_entry result entries st :
  list_success result = true -> archives result = Some entries ->
  In None entries ->
  ends (loadArchive (Json result)) st
    (fun st' => display (page st') "archive-empty" = Str "none"
                /\ display (page st') "archive-content" = Str "block"
                /\ prop (page st') "archive-list" "innerHTML"
                   = prop (page st) "archive-list" "innerHTML"
                /\ trace st' = (trace st ++ [archive_request;
                                             ConsoleError "Error loading archive:"])%list).
Proof.
  intros Hok Ha Hin. unfold ends, loadArchive. apply results_caught.
  repeat step. rewrite Hok, Ha.
  destruct entries as [|entry r]; [destruct Hin|].
  do 2 (apply throws_bind; unfold set_display, assign; apply results_modify).
  match goal with
  | |- throws (bind (mapM _ _) _) ?s _ =>
      destruct (mapM_archiveItem_null (entry :: r) s Hin) as (e & E)
  end.
  apply throws_first. exists e. eexists. split; [exact E|].
  intros e'. repeat step.
  cbn [trace emit on_page]. rewrite <- app_assoc. repeat split.
Qed.

(** *** The analytics view *)

(** The placeholders, the fields and the two tables of the analytics
    view. *)
Definition analytics_view (el name : string) : bool :=
  (String.eqb name "style.display"
   && among el ["analytics-empty"; "analytics-content"])
  || (String.eqb name "textContent"
      && among el ["analytics-campaigns"; "analytics-monograms";
                   "analytics-bigrams"; "analytics-trigrams";
                   "analytics-spend"; "analytics-sales"; "analytics-acos";
                   "analytics-orders"])
  || (String.eqb name "innerHTML"
      && among el ["campaign-breakdown-body"; "distribution-grid"]).

Definition grid_only (el name : string) : bool :=
  String.eqb name "innerHTML" && String.eqb el "distribution-grid".

Lemma updateDistributionGrid_writes : writes grid_only updateDistributionGrid.
Proof. unfold updateDistributionGrid. footprint. Qed.

Definition table_only (el name : string) : bool :=
  String.eqb name "innerHTML" && String.eqb el "campaign-breakdown-body".

Lemma updateCampaignBreakdownTable_writes :
  writes table_only updateCampaignBreakdownTable.
Proof. unfold updateCampaignBreakdownTable. footprint. Qed.

Lemma updateAnalyticsSection_writes : writes analytics_view updateAnalyticsSection.
Proof.
  assert (HT : writes analytics_view updateCampaignBreakdownTable).
  { eapply writes_weaken; [|apply updateCampaignBreakdownTable_writes].
    unfold table_only, analytics_view. intros el name H.
    apply andb_prop in H. destruct H as (H1 & H2).
    apply String.eqb_eq in H1, H2. subst el name. reflexivity. }
  assert (HG : writes analytics_view updateDistributionGrid).
  { eapply writes_weaken; [|apply updateDistributionGrid_writes].
    unfold grid_only, analytics_view. intros el name H.
    apply andb_prop in H. destruct H as (H1 & H2).
    apply String.eqb_eq in H1, H2. subst el name. reflexivity. }
  unfold updateAnalyticsSection. footprint.
Qed.

Lemma updateCampaignBreakdownTable_reads_only :
  reads_only updateCampaignBreakdownTable.
Proof. unfold updateCampaignBreakdownTable. variables_kept. Qed.

Lemma updateDistributionGrid_reads_only : reads_only updateDistributionGrid.
Proof. unfold updateDistributionGrid. variables_kept. Qed.

Lemma updateAnalyticsSection_reads_only : reads_only updateAnalyticsSection.
Proof.
  pose proof updateCampaignBreakdownTable_reads_only as HT.
  pose proof updateDistributionGrid_reads_only as HG.
  unfold updateAnalyticsSection. variables_kept.
Qed.

(** The row of a campaign of which only the name is known. *)
Definition dash_row (campaign : string) : value :=
  Element "tr" [Str campaign; Str "-"; Str "-"; Str "-"; Str "-"; Str "-"; Str "-"].

(** The row of a campaign with its details. *)
Definition detail_row (entry : string * CampaignDetail) : value :=
  Element "tr"
    [Str (fst entry);
     Locale (or_zero (monograms (snd entry)));
     Locale (or_zero (bigrams (snd entry)));
     Locale (or_zero (trigrams (snd entry)));
     Locale (or_zero (search_terms (snd entry)));
     formatCurrency (Some (or_zero (spend (snd entry))));
     formatCurrency (Some (or_zero (sales (snd entry))))].

Definition table_rows (a : Analytics) : list value :=
  if no_details a then
    match campaigns a with
    | Some names => map dash_row names
    | None => []
    end
  else map detail_row (details_of a).

Lemma updateCampaignBreakdownTable_rows st a :
  analyticsData st = Some a ->
  ends updateCampaignBreakdownTable st
    (fun st' => prop (page st') "campaign-breakdown-body" "innerHTML"
                = Children (table_rows a)
                /\ only_markup st st').
Proof.
  intros H. unfold ends, updateCampaignBreakdownTable, assign, table_rows.
  apply results_bind, results_modify, results_bind.
  eapply results_mono; [apply analytics_after_write, H|].
  intros a' s' (-> & ->).
  destruct (no_details a); [destruct (campaigns a) as [names|]|].
  - eexists tt, _. split.
    + rewrite forEach_modify, fold_on_page. reflexivity.
    + split; [|apply refill_only_markup].
      cbn [page on_page]. apply (refill_children _ dash_row).
  - apply results_ret. split; [apply DomFacts.prop_set_same|].
    split; [repeat split|]. split; [reflexivity|].
    intros el name Hne. apply DomFacts.prop_set_other.
    rewrite Hne. apply andb_false_r.
  - eexists tt, _. split.
    + rewrite (forEach_ext _ (fun entry => modify (on_page
                 (appendChild "campaign-breakdown-body" (detail_row entry)))))
        by (intros [n d] s; reflexivity).
      rewrite forEach_modify, fold_on_page. reflexivity.
    + split; [|apply (refill_only_markup "campaign-breakdown-body" detail_row)].
      cbn [page on_page]. apply (refill_children _ detail_row).
Qed.

(** The sum [updateAnalyticsSection] accumulates over the campaign
    details for one of the three counts. *)
Definition sum_of (get : CampaignDetail -> option JsNumber.num) (a : Analytics)
  : JsNumber.num :=
  fold_left (fun acc entry => JsNumber.add acc (or_zero (get (snd entry))))
            (details_of a) JsNumber.zero.

(** The analytics view shows the snapshot [a]. *)
Definition overview (a : Analytics) (st' : State) : Prop :=
  display (page st') "analytics-empty" = Str "none"
  /\ display (page st') "analytics-content" = Str "block"
  /\ textContent (page st') "analytics-campaigns" = Locale (campaignCount a)
  /\ textContent (page st') "analytics-monograms" = Locale (sum_of monograms a)
  /\ textContent (page st') "analytics-bigrams" = Locale (sum_of bigrams a)
  /\ textContent (page st') "analytics-trigrams" = Locale (sum_of trigrams a)
  /\ textContent (page st') "analytics-spend"
     = formatCurrency (Some (or_zero (total_spend (totals a))))
  /\ textContent (page st') "analytics-sales"
     = formatCurrency (Some (or_zero (total_sales (totals a))))
  /\ textContent (page st') "analytics-acos" = Str (acos a ++ "%")
  /\ textContent (page st') "analytics-orders"
     = Locale (or_zero (total_orders (totals a)))
  /\ prop (page st') "campaign-breakdown-body" "innerHTML"
     = Children (table_rows a)
  /\ prop (page st') "distribution-grid" "innerHTML"
     = Children (cards (details_of a)).

Lemma updateAnalyticsSection_overview st a :
  analyticsData st = Some a ->
  ends updateAnalyticsSection st (overview a).
Proof.
  intros H. unfold ends, updateAnalyticsSection.
  apply results_bind, results_gets. rewrite H.
  do 10 (apply results_bind; unfold set_display, set_text, assign;
         apply results_modify).
  match goal with
  | |- results _ ?s0 _ => set (s1 := s0)
  end.
  assert (H1 : analyticsData s1 = Some a) by exact H.
  apply results_bind.
  eapply results_mono; [apply (updateCampaignBreakdownTable_rows _ a H1)|].
  intros [] s2 (T2 & M2).
  assert (H2 : analyticsData s2 = Some a)
    by (destruct M2 as ((_ & _ & _ & _ & -> & _) & _); exact H1).
  eapply results_mono.
  - apply results_writes; [apply updateDistributionGrid_writes|].
    apply (updateDistributionGrid_ends s2 a H2).
  - intros [] s3 ((G3 & M3) & (_ & K3)).
    destruct (only_markup_trans _ _ _ M2 M3) as (_ & _ & F).
    unfold overview, textContent, display.
    rewrite !F by reflexivity.
    rewrite (K3 "campaign-breakdown-body" "innerHTML" eq_refl), T2, G3.
    unfold s1. cbn [page on_page].
    repeat split; elsewhere; apply DomFacts.prop_set_same.
Qed.

(** With no snapshot, the placeholder is shown and nothing else is
    touched. *)
Lemma updateAnalyticsSection_empty st :
  analyticsData st = None ->
  ends updateAnalyticsSection st
    (fun st' => display (page st') "analytics-empty" = Str "block"
                /\ display (page st') "analytics-content" = Str "none"
                /\ untouched st st').
Proof.
  intros H. unfold ends, updateAnalyticsSection.
  apply results_bind, results_gets. rewrite H. repeat step.
  repeat split.
Qed.

(** The renderers themselves do not test for a snapshot. *)
Lemma renderers_need_snapshot st :
  analyticsData st = None ->
  throws updateCampaignBreakdownTable st
    (fun st' => prop (page st') "campaign-breakdown-body" "innerHTML" = Children []
                /\ untouched st st')
  /\ throws updateDistributionGrid st
       (fun st' => prop (page st') "distribution-grid" "innerHTML" = Children []
                   /\ untouched st st').
Proof.
  intros H. split.
  - unfold updateCampaignBreakdownTable, currentAnalytics, assign.
    apply throws_bind, results_modify, throws_first, throws_bind, results_gets.
    cbn [analyticsData on_page]. rewrite H. apply throws_throw.
    split; [apply DomFacts.prop_set_same | repeat split].
  - unfold updateDistributionGrid, currentAnalytics, assign.
    apply throws_bind, results_modify, throws_first, throws_bind, results_gets.
    cbn [analyticsData on_page]. rewrite H. apply throws_throw.
    split; [apply DomFacts.prop_set_same | repeat split].
Qed.

(** *** Starting over *)



End RichFlow.

(** ** Navigation and the archive actions *)

Module NavigationFacts.

Import Js Dom Server Rich RichFacts PageFacts Footprint RichFlow Navigation.

(** What the loop over the navigation items does to one of them. *)
Definition mark (sectionName : string) (entry : string * string) (d : dom)
  : dom :=
  let d1 := set_prop (fst entry) "classList.active" (Flag false) d in
  if String.eqb (snd entry) sectionName
  then set_prop (fst entry) "classList.active" (Flag true) d1
  else d1.

Lemma mark_active sectionName entry d :
  prop (mark sectionName entry d) (fst entry) "classList.active"
  = Flag (String.eqb (snd entry) sectionName).
Proof.
  unfold mark. destruct (String.eqb (snd entry) sectionName);
    apply DomFacts.prop_set_same.
Qed.

Lemma mark_other sectionName entry d el name :
  String.eqb (fst entry) el && String.eqb "classList.active" name = false ->
  prop (mark sectionName entry d) el name = prop d el name.
Proof.
  intros H. unfold mark. destruct (String.eqb (snd entry) sectionName);
    rewrite ?DomFacts.prop_set_other by exact H; reflexivity.
Qed.

Lemma mark_present sectionName entry d :
  present (mark sectionName entry d) = present d.
Proof. unfold mark. destruct (String.eqb (snd entry) sectionName); reflexivity. Qed.

Definition marked (sectionName : string) (items : list (string * string))
    (d : dom) : dom :=
  fold_left (fun d' entry => mark sectionName entry d') items d.

Lemma marked_other sectionName items d el name :
  (forall entry, In entry items ->
     String.eqb (fst entry) el && String.eqb "classList.active" name = false) ->
  prop (marked sectionName items d) el name = prop d el name.
Proof.
  revert d. induction items as [|entry r IH]; intros d H; [reflexivity|].
  cbn [marked fold_left]. fold (marked sectionName r (mark sectionName entry d)).
  rewrite IH by (intros e He; apply H; right; exact He).
  apply mark_other, H. left. reflexivity.
Qed.

Lemma marked_present sectionName items d :
  present (marked sectionName items d) = present d.
Proof.
  revert d. induction items as [|entry r IH]; intros d; [reflexivity|].
  cbn [marked fold_left]. fold (marked sectionName r (mark sectionName entry d)).
  rewrite IH. apply mark_present.
Qed.

(** Each item is active exactly when its [data-section] is the section
    navigated to. *)
Lemma marked_active sectionName items d item dataSection :
  NoDup (map fst items) -> In (item, dataSection) items ->
  prop (marked sectionName items d) item "classList.active"
  = Flag (String.eqb dataSection sectionName).
Proof.
  revert d. induction items as [|entry r IH]; intros d Hn Hin; [destruct Hin|].
  cbn [map] in Hn. apply NoDup_cons_iff in Hn. destruct Hn as (Hfresh & Hn).
  cbn [marked fold_left]. fold (marked sectionName r (mark sectionName entry d)).
  destruct Hin as [-> | Hin].
  - rewrite marked_other.
    + apply (mark_active sectionName (item, dataSection)).
    + intros e He. apply andb_false_intro1. apply String.eqb_neq.
      intros E. apply Hfresh. cbn [fst]. rewrite <- E. apply in_map, He.
  - apply IH; assumption.
Qed.

Lemma nav_loop sectionName items st :
  forEach items (fun '(item, dataSection) =>
    bind (assign item "classList.active" (Flag false)) (fun _ =>
    if String.eqb dataSection sectionName
    then assign item "classList.active" (Flag true)
    else ret tt)) st
  = (Normal tt, on_page (marked sectionName items) st).
Proof.
  revert st. induction items as [|[item ds] r IH]; intros st.
  - cbn [forEach marked fold_left]. rewrite on_page_id. reflexivity.
  - cbn [forEach]. unfold bind at 1. unfold bind at 1.
    unfold assign at 1, modify at 1.
    assert (E : (if String.eqb ds sectionName
                 then assign item "classList.active" (Flag true)
                 else ret tt)
                  (on_page (set_prop item "classList.active" (Flag false)) st)
                = (Normal tt, on_page (mark sectionName (item, ds)) st)).
    { unfold mark. cbn [fst snd]. destruct (String.eqb ds sectionName);
        [reflexivity|]. reflexivity. }
    rewrite E, IH. reflexivity.
Qed.

(** Hiding every section. *)
Definition hidden (sections : list string) (d : dom) : dom :=
  fold_left (fun d' section => set_prop section "style.display" (Str "none") d')
            sections d.

Lemma hidden_other sections d el name :
  (forall section, In section sections ->
     String.eqb section el && String.eqb "style.display" name = false) ->
  prop (hidden sections d) el name = prop d el name.
Proof.
  revert d. induction sections as [|s r IH]; intros d H; [reflexivity|].
  cbn [hidden fold_left].
  fold (hidden r (set_prop s "style.display" (Str "none") d)).
  rewrite IH by (intros e He; apply H; right; exact He).
  apply DomFacts.prop_set_other, H. left. reflexivity.
Qed.

Lemma hidden_present sections d : present (hidden sections d) = present d.
Proof.
  revert d. induction sections as [|s r IH]; intros d; [reflexivity|].
  cbn [hidden fold_left].
  fold (hidden r (set_prop s "style.display" (Str "none") d)).
  rewrite IH. reflexivity.
Qed.

Lemma hidden_none sections d section :
  In section sections ->
  prop (hidden sections d) section "style.display" = Str "none".
Proof.
  revert d. induction sections as [|s r IH]; intros d Hin; [destruct Hin|].
  cbn [hidden fold_left].
  fold (hidden r (set_prop s "style.display" (Str "none") d)).
  destruct (in_dec string_dec section r) as [Hr|Hr].
  - apply IH, Hr.
  - destruct Hin as [-> | Hin]; [|contradiction].
    rewrite hidden_other.
    + apply DomFacts.prop_set_same.
    + intros e He. apply andb_false_intro1. apply String.eqb_neq.
      intros ->. contradiction.
Qed.

Lemma sections_loop sections st :
  forEach sections (fun section => set_display section "none") st
  = (Normal tt, on_page (hidden sections) st).
Proof.
  unfold set_display, assign. rewrite forEach_modify.
  rewrite <- (on_page_id st) at 1. rewrite fold_on_page. reflexivity.
Qed.

(** The placeholders of the analytics and archive views. *)
Definition placeholders : list string :=
  ["analytics-empty"; "analytics-content"; "archive-empty"; "archive-content"].

(** What the analytics and archive views consist of. *)
Definition views (el name : string) : bool :=
  analytics_view el name || archive_view el name.

(** The special handling at the end of [navigateToSection]. *)
Lemma special_handling sectionName archive st :
  ends ((if String.eqb sectionName "analytics" then updateAnalyticsSection
         else ret tt) ;;
        (if String.eqb sectionName "archive" then loadArchive archive
         else ret tt))%js st
    (fun st' => page_kept views st st' /\ same_variables st st'
                /\ (sectionName <> "archive" -> trace st' = trace st)
                /\ (sectionName = "analytics" ->
                    forall a, analyticsData st = Some a -> overview a st')).
Proof.
  assert (WA : writes views updateAnalyticsSection).
  { eapply writes_weaken; [|apply updateAnalyticsSection_writes].
    intros el name H. unfold views. rewrite H. reflexivity. }
  assert (WL : writes views (loadArchive archive)).
  { eapply writes_weaken; [|apply loadArchive_writes].
    intros el name H. unfold views. rewrite H. apply orb_true_r. }
  unfold ends. destruct (String.eqb_spec sectionName "analytics") as [-> | N1].
  - cbn [String.eqb Ascii.eqb Bool.eqb]. apply results_bind.
    assert (E : results updateAnalyticsSection st
                  (fun _ st' => trace st' = trace st
                                /\ forall a, analyticsData st = Some a ->
                                             overview a st')).
    { destruct (analyticsData st) as [a|] eqn:H.
      - eapply results_mono.
        + apply results_and; [apply (updateAnalyticsSection_ends st a H)|].
          apply (updateAnalyticsSection_overview st a H).
        + intros _ st' ((_ & U) & O). split; [apply U|].
          intros a' Ha. injection Ha as <-. exact O.
      - eapply results_mono; [apply (updateAnalyticsSection_empty st H)|].
        intros _ st' (_ & _ & U). split; [apply U | discriminate]. }
    eapply results_mono.
    + eapply (results_preserved _ _ _ _ updateAnalyticsSection_reads_only).
      eapply (results_preserved _ _ _ _ WA). exact E.
    + intros _ st' (((T & O) & K) & V). apply results_ret. auto.
  - apply results_bind, results_ret.
    destruct (String.eqb_spec sectionName "archive") as [-> | N2].
    + destruct (loadArchive_returns archive st) as (st' & E).
      eapply results_mono.
      * eapply (results_preserved _ _ _ _ (loadArchive_reads_only archive)).
        eapply (results_preserved _ _ _ _ WL).
        instantiate (1 := fun _ _ => True).
        exists tt, st'. split; [exact E | exact I].
      * intros _ s' ((_ & K) & V). split; [exact K|]. split; [exact V|].
        split; [congruence | discriminate].
    + apply results_ret. split; [apply page_kept_refl|].
      split; [apply same_variables_refl|]. split; [reflexivity | contradiction].
Qed.

(** The state [navigateToSection] returns in. *)
Definition navigated (layout : Layout) (sectionName : string) (st st' : State)
  : Prop :=
  (forall item dataSection, In (item, dataSection) (navItems layout) ->
     prop (page st') item "classList.active"
     = Flag (String.eqb dataSection sectionName))
  /\ textContent (page st') "breadcrumb-current" = Str (capitalize sectionName)
  /\ (forall section, In section (sectionContents layout) ->
        section <> "section-" ++ sectionName -> ~ In section placeholders ->
        display (page st') section = Str "none")
  /\ (present (page st) ("section-" ++ sectionName) = true ->
      display (page st') ("section-" ++ sectionName) = Str "block")
  /\ same_variables st st'
  /\ (sectionName <> "archive" -> trace st' = trace st)
  /\ (sectionName = "analytics" ->
      forall a, analyticsData st = Some a -> overview a st').

Lemma placeholder_free section :
  ~ In section placeholders -> views section "style.display" = false.
Proof.
  intros H. unfold views, analytics_view, archive_view, among.
  cbn [String.eqb Ascii.eqb Bool.eqb andb orb existsb].
  unfold placeholders in H. cbn [In] in H.
  repeat match goal with
         | |- context [String.eqb section ?s] =>
             rewrite (proj2 (String.eqb_neq section s))
               by (intros E; apply H; rewrite E; auto 10)
         end.
  reflexivity.
Qed.

Lemma navigateToSection_spec layout sectionName archive st :
  NoDup (map fst (navItems layout)) ->
  ends (navigateToSection layout sectionName archive) st
    (navigated layout sectionName st).
Proof.
  intros Hn. unfold ends, navigateToSection.
  apply results_bind. eexists tt, _. split; [apply nav_loop|].
  repeat step.
  match goal with
  | |- results _ ?s0 _ =>
      change s0
        with (on_page (hidden (sectionContents layout))
                (on_page (set_prop "breadcrumb-current" "textContent"
                            (Str (capitalize sectionName)))
                   (on_page (marked sectionName (navItems layout)) st)))
  end.
  match goal with
  | |- results _ ?s0 _ => set (s1 := s0)
  end.
  assert (Fin : forall s2,
             page_kept (fun el name => String.eqb ("section-" ++ sectionName) el
                                       && String.eqb "style.display" name) s1 s2 ->
             same_variables s1 s2 -> trace s2 = trace s1 ->
             (present (page st) ("section-" ++ sectionName) = true ->
              display (page s2) ("section-" ++ sectionName) = Str "block") ->
             results ((if String.eqb sectionName "analytics"
                       then updateAnalyticsSection else ret tt) ;;
                      (if String.eqb sectionName "archive"
                       then loadArchive archive else ret tt))%js s2
               (fun _ st' => navigated layout sectionName st st')).
  { intros s2 (P2 & K2) V2 T2 D2.
    eapply results_mono; [apply special_handling|].
    intros _ st' ((P3 & K3) & V3 & T3 & O3).
    unfold navigated, textContent, display in *.
    split; [|split; [|split; [|split; [|split; [|split]]]]].
    - intros item ds Hin.
      rewrite K3 by reflexivity.
      rewrite K2 by (apply andb_false_intro2; reflexivity).
      unfold s1. cbn [page on_page].
      rewrite hidden_other
        by (intros; apply andb_false_intro2; reflexivity).
      rewrite DomFacts.prop_set_other
        by (apply andb_false_intro2; reflexivity).
      apply marked_active; assumption.
    - rewrite K3 by reflexivity.
      rewrite K2 by (apply andb_false_intro2; reflexivity).
      unfold s1. cbn [page on_page].
      rewrite hidden_other
        by (intros; apply andb_false_intro2; reflexivity).
      apply DomFacts.prop_set_same.
    - intros section Hin Hne Hph.
      rewrite K3 by (apply placeholder_free, Hph).
      rewrite K2
        by (apply andb_false_intro1, String.eqb_neq; congruence).
      unfold s1. cbn [page on_page]. apply hidden_none, Hin.
    - intros Hp. rewrite K3 by reflexivity. apply D2, Hp.
    - apply (same_variables_trans _ s2); [|exact V3].
      apply (same_variables_trans _ s1); [|exact V2].
      unfold s1. repeat split.
    - intros Hne. rewrite (T3 Hne), T2. reflexivity.
    - intros Hs a Ha. apply (O3 Hs a).
      destruct V2 as (_ & _ & _ & _ & ->). exact Ha. }
  apply results_when_found; intros PT.
  - unfold set_display, assign. apply results_modify. apply Fin.
    + apply (writes_assign _ ("section-" ++ sectionName) "style.display" _
               (eq_trans (f_equal2 andb (String.eqb_refl _) eq_refl) eq_refl) s1).
    + repeat split.
    + reflexivity.
    + intros _. cbn [page on_page]. apply DomFacts.prop_set_same.
  - apply Fin.
    + apply page_kept_refl.
    + apply same_variables_refl.
    + reflexivity.
    + intros Hp. unfold s1 in PT. cbn [page on_page] in PT.
      rewrite hidden_present in PT. cbn [present set_prop] in PT.
      rewrite marked_present in PT. congruence.
Qed.

(** *** Looking at an archived report *)








(** *** Deleting an archived report *)

Definition delete_request (archiveId : string) : effect :=
  Fetch "DELETE" ("/archive/" ++ archiveId) NoBody.

Lemma deleteArchive_declined archiveId reply archive st :
  deleteArchive archiveId false reply archive st = (Normal None, st).
Proof. reflexivity. Qed.

Lemma deleteArchive_deleted archiveId result archive st :
  delete_success result = true ->
  deleteArchive archiveId true (Json result) archive st
  = (Normal None, exec (loadArchive archive) (emit (delete_request archiveId) st)).
Proof.
  intros H.
  destruct (loadArchive_returns archive (emit (delete_request archiveId) st))
    as (st' & E).
  unfold exec. rewrite E. unfold delete_request in E.
  cbv beta iota delta [deleteArchive negb tryCatch bind fetch json modify ret].
  rewrite H, E. reflexivity.
Qed.

Lemma deleteArchive_refused archiveId result archive st :
  delete_success result = false ->
  deleteArchive archiveId true (Json result) archive st
  = (Normal (Some (JsString.or_else (delete_error result)
                     "Failed to delete archive.")),
     emit (delete_request archiveId) st).
Proof.
  intros H.
  cbv beta iota delta [deleteArchive negb tryCatch bind fetch json modify ret].
  rewrite H. reflexivity.
Qed.

Lemma deleteArchive_unreachable archiveId (reply : fetched DeleteReply)
    archive st :
  reply = FetchRejected \/ reply = JsonRejected ->
  deleteArchive archiveId true reply archive st
  = (Normal (Some "Failed to delete archive. Please try again."),
     emit (ConsoleError "Error deleting archive:")
       (emit (delete_request archiveId) st)).
Proof. intros [-> | ->]; reflexivity. Qed.

End NavigationFacts.

(** ** The upload cycle of the simpler variant, in detail *)

Module SimpleFlow.

Import Js Dom Server Simple SimpleFacts PageFacts.

(** The request [processFile] sends: the file and the two thresholds as
    the page holds them. *)
Definition upload_request (file : File) (st : State) : effect :=
  Fetch "POST" "/upload"
    [("file", FileField file);
     ("min_clicks", ValueField (prop (page st) "min-clicks" "value"));
     ("min_spend", ValueField (prop (page st) "min-spend" "value"))].

(** What [displayResults] writes on the results panel. *)
Definition summary_shown (s : Summary) (rows asins count flagged : JsNumber.num)
    (names : list string) (st' : State) : Prop :=
  textContent (page st') "total-rows" = Locale rows
  /\ textContent (page st') "asins-removed" = Locale asins
  /\ textContent (page st') "campaigns-count" = Locale count
  /\ textContent (page st') "flagged-count" = Locale flagged
  /\ textContent (page st') "total-spend" = formatCurrency (total_spend s)
  /\ textContent (page st') "total-sales" = formatCurrency (total_sales s)
  /\ prop (page st') "campaign-names" "innerHTML"
     = Children (map (fun campaign => Element "li" [Str campaign]) names).

Lemma simple_fold_on_page {A : Type} (g : A -> dom -> dom) xs h st :
  fold_left (fun acc x => on_page (g x) acc) xs (on_page h st)
  = on_page (fun d => fold_left (fun d' x => g x d') xs (h d)) st.
Proof.
  revert h. induction xs as [|x r IH]; intros h; simpl.
  - reflexivity.
  - apply (IH (fun d => g x (h d))).
Qed.

Lemma simple_processFile_delivers result s rows asins count flagged names st file :
  selectedFile st = Some file -> success result = true ->
  summary result = Some s -> original_rows s = Some rows ->
  asins_removed s = Some asins -> campaigns_processed s = Some count ->
  total_flagged s = Some flagged -> campaigns result = Some names ->
  ends (processFile (Json result)) st
    (fun st' => exactly [resultsSection] st'
                /\ selectedFile st' = Some file
                /\ outputFilename st' = output_file result
                /\ trace st' = (trace st ++ [upload_request file st])%list
                /\ summary_shown s rows asins count flagged names st').
Proof.
  intros H Hok Hs Hr Ha Hc Hf Hn. unfold ends, results, processFile.
  unfold bind at 1, gets at 1. rewrite H.
  destruct result as [ok out asin sm cs det err].
  destruct s as [r0 a0 c0 f0 sp sa o].
  cbn [success summary campaigns original_rows asins_removed
       campaigns_processed total_flagged output_file] in *.
  subst ok sm r0 a0 c0 f0 cs.
  unfold displayResults. run. rewrite simple_fold_on_page.
  eexists tt, _. split; [reflexivity|].
  split; [each_panel|]. split; [exact H|]. split; [reflexivity|].
  split; [reflexivity|].
  unfold summary_shown, textContent. cbn [page on_page].
  unfold uploadSection, settingsSection, progressSection, resultsSection,
    errorSection, progressText.
  match goal with
  | |- context [fold_left _ names ?d] =>
      destruct (fold_appendChild_all (fun x => Element "li" [Str x])
                  "campaign-names" names d []
                  (DomFacts.prop_set_same _ _ _ _)) as (C & _ & F)
  end.
  cbv zeta in C, F.
  repeat split; elsewhere;
    first [ exact C
          | rewrite F by reflexivity; elsewhere; apply DomFacts.prop_set_same ].
Qed.

Lemma simple_processFile_refused result st file :
  selectedFile st = Some file -> success result = false ->
  ends (processFile (Json result)) st
    (fun st' => reported (JsString.or_else (error result)
                            "An error occurred while processing the file.") st'
                /\ selectedFile st' = Some file
                /\ outputFilename st' = outputFilename st
                /\ trace st' = (trace st ++ [upload_request file st])%list).
Proof.
  intros H Hok. unfold ends, results, processFile.
  unfold bind at 1, gets at 1. rewrite H.
  destruct result as [ok out asin sm cs det err].
  cbn [success error] in *. subst ok. run.
  eexists tt, _. split; [reflexivity|].
  split; [split; [reflexivity | each_panel]|].
  split; [exact H|]. split; reflexivity.
Qed.

Lemma simple_processFile_unreachable (reply : fetched UploadResult) st file :
  selectedFile st = Some file ->
  reply = FetchRejected \/ reply = JsonRejected ->
  ends (processFile reply) st
    (fun st' => reported "Network error. Please check your connection and try again." st'
                /\ selectedFile st' = Some file
                /\ outputFilename st' = outputFilename st
                /\ trace st' = (trace st ++ [upload_request file st;
                                             ConsoleError "Error:"])%list).
Proof.
  intros H Hr. unfold ends, results, processFile.
  unfold bind at 1, gets at 1. rewrite H.
  destruct Hr as [-> | ->]; run.
  all: eexists tt, _; (split; [reflexivity|]).
  all: split; [split; [reflexivity | each_panel]|].
  all: split; [exact H|]; split; [reflexivity|].
  all: cbn [trace emit on_page]; rewrite <- app_assoc; reflexivity.
Qed.

Lemma simple_processFile_malformed result st file :
  selectedFile st = Some file ->
  success result = true -> complete result = false ->
  ends (processFile (Json result)) st
    (fun st' => reported "Network error. Please check your connection and try again." st'
                /\ selectedFile st' = Some file
                /\ outputFilename st' = output_file result
                /\ trace st' = (trace st ++ [upload_request file st;
                                             ConsoleError "Error:"])%list).
Proof.
  intros H Hok Hc. unfold ends, results, processFile, displayResults.
  unfold bind at 1, gets at 1. rewrite H.
  destruct result as [ok out asin sm cs det err].
  cbn [success output_file] in *. subst ok. unfold complete in Hc.
  cbn [summary campaigns] in Hc.
  destruct sm as [[[r|] [a|] [c|] [f|] sp sa o]|]; destruct cs as [names|];
    cbn [original_rows asins_removed campaigns_processed total_flagged] in Hc;
    try discriminate Hc; run.
  all: eexists tt, _; (split; [reflexivity|]).
  all: split; [split; [reflexivity | each_panel]|].
  all: split; [exact H|]; split; [reflexivity|].
  all: cbn [trace emit on_page set_outputFilename]; rewrite <- app_assoc;
    reflexivity.
Qed.



End SimpleFlow.

(** ** File names *)

Module NameFacts.

Import JsString.

Lemma substring_whole s : substring 0 (String.length s) s = s.
Proof. induction s as [|c r IH]; [reflexivity|]. cbn. rewrite IH. reflexivity. Qed.

Lemma substring_after a b :
  substring (String.length a) (String.length b) (a ++ b) = b.
Proof. induction a as [|c r IH]; [apply substring_whole | exact IH]. Qed.

Lemma substring_split s m :
  (m <= String.length s)%nat ->
  s = substring 0 m s ++ substring m (String.length s - m) s.
Proof.
  revert m. induction s as [|c r IH]; intros m H.
  - destruct m; reflexivity.
  - destruct m as [|m]; cbn.
    + rewrite substring_whole. reflexivity.
    + rewrite <- IH by (cbn in H; lia). reflexivity.
Qed.

Lemma length_append a b :
  String.length (a ++ b) = (String.length a + String.length b)%nat.
Proof. induction a as [|c r IH]; [reflexivity|]. cbn. rewrite IH. reflexivity. Qed.

(** [s.endsWith(suffix)] holds exactly of the strings that are [suffix]
    with something before it. *)
Lemma endsWith_spec s suffix :
  endsWith s suffix = true <-> exists stem, s = stem ++ suffix.
Proof.
  unfold endsWith. split.
  - intros H. apply andb_prop in H. destruct H as (H1 & H2).
    apply Nat.leb_le in H1. apply String.eqb_eq in H2.
    exists (substring 0 (String.length s - String.length suffix) s).
    rewrite <- H2 at 2.
    pose proof (substring_split s (String.length s - String.length suffix)) as E.
    replace (String.length s - (String.length s - String.length suffix))%nat
      with (String.length suffix) in E by lia.
    apply E. lia.
  - intros (stem & ->). rewrite length_append.
    replace (String.length stem + String.length suffix - String.length suffix)%nat
      with (String.length stem) by lia.
    rewrite substring_after, String.eqb_refl, andb_true_r.
    apply Nat.leb_le. lia.
Qed.

Lemma toLowerCase_app a b :
  toLowerCase (a ++ b) = toLowerCase a ++ toLowerCase b.
Proof. induction a as [|c r IH]; [reflexivity|]. cbn. rewrite IH. reflexivity. Qed.

(** A lowered string that splits comes from a string that splits in the
    same place. *)
Lemma toLowerCase_split s a b :
  toLowerCase s = a ++ b ->
  exists s1 s2, s = s1 ++ s2 /\ toLowerCase s1 = a /\ toLowerCase s2 = b.
Proof.
  revert s. induction a as [|c r IH]; intros s H.
  - exists "", s. auto.
  - destruct s as [|x s]; [discriminate|]. cbn in H.
    injection H as Hc Hr. destruct (IH s Hr) as (s1 & s2 & -> & H1 & H2).
    exists (String x s1), s2. cbn. rewrite Hc, H1. auto.
Qed.

(** The characters [toLowerCase] maps to a given character: the
    character itself and, for a lower-case letter, its capital. *)
Lemma lowers_to (x : ascii) (n : nat) :
  (n < 256)%nat ->
  lower_ascii x = ascii_of_nat n ->
  x = ascii_of_nat n
  \/ (97 <= n <= 122 /\ x = ascii_of_nat (n - 32))%nat.
Proof.
  intros Hn H. unfold lower_ascii in H.
  destruct (andb (Nat.leb 65 (nat_of_ascii x)) (Nat.leb (nat_of_ascii x) 90))
    eqn:E; [|left; exact H].
  apply andb_prop in E. destruct E as (E1 & E2).
  apply Nat.leb_le in E1, E2. right.
  apply (f_equal nat_of_ascii) in H.
  rewrite !nat_ascii_embedding in H by lia.
  split; [lia|]. replace (n - 32)%nat with (nat_of_ascii x) by lia.
  symmetry. apply ascii_nat_embedding.
Qed.

(** The extensions [toLowerCase] maps to [.csv]. *)
Definition csv_extension (ext : string) : Prop :=
  exists c s v : ascii,
    ext = String "." (String c (String s (String v "")))
    /\ (c = "c" \/ c = "C")%char /\ (s = "s" \/ s = "S")%char
    /\ (v = "v" \/ v = "V")%char.

Lemma toLowerCase_csv ext : toLowerCase ext = ".csv" <-> csv_extension ext.
Proof.
  split.
  - destruct ext as [|d [|c [|s [|v [|]]]]]; try discriminate.
    cbn [toLowerCase]. intros [= Hd Hc Hs Hv].
    exists c, s, v.
    destruct (lowers_to d 46 ltac:(lia) Hd) as [->|(? & _)]; [|lia].
    split; [reflexivity|].
    destruct (lowers_to c 99 ltac:(lia) Hc) as [->|(_ & ->)];
      destruct (lowers_to s 115 ltac:(lia) Hs) as [->|(_ & ->)];
      destruct (lowers_to v 118 ltac:(lia) Hv) as [->|(_ & ->)];
      repeat split; auto.
  - intros (c & s & v & -> & [->| ->] & [->| ->] & [->| ->]); reflexivity.
Qed.

(** [handleFile]'s test of the name, spelled out. *)
Lemma has_csv_name_extension file :
  Upload.has_csv_name file = true
  <-> exists stem ext, Dom.name file = stem ++ ext /\ csv_extension ext.
Proof.
  unfold Upload.has_csv_name. rewrite endsWith_spec. split.
  - intros (stem & H). destruct (toLowerCase_split _ _ _ H) as (s1 & s2 & E & _ & H2).
    exists s1, s2. split; [exact E | apply toLowerCase_csv, H2].
  - intros (stem & ext & -> & H). exists (toLowerCase stem).
    rewrite toLowerCase_app. apply toLowerCase_csv in H. rewrite H. reflexivity.
Qed.

End NameFacts.

(** ** The drag-and-drop handlers of the richer variant *)

Module HandlerFacts.

Import Js Dom Server Rich RichFacts PageFacts Footprint.












End HandlerFacts.

(** ** Sessions of the richer variant *)

Module Session.

Import Js Dom Server Rich RichFacts PageFacts Footprint.

(** What can happen to a loaded page: the events the script listens to
    and the calls the archive list's buttons make, each with what the
    browser, the server and the clock supply.  A handler runs to its end
    before the next one starts. *)
Inductive action : Type :=
| PageLoaded (archive : fetched ArchiveList)
| DragOver (e : Event.t)
| DragLeave (e : Event.t)
| FilesDropped (e : Event.t)
| FilesPicked (e : Event.t)
| ClickProcess (reply : fetched UploadResult) (now : string)
| ClickDownload
| ClickDownloadAsin
| ClickArchive (reply : fetched ArchiveReply) (now : string)
| ArchiveTimeout
| ClickReset
| Navigate (layout : Navigation.Layout) (sectionName : string)
    (archive : fetched ArchiveList)
| ViewArchive (layout : Navigation.Layout) (archiveId : string)
    (reply : fetched Navigation.ArchiveEntryReply)
| DeleteArchive (archiveId : string) (confirmed : bool)
    (reply : fetched Navigation.DeleteReply) (archive : fetched ArchiveList)
| DownloadArchive (filename : string).

Definition run (a : action) (st : State) : State :=
  match a with
  | PageLoaded archive => exec (loadArchive archive) st
  | DragOver e => exec (RichHandlers.handleDragOver e) st
  | DragLeave e => exec (RichHandlers.handleDragLeave e) st
  | FilesDropped e => exec (RichHandlers.handleDrop e) st
  | FilesPicked e => exec (RichHandlers.handleFileSelect e) st
  | ClickProcess reply now => exec (processFile reply now) st
  | ClickDownload => exec downloadFile st
  | ClickDownloadAsin => exec downloadAsinFile st
  | ClickArchive reply now => exec (archiveReport reply now) st
  | ArchiveTimeout => exec archiveButtonRevert st
  | ClickReset => exec resetForm st
  | Navigate layout sectionName archive =>
      exec (Navigation.navigateToSection layout sectionName archive) st
  | ViewArchive layout archiveId reply =>
      exec (Navigation.viewArchiveAnalytics layout archiveId reply) st
  | DeleteArchive archiveId confirmed reply archive =>
      exec (Navigation.deleteArchive archiveId confirmed reply archive) st
  | DownloadArchive filename => exec (Navigation.downloadArchive filename) st
  end.

(** The script has just been loaded: its variables are [null] and it has
    done nothing yet. *)
Definition fresh (st : State) : Prop :=
  selectedFile st = None /\ outputFilename st = None /\ asinFilename st = None
  /\ lastProcessedData st = None /\ analyticsData st = None /\ trace st = [].

Definition session (st : State) (actions : list action) : State :=
  fold_left (fun s a => run a s) actions st.

(** A file that passes the two tests of [handleFile]. *)
Definition valid (file : File) : Prop :=
  Upload.has_csv_name file = true /\ Upload.too_large file = false.

(** An effect that carries neither a file nor a report. *)
Definition plain (e : effect) : bool :=
  match e with
  | Fetch _ _ (FormData _) | Fetch _ _ (ArchiveRequest _ _ _ _) => false
  | _ => true
  end.

(** A request that carries a file is an upload of a valid one; one that
    carries a report goes to the archive with the name of a report and
    the name of a valid file. *)
Definition vouched (e : effect) : Prop :=
  match e with
  | Fetch method url (FormData file) =>
      method = "POST" /\ url = "/upload" /\ valid file
  | Fetch method url (ArchiveRequest out original _ _) =>
      method = "POST" /\ url = "/archive" /\ JsString.truthy out = true
      /\ exists file, valid file /\ original = name file
  | _ => True
  end.

Lemma plain_vouched e : plain e = true -> vouched e.
Proof.
  destruct e as [m u [|f|o n a t]| | | |]; cbn; try discriminate; auto.
Qed.

(** The selected file and the two download names are as before, and what
    was done outside the page is plain or among the [allowed] ones. *)
Definition steady (allowed : list effect) (st st' : State) : Prop :=
  selectedFile st' = selectedFile st /\ outputFilename st' = outputFilename st
  /\ asinFilename st' = asinFilename st
  /\ forall e, In e (trace st') ->
       In e (trace st) \/ plain e = true \/ In e allowed.

Lemma steady_refl allowed st : steady allowed st st.
Proof. repeat split. auto. Qed.

Lemma steady_trans allowed st1 st2 st3 :
  steady allowed st1 st2 -> steady allowed st2 st3 -> steady allowed st1 st3.
Proof.
  intros (A1 & B1 & C1 & T1) (A2 & B2 & C2 & T2).
  repeat split; try congruence.
  intros e H. destruct (T2 e H) as [H'|H']; [apply T1, H' | auto].
Qed.

Lemma steady_emit allowed e st :
  plain e = true \/ In e allowed -> steady allowed st (emit e st).
Proof.
  intros H. repeat split. intros e' H'. cbn [trace emit] in H'.
  apply in_app_or in H'. destruct H' as [H'|[<-|[]]]; auto.
Qed.

Lemma steady_on_page allowed f st : steady allowed st (on_page f st).
Proof. repeat split. auto. Qed.

Lemma steady_analyticsData allowed a st : steady allowed st (set_analyticsData a st).
Proof. repeat split. auto. Qed.

Lemma steady_lastProcessedData allowed r st :
  steady allowed st (set_lastProcessedData r st).
Proof. repeat split. auto. Qed.

Create HintDb steady discriminated.

Ltac steadily :=
  let r := uconstr:(steady_refl _) in
  let t := uconstr:(steady_trans _) in
  taken_apart r t
    ltac:(idtac; match goal with
          | |- preserves _ (modify (emit _)) =>
              apply preserves_modify; intros ?; apply steady_emit;
              first [left; reflexivity | right; cbn [In]; tauto]
          | |- preserves _ (modify (on_page _)) =>
              apply preserves_modify; intros ?; apply steady_on_page
          | |- preserves _ (modify (set_analyticsData _)) =>
              apply preserves_modify; intros ?; apply steady_analyticsData
          | |- preserves _ (modify (set_lastProcessedData _)) =>
              apply preserves_modify; intros ?; apply steady_lastProcessedData
          | |- preserves _ (assign _ _ _) =>
              apply preserves_modify; intros ?; apply steady_on_page
          | |- preserves _ _ => solve [auto 1 with steady nocore]
          end).

Lemma showSection_steady allowed section :
  preserves (steady allowed) (showSection section).
Proof. unfold showSection. steadily. Qed.
#[local] Hint Resolve showSection_steady : steady.

Lemma updateProgress_steady allowed message :
  preserves (steady allowed) (updateProgress message).
Proof. unfold updateProgress. steadily. Qed.
#[local] Hint Resolve updateProgress_steady : steady.

Lemma showError_steady allowed message :
  preserves (steady allowed) (showError message).
Proof. unfold showError. steadily. Qed.
#[local] Hint Resolve showError_steady : steady.

Lemma displayResults_steady allowed result :
  preserves (steady allowed) (displayResults result).
Proof. unfold displayResults. steadily. Qed.
#[local] Hint Resolve displayResults_steady : steady.

Lemma downloadFile_steady allowed : preserves (steady allowed) downloadFile.
Proof. unfold downloadFile. steadily. Qed.

Lemma downloadAsinFile_steady allowed : preserves (steady allowed) downloadAsinFile.
Proof. unfold downloadAsinFile. steadily. Qed.

Lemma archiveButtonRevert_steady allowed :
  preserves (steady allowed) archiveButtonRevert.
Proof. unfold archiveButtonRevert. steadily. Qed.

Lemma loadArchive_steady allowed reply :
  preserves (steady allowed) (loadArchive reply).
Proof. unfold loadArchive. steadily. Qed.
#[local] Hint Resolve loadArchive_steady : steady.

Lemma updateCampaignBreakdownTable_steady allowed :
  preserves (steady allowed) updateCampaignBreakdownTable.
Proof. unfold updateCampaignBreakdownTable. steadily. Qed.
#[local] Hint Resolve updateCampaignBreakdownTable_steady : steady.

Lemma updateDistributionGrid_steady allowed :
  preserves (steady allowed) updateDistributionGrid.
Proof. unfold updateDistributionGrid. steadily. Qed.
#[local] Hint Resolve updateDistributionGrid_steady : steady.

Lemma updateAnalyticsSection_steady allowed :
  preserves (steady allowed) updateAnalyticsSection.
Proof. unfold updateAnalyticsSection. steadily. Qed.
#[local] Hint Resolve updateAnalyticsSection_steady : steady.

Lemma navigateToSection_steady allowed layout sectionName archive :
  preserves (steady allowed)
    (Navigation.navigateToSection layout sectionName archive).
Proof. unfold Navigation.navigateToSection. steadily. Qed.
#[local] Hint Resolve navigateToSection_steady : steady.

Lemma viewArchiveAnalytics_steady allowed layout archiveId reply :
  preserves (steady allowed)
    (Navigation.viewArchiveAnalytics layout archiveId reply).
Proof. unfold Navigation.viewArchiveAnalytics. steadily. Qed.

Lemma deleteArchive_steady allowed archiveId confirmed reply archive :
  preserves (steady allowed)
    (Navigation.deleteArchive archiveId confirmed reply archive).
Proof. unfold Navigation.deleteArchive. steadily. Qed.

Lemma downloadArchive_steady allowed filename :
  preserves (steady allowed) (Navigation.downloadArchive filename).
Proof. unfold Navigation.downloadArchive. steadily. Qed.

Lemma handleDragOver_steady allowed e :
  preserves (steady allowed) (RichHandlers.handleDragOver e).
Proof. unfold RichHandlers.handleDragOver. steadily. Qed.

Lemma handleDragLeave_steady allowed e :
  preserves (steady allowed) (RichHandlers.handleDragLeave e).
Proof. unfold RichHandlers.handleDragLeave. steadily. Qed.


(** What holds of the variables and of what was done outside the page,
    at every point of a session. *)
Definition sound (st : State) : Prop :=
  (forall file, selectedFile st = Some file -> valid file)
  /\ (outputFilename st <> None \/ asinFilename st <> None ->
      selectedFile st <> None)
  /\ forall e, In e (trace st) -> vouched e.

Lemma fresh_sound st : fresh st -> sound st.
Proof.
  intros (A & B & C & _ & _ & T). unfold sound. rewrite A, B, C, T.
  split; [discriminate|]. split; [intros [H|H]; contradiction|]. intros e [].
Qed.

Lemma steady_sound allowed st st' :
  sound st -> steady allowed st st' -> (forall e, In e allowed -> vouched e) ->
  sound st'.
Proof.
  intros (V & N & T) (A & B & C & G) Hx. unfold sound. rewrite A, B, C.
  split; [exact V|]. split; [exact N|].
  intros e H. destruct (G e H) as [H'|[H'|H']];
    [apply T, H' | apply plain_vouched, H' | apply Hx, H'].
Qed.

Lemma calm_sound {A : Type} (m : M State A) st :
  preserves (steady []) m -> sound st -> sound (exec m st).
Proof.
  intros H Hs. apply (steady_sound [] st _ Hs (H st)). intros e [].
Qed.

Lemma handleFile_sound file st : sound st -> sound (exec (handleFile file) st).
Proof.
  intros Hs. unfold handleFile. change (50 * 1024 * 1024)%N with 52428800%N.
  destruct (JsString.endsWith (JsString.toLowerCase (name file)) ".csv") eqn:H1;
    cbn [negb]; [|apply calm_sound; [apply showError_steady | exact Hs]].
  destruct (52428800 <? size file)%N eqn:H2;
    [apply calm_sound; [apply showError_steady | exact Hs]|].
  destruct Hs as (V & N & T). unfold sound, exec, bind, modify.
  cbn [snd fst selectedFile outputFilename asinFilename trace emit on_page
       set_selectedFile assign set_text set_display modify].
  split; [|split].
  - intros f [= <-]. split; assumption.
  - discriminate.
  - intros e H. apply in_app_or in H. destruct H as [H|[<-|[]]];
      [apply T, H | exact I].
Qed.

Lemma first_file_sound (files : list File) st :
  sound st ->
  sound (exec (match files with
               | file :: _ => handleFile file
               | [] => ret tt
               end) st).
Proof.
  intros Hs. destruct files as [|file rest]; [exact Hs | apply handleFile_sound, Hs].
Qed.

Lemma exec_then_ret {A B : Type} (m : M State A) (b : B) st :
  exec (bind m (fun _ => ret b)) st = exec m st.
Proof. unfold exec, bind, ret. destruct (m st) as [[a|x] s']; reflexivity. Qed.

Lemma handleFileSelect_sound e st :
  sound st -> sound (exec (RichHandlers.handleFileSelect e) st).
Proof.
  intros Hs. unfold RichHandlers.handleFileSelect. rewrite exec_then_ret.
  apply first_file_sound, Hs.
Qed.

Lemma handleDrop_sound e st :
  sound st -> sound (exec (RichHandlers.handleDrop e) st).
Proof.
  intros Hs. unfold RichHandlers.handleDrop.
  cbn [Event.files Event.stopPropagation Event.preventDefault].
  unfold exec, bind at 1, assign at 1, modify at 1.
  match goal with
  | |- sound (snd (?m ?s)) => change (sound (exec m s))
  end.
  rewrite exec_then_ret. apply first_file_sound.
  apply (steady_sound [] st _ Hs (steady_on_page _ _ _)). intros ? [].
Qed.

(** While a file is selected, [processFile] is steady but for the two
    download names, and sends that file only. *)
Definition uploading (file : File) (st st' : State) : Prop :=
  selectedFile st' = selectedFile st
  /\ forall e, In e (trace st') ->
       In e (trace st) \/ plain e = true
       \/ e = Fetch "POST" "/upload" (FormData file).

Lemma uploading_refl file st : uploading file st st.
Proof. split; auto. Qed.

Lemma uploading_trans file st1 st2 st3 :
  uploading file st1 st2 -> uploading file st2 st3 -> uploading file st1 st3.
Proof.
  intros (A1 & T1) (A2 & T2). split; [congruence|].
  intros e H. destruct (T2 e H) as [H'|H']; [apply T1, H' | auto].
Qed.

Lemma steady_uploading {A : Type} (m : M State A) file :
  preserves (steady []) m -> preserves (uploading file) m.
Proof.
  intros H st. destruct (H st) as (A1 & _ & _ & T). split; [exact A1|].
  intros e He. destruct (T e He) as [H'|[H'|[]]]; auto.
Qed.

Lemma processFile_uploading reply now file st :
  selectedFile st = Some file ->
  uploading file st (exec (processFile reply now) st).
Proof.
  intros H. unfold processFile, exec. unfold bind at 1, gets at 1. rewrite H.
  revert st H.
  match goal with
  | |- forall st, _ -> uploading _ st (snd (?m st)) =>
      enough (P : preserves (uploading file) m) by (intros st _; apply P)
  end.
  let r := uconstr:(uploading_refl file) in
  let t := uconstr:(uploading_trans file) in
  taken_apart r t
    ltac:(idtac; match goal with
          | |- preserves _ (modify (emit (Fetch "POST" "/upload" _))) =>
              apply preserves_modify; intros st; split; [reflexivity|];
              intros e' H'; cbn [trace emit] in H'; apply in_app_or in H';
              destruct H' as [H'|[<-|[]]]; auto
          | |- preserves _ (modify (set_outputFilename _)) =>
              apply preserves_modify; intros st; split; auto
          | |- preserves _ (modify (set_asinFilename _)) =>
              apply preserves_modify; intros st; split; auto
          | |- preserves _ (modify (emit _)) =>
              apply steady_uploading; steadily
          | |- preserves _ (modify (set_analyticsData _)) =>
              apply steady_uploading; steadily
          | |- preserves _ (modify (set_lastProcessedData _)) =>
              apply steady_uploading; steadily
          | |- preserves _ (showSection _) =>
              apply steady_uploading, showSection_steady
          | |- preserves _ (showError _) =>
              apply steady_uploading, showError_steady
          | |- preserves _ (updateProgress _) =>
              apply steady_uploading, updateProgress_steady
          | |- preserves _ (displayResults _) =>
              apply steady_uploading, displayResults_steady
          end).
Qed.

Lemma processFile_sound reply now st :
  sound st -> sound (exec (processFile reply now) st).
Proof.
  intros Hs. destruct (selectedFile st) as [file|] eqn:H.
  - destruct (processFile_uploading reply now file st H) as (A & T).
    destruct Hs as (V & N & Tr). unfold sound. rewrite A, H.
    split; [intros f [= <-]; apply V, H|]. split; [discriminate|].
    intros e He. destruct (T e He) as [H'|[H'| ->]];
      [apply Tr, H' | apply plain_vouched, H' |].
    cbn [vouched]. split; [reflexivity|]. split; [reflexivity | apply V, H].
  - unfold exec. rewrite (rich_processFile_unselected reply now st H).
    apply (calm_sound (showError _)); [apply showError_steady | exact Hs].
Qed.

(** The request [archiveReport] sends from a state. *)
Definition archive_requests (now : string) (st : State) : list effect :=
  match analyticsData st with
  | Some a =>
      [Fetch "POST" "/archive"
         (ArchiveRequest (outputFilename st) (RichFlow.original_name st) a now)]
  | None => []
  end.

Lemma archiveReport_steady reply now st :
  steady (if JsString.truthy (outputFilename st) then archive_requests now st
          else [])
    st (exec (archiveReport reply now) st).
Proof.
  unfold archiveReport, exec, archive_requests.
  unfold bind at 1 2, gets at 1 2.
  destruct (analyticsData st) as [a|]; [|apply showError_steady].
  destruct (JsString.truthy (outputFilename st)); cbn [negb];
    [|apply showError_steady].
  match goal with
  | |- steady ?x st (snd (tryCatch (bind (gets selectedFile) ?k) ?h st)) =>
      change (steady x st (exec (tryCatch (k (selectedFile st)) h) st));
      enough (P : preserves (steady x) (tryCatch (k (selectedFile st)) h))
        by apply P
  end.
  cbv beta. unfold RichFlow.original_name. steadily.
Qed.

Lemma archiveReport_sound reply now st :
  sound st -> sound (exec (archiveReport reply now) st).
Proof.
  intros Hs. apply (steady_sound _ st _ Hs (archiveReport_steady reply now st)).
  destruct (JsString.truthy (outputFilename st)) eqn:Ht; [|intros e []].
  unfold archive_requests. destruct (analyticsData st) as [a|]; [|intros e []].
  intros e [<-|[]]. cbn [vouched].
  split; [reflexivity|]. split; [reflexivity|]. split; [exact Ht|].
  destruct Hs as (V & N & _). unfold RichFlow.original_name.
  destruct (selectedFile st) as [file|] eqn:H.
  - exists file. split; [apply V; reflexivity | reflexivity].
  - exfalso. apply N; [|reflexivity]. left. intros E. rewrite E in Ht. discriminate.
Qed.

Lemma resetForm_sound st : sound st -> sound (exec resetForm st).
Proof.
  intros (_ & _ & T). destruct (rich_resetForm_ends st)
    as (a & st' & E & A & B & C & _ & _ & Tr).
  unfold exec. rewrite E. cbn [snd]. unfold sound. rewrite A, B, C, Tr.
  split; [discriminate|]. split; [intros [H|H]; contradiction | exact T].
Qed.

(** The selection after [handleFile]. *)
Lemma handleFile_selection file st :
  selectedFile (exec (handleFile file) st)
  = if Upload.has_csv_name file && negb (Upload.too_large file)
    then Some file else selectedFile st.
Proof.
  unfold Upload.has_csv_name, Upload.too_large, handleFile.
  change (50 * 1024 * 1024)%N with 52428800%N.
  destruct (JsString.endsWith (JsString.toLowerCase (name file)) ".csv");
    cbn [negb andb]; [|apply (showError_steady [])].
  destruct (52428800 <? size file)%N; cbn [negb];
    [apply (showError_steady []) | reflexivity].
Qed.

Lemma run_sound a st : sound st -> sound (run a st).
Proof.
  destruct a; cbn [run].
  - apply calm_sound, loadArchive_steady.
  - apply calm_sound, handleDragOver_steady.
  - apply calm_sound, handleDragLeave_steady.
  - apply handleDrop_sound.
  - apply handleFileSelect_sound.
  - apply processFile_sound.
  - apply calm_sound, downloadFile_steady.
  - apply calm_sound, downloadAsinFile_steady.
  - apply archiveReport_sound.
  - apply calm_sound, archiveButtonRevert_steady.
  - apply resetForm_sound.
  - apply calm_sound, navigateToSection_steady.
  - apply calm_sound, viewArchiveAnalytics_steady.
  - apply calm_sound, deleteArchive_steady.
  - apply calm_sound, downloadArchive_steady.
Qed.

Lemma session_sound actions st : sound st -> sound (session st actions).
Proof.
  revert st. induction actions as [|a r IH]; intros st Hs; [exact Hs|].
  cbn [session fold_left]. apply IH, run_sound, Hs.
Qed.

(** *** What is sent stays sent *)

(** What was done outside the page is still there, in its order, with
    more after it. *)
Definition grown (st st' : State) : Prop :=
  exists more, trace st' = (trace st ++ more)%list.

Lemma grown_refl st : grown st st.
Proof. exists []. symmetry. apply app_nil_r. Qed.

Lemma grown_trans st1 st2 st3 : grown st1 st2 -> grown st2 st3 -> grown st1 st3.
Proof.
  intros (m1 & E1) (m2 & E2). exists (m1 ++ m2)%list.
  rewrite E2, E1. symmetry. apply app_assoc.
Qed.

Lemma grown_emit e st : grown st (emit e st).
Proof. exists [e]. reflexivity. Qed.

Lemma grown_same st st' : trace st' = trace st -> grown st st'.
Proof. intros E. exists []. rewrite E. symmetry. apply app_nil_r. Qed.

Ltac growing :=
  taken_apart grown_refl grown_trans
    ltac:(idtac; match goal with
          | H : forall message, preserves grown (showError message)
            |- preserves _ (showError _) => apply H
          | |- preserves _ (modify (emit _)) =>
              apply preserves_modify; intros ?; apply grown_emit
          | |- preserves _ (modify _) =>
              apply preserves_modify; intros ?; apply grown_same; reflexivity
          | |- preserves _ (assign _ _ _) =>
              apply preserves_modify; intros ?; apply grown_same; reflexivity
          end).

Lemma showError_grown message : preserves grown (showError message).
Proof. unfold showError, showSection. growing. Qed.

(** A request that a guarded block starts with has been sent, however
    the block ends. *)
Lemma sent_first {A : Type} method url payload (reply : fetched A)
    (k : fetched A -> M State unit) (h : string -> M State unit) st :
  (forall r, preserves grown (k r)) -> (forall x, preserves grown (h x)) ->
  In (Fetch method url payload)
     (trace (exec (tryCatch (bind (fetch method url payload reply) k) h) st)).
Proof.
  intros Hk Hh.
  assert (G : grown (emit (Fetch method url payload) st)
                (exec (tryCatch (bind (fetch method url payload reply) k) h) st)).
  { change (exec (tryCatch (bind (fetch method url payload reply) k) h) st)
      with (exec (tryCatch
                    (bind match reply with
                          | FetchRejected => throw "TypeError: Failed to fetch"
                          | r => ret r
                          end k) h)
                 (emit (Fetch method url payload) st)).
    apply (preserves_tryCatch _ grown_trans); [|exact Hh].
    apply (preserves_bind _ grown_trans); [|exact Hk].
    destruct reply;
      [apply (preserves_throw _ grown_refl) | apply (preserves_ret _ grown_refl) ..]. }
  destruct G as (more & E). rewrite E. cbn [trace emit].
  apply in_or_app. left. apply in_or_app. right. left. reflexivity.
Qed.

Lemma archiveReport_sends reply now st out a :
  outputFilename st = Some out -> out <> "" -> analyticsData st = Some a ->
  In (RichFlow.archive_post st out a now)
     (trace (exec (archiveReport reply now) st)).
Proof.
  intros Ho Hne Ha. pose proof showError_grown as HE.
  unfold archiveReport, exec.
  unfold bind at 1 2, gets at 1 2. rewrite Ho, Ha.
  apply String.eqb_neq in Hne. cbn [JsString.truthy]. rewrite Hne. cbn [negb].
  match goal with
  | |- In _ (trace (snd (tryCatch (bind (gets selectedFile) ?K) ?h st))) =>
      change (In (RichFlow.archive_post st out a now)
                (trace (exec (tryCatch (K (selectedFile st)) h) st)))
  end.
  cbv beta. apply sent_first.
  - intros r. growing.
  - intros x. growing.
Qed.

(** A reply that reports success is stored, whatever else it holds. *)
Lemma processFile_stores result now st file :
  has_panels st -> selectedFile st = Some file -> success result = true ->
  RichFlow.stored result file now (exec (processFile (Json result) now) st).
Proof.
  intros Hp H Hs. destruct (complete result) eqn:Hc.
  - unfold complete in Hc.
    destruct (summary result) as [s|] eqn:E1; [|discriminate].
    destruct (Server.campaigns result) as [names|] eqn:E2; [|discriminate].
    destruct (original_rows s) as [rows|] eqn:E3; [|discriminate].
    destruct (asins_removed s) as [asins|] eqn:E4; [|discriminate].
    destruct (campaigns_processed s) as [count|] eqn:E5; [|discriminate].
    destruct (RichFlow.processFile_delivers result s rows asins count names
                now st file Hp H Hs E1 E3 E4 E5 E2) as ([] & st' & E & _ & S & _).
    unfold exec. rewrite E. exact S.
  - destruct (RichFlow.processFile_malformed result now st file Hp H Hs Hc)
      as ([] & st' & E & _ & S & _).
    unfold exec. rewrite E. exact S.
Qed.

(** A file that passes becomes the selected file; the report that was
    there stays. *)
Lemma handleFile_keeps_report file st :
  valid file ->
  selectedFile (exec (handleFile file) st) = Some file
  /\ outputFilename (exec (handleFile file) st) = outputFilename st
  /\ asinFilename (exec (handleFile file) st) = asinFilename st
  /\ lastProcessedData (exec (handleFile file) st) = lastProcessedData st
  /\ analyticsData (exec (handleFile file) st) = analyticsData st.
Proof.
  intros (H1 & H2). unfold Upload.has_csv_name, Upload.too_large in *.
  unfold handleFile. change (50 * 1024 * 1024)%N with 52428800%N.
  rewrite H1, H2. cbn [negb]. repeat split.
Qed.

End Session.
(** ** Sessions of the simpler variant *)

Module SimpleSession.

Import Js Dom Server Simple SimpleFacts PageFacts Footprint.

(** The events the simpler variant listens to. *)
Inductive action : Type :=
| DragOver (e : Event.t)
| DragLeave (e : Event.t)
| FilesDropped (e : Event.t)
| FilesPicked (e : Event.t)
| ClickProcess (reply : fetched UploadResult)
| ClickDownload
| ClickReset.

Definition run (a : action) (st : State) : State :=
  match a with
  | DragOver e => exec (SimpleHandlers.handleDragOver e) st
  | DragLeave e => exec (SimpleHandlers.handleDragLeave e) st
  | FilesDropped e => exec (SimpleHandlers.handleDrop e) st
  | FilesPicked e => exec (SimpleHandlers.handleFileSelect e) st
  | ClickProcess reply => exec (processFile reply) st
  | ClickDownload => exec downloadFile st
  | ClickReset => exec resetForm st
  end.

Definition fresh (st : State) : Prop :=
  selectedFile st = None /\ outputFilename st = None /\ trace st = [].

Definition session (st : State) (actions : list action) : State :=
  fold_left (fun s a => run a s) actions st.

Definition valid (file : File) : Prop :=
  Upload.has_csv_name file = true /\ Upload.too_large file = false.

(** The form [processFile] posts for a file. *)
Definition upload_form (file : File) (clicks spend : value)
  : list (string * field) :=
  [("file", FileField file); ("min_clicks", ValueField clicks);
   ("min_spend", ValueField spend)].

Definition plain (e : effect) : bool :=
  match e with
  | Fetch _ _ _ => false
  | _ => true
  end.

(** A request is an upload of a valid file and two thresholds. *)
Definition vouched (e : effect) : Prop :=
  match e with
  | Fetch method url form =>
      method = "POST" /\ url = "/upload"
      /\ exists file clicks spend,
           valid file /\ form = upload_form file clicks spend
  | _ => True
  end.

Lemma simple_plain_vouched e : plain e = true -> vouched e.
Proof. destruct e; cbn; try discriminate; auto. Qed.

(** The selection is as before or gone, and what was done outside the
    page is plain or an upload of [files]. *)
Definition steady (files : list File) (st st' : State) : Prop :=
  (selectedFile st' = selectedFile st \/ selectedFile st' = None)
  /\ forall e, In e (trace st') ->
       In e (trace st) \/ plain e = true
       \/ exists file clicks spend,
            In file files
            /\ e = Fetch "POST" "/upload" (upload_form file clicks spend).

Lemma simple_steady_refl files st : steady files st st.
Proof. split; auto. Qed.

Lemma simple_steady_trans files st1 st2 st3 :
  steady files st1 st2 -> steady files st2 st3 -> steady files st1 st3.
Proof.
  intros (A1 & T1) (A2 & T2). split.
  - destruct A2 as [A2|A2]; [rewrite A2; exact A1 | auto].
  - intros e H. destruct (T2 e H) as [H'|H']; [apply T1, H' | auto].
Qed.

Lemma steady_same files st st' :
  selectedFile st' = selectedFile st -> trace st' = trace st ->
  steady files st st'.
Proof. intros A T. split; [auto|]. rewrite T. auto. Qed.

Lemma simple_steady_emit files e st :
  plain e = true -> steady files st (emit e st).
Proof.
  intros H. split; [auto|]. intros e' H'. cbn [trace emit] in H'.
  apply in_app_or in H'. destruct H' as [H'|[<-|[]]]; auto.
Qed.

Lemma steady_upload files file clicks spend st :
  In file files ->
  steady files st (emit (Fetch "POST" "/upload"
                           [("file", FileField file);
                            ("min_clicks", ValueField clicks);
                            ("min_spend", ValueField spend)]) st).
Proof.
  intros H. split; [auto|]. intros e' H'. cbn [trace emit] in H'.
  apply in_app_or in H'. destruct H' as [H'|[<-|[]]]; [auto|].
  right. right. exists file, clicks, spend. auto.
Qed.

Ltac steadily :=
  let r := uconstr:(simple_steady_refl _) in
  let t := uconstr:(simple_steady_trans _) in
  taken_apart_by
    ltac:(progress unfold set_display, set_text, assign, fetch, json,
            showSection, showError, updateProgress, displayResults)
    r t
    ltac:(idtac; match goal with
          | |- preserves _ (modify (emit (Fetch _ _ _))) =>
              apply preserves_modify; intros ?; apply steady_upload;
              left; reflexivity
          | |- preserves _ (modify (emit _)) =>
              apply preserves_modify; intros ?; apply simple_steady_emit; reflexivity
          | |- preserves _ (modify (set_selectedFile None)) =>
              apply preserves_modify; intros ?; split; auto
          | |- preserves _ (modify (on_page _)) =>
              apply preserves_modify; intros ?; apply steady_same; reflexivity
          | |- preserves _ (modify (set_outputFilename _)) =>
              apply preserves_modify; intros ?; apply steady_same; reflexivity
          end).

Lemma simple_showError_steady files message :
  preserves (steady files) (showError message).
Proof. steadily. Qed.

Lemma simple_downloadFile_steady files : preserves (steady files) downloadFile.
Proof. unfold downloadFile. steadily. Qed.

Lemma resetForm_steady files : preserves (steady files) resetForm.
Proof. unfold resetForm. steadily. Qed.

Lemma simple_handleDragOver_steady files e :
  preserves (steady files) (SimpleHandlers.handleDragOver e).
Proof. unfold SimpleHandlers.handleDragOver. steadily. Qed.

Lemma simple_handleDragLeave_steady files e :
  preserves (steady files) (SimpleHandlers.handleDragLeave e).
Proof. unfold SimpleHandlers.handleDragLeave. steadily. Qed.

Lemma processFile_steady reply st :
  steady (match selectedFile st with Some file => [file] | None => [] end)
    st (exec (processFile reply) st).
Proof.
  unfold processFile, exec. unfold bind at 1, gets at 1.
  destruct (selectedFile st) as [file|]; [|apply simple_showError_steady].
  revert st.
  match goal with
  | |- forall st, steady ?x st (snd (?m st)) =>
      enough (P : preserves (steady x) m) by exact P
  end.
  steadily.
Qed.

(** What holds of the selection and of what was done outside the page,
    at every point of a session. *)
Definition sound (st : State) : Prop :=
  (forall file, selectedFile st = Some file -> valid file)
  /\ forall e, In e (trace st) -> vouched e.

Lemma simple_fresh_sound st : fresh st -> sound st.
Proof.
  intros (A & _ & T). unfold sound. rewrite A, T.
  split; [discriminate | intros e []].
Qed.

Lemma simple_steady_sound files st st' :
  sound st -> steady files st st' -> (forall file, In file files -> valid file) ->
  sound st'.
Proof.
  intros (V & T) (A & G) Hx. split.
  - intros file H. destruct A as [A|A]; rewrite A in H;
      [apply V, H | discriminate].
  - intros e H. destruct (G e H) as [H'|[H'|(file & clicks & spend & Hf & ->)]];
      [apply T, H' | apply simple_plain_vouched, H' |].
    cbn [vouched]. split; [reflexivity|]. split; [reflexivity|].
    exists file, clicks, spend. split; [apply Hx, Hf | reflexivity].
Qed.

Lemma simple_calm_sound {A : Type} (m : M State A) st :
  preserves (steady []) m -> sound st -> sound (exec m st).
Proof.
  intros H Hs. apply (simple_steady_sound [] st _ Hs (H st)). intros file [].
Qed.

Lemma simple_handleFile_sound file st : sound st -> sound (exec (handleFile file) st).
Proof.
  intros Hs. unfold handleFile. change (50 * 1024 * 1024)%N with 52428800%N.
  destruct (JsString.endsWith (JsString.toLowerCase (name file)) ".csv") eqn:H1;
    cbn [negb]; [|apply simple_calm_sound; [apply simple_showError_steady | exact Hs]].
  destruct (52428800 <? size file)%N eqn:H2;
    [apply simple_calm_sound; [apply simple_showError_steady | exact Hs]|].
  destruct Hs as (V & T). unfold sound, exec, bind, modify.
  cbn [snd fst selectedFile outputFilename trace emit on_page
       set_selectedFile assign set_text set_display modify].
  split.
  - intros f [= <-]. split; assumption.
  - intros e H. apply in_app_or in H. destruct H as [H|[<-|[]]];
      [apply T, H | exact I].
Qed.

Lemma simple_first_file_sound (files : list File) st :
  sound st ->
  sound (exec (match files with
               | file :: _ => handleFile file
               | [] => ret tt
               end) st).
Proof.
  intros Hs. destruct files as [|file rest]; [exact Hs | apply simple_handleFile_sound, Hs].
Qed.

Lemma simple_exec_then_ret {A B : Type} (m : M State A) (b : B) st :
  exec (bind m (fun _ => ret b)) st = exec m st.
Proof. unfold exec, bind, ret. destruct (m st) as [[a|x] s']; reflexivity. Qed.

Lemma simple_handleFileSelect_sound e st :
  sound st -> sound (exec (SimpleHandlers.handleFileSelect e) st).
Proof.
  intros Hs. unfold SimpleHandlers.handleFileSelect. rewrite simple_exec_then_ret.
  apply simple_first_file_sound, Hs.
Qed.

Lemma simple_handleDrop_sound e st :
  sound st -> sound (exec (SimpleHandlers.handleDrop e) st).
Proof.
  intros Hs. unfold SimpleHandlers.handleDrop.
  cbn [Event.files Event.stopPropagation Event.preventDefault].
  unfold exec, bind at 1, assign at 1, modify at 1.
  match goal with
  | |- sound (snd (?m ?s)) => change (sound (exec m s))
  end.
  rewrite simple_exec_then_ret. apply simple_first_file_sound.
  apply (simple_steady_sound [] st _ Hs); [|intros ? []].
  apply steady_same; reflexivity.
Qed.

Lemma simple_processFile_sound reply st :
  sound st -> sound (exec (processFile reply) st).
Proof.
  intros Hs. apply (simple_steady_sound _ st _ Hs (processFile_steady reply st)).
  destruct (selectedFile st) as [file|] eqn:H; [|intros ? []].
  intros f [<-|[]]. apply (proj1 Hs), H.
Qed.

(** The selection after [handleFile]. *)
Lemma simple_handleFile_selection file st :
  selectedFile (exec (handleFile file) st)
  = if Upload.has_csv_name file && negb (Upload.too_large file)
    then Some file else selectedFile st.
Proof.
  destruct (Upload.has_csv_name file) eqn:H1;
    [destruct (Upload.too_large file) eqn:H2|]; cbn [negb andb].
  - destruct (simple_handleFile_rejects file st (or_intror H2))
      as ([] & st' & E & _ & A & _).
    unfold exec. rewrite E. exact A.
  - destruct (simple_handleFile_accepts file st H1 H2) as ([] & st' & E & A & _).
    unfold exec. rewrite E. exact A.
  - destruct (simple_handleFile_rejects file st (or_introl H1))
      as ([] & st' & E & _ & A & _).
    unfold exec. rewrite E. exact A.
Qed.

Lemma simple_run_sound a st : sound st -> sound (run a st).
Proof.
  destruct a; cbn [run].
  - apply simple_calm_sound, simple_handleDragOver_steady.
  - apply simple_calm_sound, simple_handleDragLeave_steady.
  - apply simple_handleDrop_sound.
  - apply simple_handleFileSelect_sound.
  - apply simple_processFile_sound.
  - apply simple_calm_sound, simple_downloadFile_steady.
  - apply simple_calm_sound, resetForm_steady.
Qed.

Lemma simple_session_sound actions st : sound st -> sound (session st actions).
Proof.
  revert st. induction actions as [|a r IH]; intros st Hs; [exact Hs|].
  cbn [session fold_left]. apply IH, simple_run_sound, Hs.
Qed.

End SimpleSession.

(** * The claims *)

Import Js Dom Server.

(** ** Sample inputs *)

Definition sample_file : File := {| name := "Report.CSV"; size := 1536 |}.
Definition text_file : File := {| name := "notes.txt"; size := 10 |}.

Definition sample_summary : Summary :=
  {| original_rows := Some (JsNumber.ofZ 120);
     asins_removed := Some (JsNumber.ofZ 4);
     campaigns_processed := Some (JsNumber.ofZ 1);
     total_flagged := Some (JsNumber.ofZ 2);
     total_spend := Some (JsNumber.ofZ 50);
     total_sales := Some (JsNumber.ofZ 200);
     total_orders := None |}.

Definition sample_detail : CampaignDetail :=
  {| monograms := Some (JsNumber.ofZ 1);
     bigrams := Some (JsNumber.ofZ 1);
     trigrams := Some (JsNumber.ofZ 2);
     search_terms := Some (JsNumber.ofZ 3);
     spend := Some (JsNumber.ofZ 50);
     sales := Some (JsNumber.ofZ 200) |}.

Definition sample_result : UploadResult :=
  {| success := true;
     output_file := Some "ngrams.xlsx";
     asin_file := None;
     summary := Some sample_summary;
     Server.campaigns := Some ["Brand"];
     campaign_details := Some [("Brand", sample_detail)];
     error := None |}.

Definition sample_time : string := "2024-05-01T12:00:00.000Z".

(** The richer variant after a file was chosen and its upload went
    through. *)
Definition uploaded : Rich.State :=
  exec (Rich.processFile (Json sample_result) sample_time)
       (exec (Rich.handleFile sample_file) Rich.initial).

Lemma initial_has_panels : Rich.has_panels Rich.initial.
Proof. intros el _. reflexivity. Defined.

(** ** C1 *)

(** C1.  [showSection(s)] sets the display of every primary-flow panel:
    ['block'] for the panels the state [s] stands for, ['none'] for all
    others.  [settings] (simpler variant) and [process] (richer variant)
    stand for the upload box and the settings or process panel, every
    other recognized state for one panel.  After [processFile], exactly
    the results panel is on show when the upload went through, and
    exactly the error panel otherwise; after [showError], exactly the
    error panel. *)
Theorem showSection_shows_implied_panels :
  (forall section st,
      ends (Simple.showSection section) st
        (SimpleFacts.exactly (SimpleFacts.implied section)))
  /\ (forall section st, Rich.has_panels st ->
      ends (Rich.showSection section) st
        (RichFacts.exactly (RichFacts.implied section)))
  /\ SimpleFacts.implied "settings" = [Simple.uploadSection; Simple.settingsSection]
  /\ RichFacts.implied "process" = [Rich.uploadSection; Rich.processSection]
  /\ (forall section, In section SimpleFacts.recognized -> section <> "settings" ->
      exists el, In el Simple.panels /\ SimpleFacts.implied section = [el])
  /\ (forall section, In section RichFacts.recognized -> section <> "process" ->
      exists el, In el Rich.panels /\ RichFacts.implied section = [el])
  /\ (forall reply st file, Simple.selectedFile st = Some file ->
      ends (Simple.processFile reply) st
        (SimpleFacts.exactly (if SimpleFacts.delivered reply
                              then [Simple.resultsSection]
                              else [Simple.errorSection])))
  /\ (forall reply now st file,
      Rich.has_panels st -> Rich.selectedFile st = Some file ->
      ends (Rich.processFile reply now) st
        (RichFacts.exactly (if RichFacts.delivered reply
                            then [Rich.resultsSection]
                            else [Rich.errorSection])))
  /\ (forall message st,
      ends (Simple.showError message) st (SimpleFacts.reported message))
  /\ (forall message st, Rich.has_panels st ->
      ends (Rich.showError message) st (RichFacts.reported message)).
Proof.
  split; [exact SimpleFacts.simple_showSection_ends|].
  split.
  { intros section st Hp. eapply results_mono; [apply RichFacts.rich_showSection_ends, Hp|].
    intros _ s' (X & _). exact X. }
  split; [reflexivity|]. split; [reflexivity|].
  split.
  { intros section H Hn. simpl in H.
    destruct H as [<-|[<-|[<-|[<-|[<-|[]]]]]]; try (eexists; split; [|reflexivity]; simpl; tauto).
    contradiction. }
  split.
  { intros section H Hn. simpl in H.
    destruct H as [<-|[<-|[<-|[<-|[<-|[]]]]]]; try (eexists; split; [|reflexivity]; simpl; tauto).
    contradiction. }
  split; [exact SimpleFacts.simple_processFile_ends|].
  split; [exact RichFacts.rich_processFile_ends|].
  split.
  { intros message st. eapply results_mono; [apply SimpleFacts.simple_showError_ends|].
    intros _ s' (R & _). exact R. }
  intros message st Hp. eapply results_mono; [apply RichFacts.rich_showError_ends, Hp|].
  intros _ s' (R & _). exact R.
Qed.

Lemma showSection_shows_implied_panels_witness :
  Rich.has_panels Rich.initial
  /\ ends (Rich.showSection "process") Rich.initial
       (RichFacts.exactly [Rich.uploadSection; Rich.processSection])
  /\ ends (Rich.processFile (Json sample_result) sample_time)
       (exec (Rich.handleFile sample_file) Rich.initial)
       (RichFacts.exactly [Rich.resultsSection])
  /\ ends (Simple.processFile (Json sample_result))
       (exec (Simple.handleFile sample_file) Simple.initial)
       (SimpleFacts.exactly [Simple.resultsSection]).
Proof.
  destruct showSection_shows_implied_panels
    as (_ & HR & _ & _ & _ & _ & HS & HP & _).
  split; [exact initial_has_panels|].
  split; [exact (HR "process" Rich.initial initial_has_panels)|].
  split.
  - apply (HP (Json sample_result) sample_time _ sample_file).
    + intros el _. reflexivity.
    + reflexivity.
  - apply (HS (Json sample_result) _ sample_file). reflexivity.
Defined.

(** ** C2 *)

(** All five variables of the richer variant are back to [null]. *)
Definition cleared (st : Rich.State) : Prop :=
  Rich.selectedFile st = None /\ Rich.outputFilename st = None
  /\ Rich.asinFilename st = None /\ Rich.lastProcessedData st = None
  /\ Rich.analyticsData st = None.

(** C2, as stated, fails.  In the state reached by choosing a file and
    uploading it with success, [resetForm] leaves [lastProcessedData] and
    [analyticsData] set. *)
Lemma resetForm_keeps_snapshot :
  SimpleFacts.among Rich.resultsSection (Rich.visible_panels uploaded) = true
  /\ ~ cleared (exec Rich.resetForm uploaded).
Proof.
  split; [vm_compute; reflexivity|].
  intros (_ & _ & _ & _ & H). vm_compute in H. discriminate H.
Qed.

(** C2, amended.  [resetForm] returns with [selectedFile],
    [outputFilename] and [asinFilename] set to [null] (in the simpler
    variant, with its two variables set to [null]) and the upload panel
    on show; [lastProcessedData] and [analyticsData] keep their values. *)
Theorem resetForm_clears_selection :
  (forall st,
      ends Simple.resetForm st
        (fun st' => Simple.selectedFile st' = None
                    /\ Simple.outputFilename st' = None))
  /\ (forall st,
      ends Rich.resetForm st
        (fun st' => Rich.selectedFile st' = None
                    /\ Rich.outputFilename st' = None
                    /\ Rich.asinFilename st' = None
                    /\ Rich.lastProcessedData st' = Rich.lastProcessedData st
                    /\ Rich.analyticsData st' = Rich.analyticsData st)).
Proof.
  split; intros st.
  - eapply results_mono; [apply SimpleFacts.simple_resetForm_ends|].
    intros _ s' (A & B & _). auto.
  - eapply results_mono; [apply RichFacts.rich_resetForm_ends|].
    intros _ s' (A & B & C & D & E & _). auto.
Qed.

(** ** C3 *)

(** C3.  A file whose name does not end in [.csv], letter case aside, or
    whose size exceeds 52,428,800 bytes is answered with its rejection
    message in the error panel; [handleFile] returns with [selectedFile]
    and every other variable as before, and without any effect outside
    the page, a network call in particular. *)
Theorem handleFile_rejects_invalid :
  (forall file st, Upload.rejected file ->
      ends (Simple.handleFile file) st
        (fun st' => SimpleFacts.reported (Upload.rejection file) st'
                    /\ Simple.selectedFile st' = Simple.selectedFile st
                    /\ Simple.outputFilename st' = Simple.outputFilename st
                    /\ Simple.trace st' = Simple.trace st))
  /\ (forall file st, Rich.has_panels st -> Upload.rejected file ->
      ends (Rich.handleFile file) st
        (fun st' => RichFacts.reported (Upload.rejection file) st'
                    /\ RichFacts.untouched st st')).
Proof.
  split.
  - exact SimpleFacts.simple_handleFile_rejects.
  - exact RichFacts.rich_handleFile_rejects.
Qed.

Lemma handleFile_rejects_invalid_witness :
  Upload.rejected text_file
  /\ Upload.rejected {| name := "big.csv"; size := 52428801 |}
  /\ ends (Rich.handleFile text_file) uploaded
       (fun st' => RichFacts.reported "Please upload a CSV file." st'
                   /\ RichFacts.untouched uploaded st')
  /\ ends (Simple.handleFile {| name := "big.csv"; size := 52428801 |})
       Simple.initial
       (fun st' => SimpleFacts.reported "File size exceeds 50MB limit." st'
                   /\ Simple.selectedFile st' = None
                   /\ Simple.outputFilename st' = None
                   /\ Simple.trace st' = []).
Proof.
  destruct handleFile_rejects_invalid as (HS & HR).
  split; [left; reflexivity|].
  split; [right; reflexivity|].
  split.
  - apply (HR text_file uploaded).
    + intros el _. reflexivity.
    + left. reflexivity.
  - apply (HS {| name := "big.csv"; size := 52428801 |} Simple.initial).
    right. reflexivity.
Defined.

(** ** C4 *)

(** C4.  With no file selected, [processFile] returns with the message
    "Please select a file first." in the error panel, whatever the
    server would have answered: nothing is sent, and [outputFilename]
    and [analyticsData] are as before. *)
Theorem processFile_needs_selection :
  (forall reply st, Simple.selectedFile st = None ->
      ends (Simple.processFile reply) st
        (fun st' => SimpleFacts.reported "Please select a file first." st'
                    /\ Simple.trace st' = Simple.trace st
                    /\ Simple.outputFilename st' = Simple.outputFilename st))
  /\ (forall reply now st, Rich.has_panels st -> Rich.selectedFile st = None ->
      ends (Rich.processFile reply now) st
        (fun st' => RichFacts.reported "Please select a file first." st'
                    /\ Rich.trace st' = Rich.trace st
                    /\ Rich.outputFilename st' = Rich.outputFilename st
                    /\ Rich.analyticsData st' = Rich.analyticsData st)).
Proof.
  split.
  - intros reply st H. unfold ends, results.
    rewrite (SimpleFacts.simple_processFile_unselected reply st H).
    eapply results_mono; [apply SimpleFacts.simple_showError_ends|].
    intros _ s' (R & _ & O & T). auto.
  - intros reply now st Hp H. unfold ends, results.
    rewrite (RichFacts.rich_processFile_unselected reply now st H).
    eapply results_mono; [apply RichFacts.rich_showError_ends, Hp|].
    intros _ s' (R & (_ & O & _ & _ & A & T) & _). auto.
Qed.

Lemma processFile_needs_selection_witness :
  ends (Rich.processFile (Json sample_result) sample_time) Rich.initial
    (fun st' => RichFacts.reported "Please select a file first." st'
                /\ Rich.trace st' = []
                /\ Rich.outputFilename st' = None
                /\ Rich.analyticsData st' = None).
Proof.
  apply (proj2 processFile_needs_selection (Json sample_result) sample_time
           Rich.initial).
  - intros el _. reflexivity.
  - reflexivity.
Defined.

(** ** C8 *)

(** C8.  With no processed report ([outputFilename] is [null]) or no
    analytics snapshot ([analyticsData] is [null]), [archiveReport]
    returns with the message "No report available to archive." in the
    error panel; nothing is sent and no variable changes. *)
Theorem archiveReport_needs_report :
  forall reply now st,
    Rich.has_panels st ->
    Rich.outputFilename st = None \/ Rich.analyticsData st = None ->
    ends (Rich.archiveReport reply now) st
      (fun st' => RichFacts.reported "No report available to archive." st'
                  /\ RichFacts.untouched st st').
Proof.
  intros reply now st Hp H. apply RichFacts.archiveReport_unavailable; [exact Hp|].
  destruct H as [H|H]; [left; rewrite H; reflexivity | right; exact H].
Qed.

Lemma archiveReport_needs_report_witness :
  ends (Rich.archiveReport (Json {| Rich.reply_success := true;
                                    Rich.reply_error := None |}) sample_time)
    (exec Rich.resetForm uploaded)
    (fun st' => RichFacts.reported "No report available to archive." st'
                /\ RichFacts.untouched (exec Rich.resetForm uploaded) st').
Proof.
  apply archiveReport_needs_report.
  - intros el _. reflexivity.
  - left. reflexivity.
Defined.

(** ** C9 *)

(** C9.  [loadArchive] always returns normally.  When the server answers
    with a failure flag, without a list or with an empty one, the empty
    placeholder is shown and the list container hidden, the list itself
    being left as it was.  When the request fails or the answer is not
    JSON, the page and the script's variables are as before: the request
    and one console message are all that happened. *)
Theorem loadArchive_never_throws :
  (forall reply st, exists st', Rich.loadArchive reply st = (Normal tt, st'))
  /\ (forall result st, RichFacts.nothing_to_list result ->
      ends (Rich.loadArchive (Json result)) st
        (fun st' => display (Rich.page st') "archive-empty" = Str "block"
                    /\ display (Rich.page st') "archive-content" = Str "none"
                    /\ prop (Rich.page st') "archive-list" "innerHTML"
                       = prop (Rich.page st) "archive-list" "innerHTML"
                    /\ Rich.trace st'
                       = (Rich.trace st ++ [RichFacts.archive_request])%list))
  /\ (forall (reply : fetched Rich.ArchiveList) st,
      reply = FetchRejected \/ reply = JsonRejected ->
      ends (Rich.loadArchive reply) st
        (fun st' => Rich.page st' = Rich.page st
                    /\ Rich.trace st'
                       = (Rich.trace st
                          ++ [RichFacts.archive_request;
                              Rich.ConsoleError "Error loading archive:"])%list
                    /\ Rich.selectedFile st' = Rich.selectedFile st
                    /\ Rich.outputFilename st' = Rich.outputFilename st
                    /\ Rich.asinFilename st' = Rich.asinFilename st
                    /\ Rich.lastProcessedData st' = Rich.lastProcessedData st
                    /\ Rich.analyticsData st' = Rich.analyticsData st)).
Proof.
  split; [exact RichFacts.loadArchive_returns|].
  split; [exact RichFacts.loadArchive_placeholder|].
  exact RichFacts.loadArchive_failed.
Qed.

Lemma loadArchive_never_throws_witness :
  ends (Rich.loadArchive (Json {| Rich.list_success := true;
                                  Rich.archives := Some [] |})) uploaded
    (fun st' => display (Rich.page st') "archive-empty" = Str "block"
                /\ display (Rich.page st') "archive-content" = Str "none"
                /\ prop (Rich.page st') "archive-list" "innerHTML"
                   = prop (Rich.page uploaded) "archive-list" "innerHTML"
                /\ Rich.trace st'
                   = (Rich.trace uploaded ++ [RichFacts.archive_request])%list)
  /\ ends (Rich.loadArchive JsonRejected) uploaded
       (fun st' => Rich.page st' = Rich.page uploaded
                   /\ Rich.trace st'
                      = (Rich.trace uploaded
                         ++ [RichFacts.archive_request;
                             Rich.ConsoleError "Error loading archive:"])%list
                   /\ Rich.selectedFile st' = Rich.selectedFile uploaded
                   /\ Rich.outputFilename st' = Rich.outputFilename uploaded
                   /\ Rich.asinFilename st' = Rich.asinFilename uploaded
                   /\ Rich.lastProcessedData st' = Rich.lastProcessedData uploaded
                   /\ Rich.analyticsData st' = Rich.analyticsData uploaded).
Proof.
  destruct loadArchive_never_throws as (_ & HE & HF).
  split.
  - apply HE. right. right. reflexivity.
  - apply HF. right. reflexivity.
Defined.

(** ** C10 *)

(** C10.  For a name outside the recognized ones, [showSection] returns
    with no primary-flow panel on show: the simpler variant has set the
    display of all five to ['none'], and so has the richer variant on
    every panel the page has. *)
Theorem showSection_unrecognized_shows_nothing :
  (forall section st, ~ In section SimpleFacts.recognized ->
      ends (Simple.showSection section) st
        (fun st' => SimpleFacts.exactly [] st' /\ Simple.visible_panels st' = []))
  /\ (forall section st, ~ In section RichFacts.recognized ->
      ends (Rich.showSection section) st
        (fun st' => Rich.visible_panels st' = []))
  /\ (forall section st, Rich.has_panels st -> ~ In section RichFacts.recognized ->
      ends (Rich.showSection section) st (RichFacts.exactly [])).
Proof.
  split.
  - intros section st H.
    eapply results_mono; [apply SimpleFacts.simple_showSection_unrecognized, H|].
    intros [] s' X. split; [exact X|].
    unfold Simple.visible_panels, Simple.shown, Simple.panels.
    cbn [filter].
    rewrite !X by (simpl; tauto). reflexivity.
  - split.
    + exact RichFacts.rich_showSection_unrecognized.
    + exact RichFacts.showSection_unrecognized_hides.
Qed.

Lemma showSection_unrecognized_shows_nothing_witness :
  ~ In "settings" RichFacts.recognized
  /\ ends (Rich.showSection "settings") uploaded
       (fun st' => Rich.visible_panels st' = [])
  /\ ends (Simple.showSection "process") Simple.initial
       (fun st' => SimpleFacts.exactly [] st' /\ Simple.visible_panels st' = []).
Proof.
  destruct showSection_unrecognized_shows_nothing as (HS & HR & _).
  assert (N : ~ In "settings" RichFacts.recognized)
    by (simpl; intros [H|[H|[H|[H|[H|[]]]]]]; discriminate H).
  split; [exact N|].
  split; [exact (HR "settings" uploaded N)|].
  apply HS. simpl. intros [H|[H|[H|[H|[H|[]]]]]]; discriminate H.
Defined.

(** ** C5 *)

(** C5.  [updateDistributionGrid] returns with the grid holding, for
    each campaign detail in turn, no card when its monogram, bigram and
    trigram counts (a missing count being 0) add up to zero, and else
    one card: the campaign's name, the three widths of the bar and the
    three lines of the legend, each line the raw count and the
    percentage.  A percentage is [toFixed(1)] of the count divided by
    that total, times 100; where that value is an ordinary non-negative
    Number, the text is a whole part, a point and one digit, and reads
    the number of tenths nearest to the value.  For one, one and two
    n-grams the card reads 25.0, 25.0 and 50.0, whose sum reads 100.0,
    and a campaign with no n-grams before it leaves no trace. *)
Theorem distribution_grid_percentages :
  (forall st a, Rich.analyticsData st = Some a ->
      ends Rich.updateDistributionGrid st
        (fun st' =>
           prop (Rich.page st') "distribution-grid" "innerHTML"
           = Children
               (flat_map
                  (fun entry : string * CampaignDetail =>
                     let mono := or_zero (monograms (snd entry)) in
                     let bi := or_zero (bigrams (snd entry)) in
                     let tri := or_zero (trigrams (snd entry)) in
                     let total := JsNumber.add (JsNumber.add mono bi) tri in
                     let percent count :=
                       JsNumber.toFixed 1
                         (JsNumber.mul (JsNumber.div count total)
                                       JsNumber.hundred) in
                     if JsNumber.is_zero total then []
                     else [Element "distribution-card"
                             [Str (fst entry);
                              Element "distribution-bar"
                                [Str (percent mono ++ "%");
                                 Str (percent bi ++ "%");
                                 Str (percent tri ++ "%")];
                              Element "distribution-legend"
                                [Str ("Mono: " ++ JsNumber.toString mono
                                      ++ " (" ++ percent mono ++ "%)");
                                 Str ("Bi: " ++ JsNumber.toString bi
                                      ++ " (" ++ percent bi ++ "%)");
                                 Str ("Tri: " ++ JsNumber.toString tri
                                      ++ " (" ++ percent tri ++ "%)")]]])
                  (Rich.details_of a))))
  /\ (forall count total m e,
      JsNumber.mul (JsNumber.div count total) JsNumber.hundred
      = S754_finite false m e ->
      JsNumber.exact_num m e < 10 ^ 21 * JsNumber.exact_den e ->
      let n := JsNumber.round_fixed 1 (JsNumber.exact_num m e)
                 (JsNumber.exact_den e) in
      JsNumber.toFixed 1
        (JsNumber.mul (JsNumber.div count total) JsNumber.hundred)
      = JsNumber.text (JsNumber.digits (n / 10)
                       ++ ["."%char; JsNumber.digit_char (n mod 10)])
      /\ 2 * n * JsNumber.exact_den e
         <= 2 * JsNumber.exact_num m e * 10 + JsNumber.exact_den e
         < 2 * (n + 1) * JsNumber.exact_den e)
  /\ (forall st a idle name data,
      Rich.analyticsData st = Some a ->
      Rich.campaignDetails a = Some [("Idle", idle); (name, data)] ->
      monograms idle = Some JsNumber.zero -> bigrams idle = None ->
      trigrams idle = Some JsNumber.zero ->
      monograms data = Some (JsNumber.ofZ 1) ->
      bigrams data = Some (JsNumber.ofZ 1) ->
      trigrams data = Some (JsNumber.ofZ 2) ->
      ends Rich.updateDistributionGrid st
        (fun st' =>
           prop (Rich.page st') "distribution-grid" "innerHTML"
           = Children
               [Element "distribution-card"
                  [Str name;
                   Element "distribution-bar"
                     [Str "25.0%"; Str "25.0%"; Str "50.0%"];
                   Element "distribution-legend"
                     [Str "Mono: 1 (25.0%)"; Str "Bi: 1 (25.0%)";
                      Str "Tri: 2 (50.0%)"]]]))
  /\ JsNumber.toFixed 1
       (JsNumber.add (JsNumber.add (JsNumber.parseFloat "25.0")
                                   (JsNumber.parseFloat "25.0"))
                     (JsNumber.parseFloat "50.0"))
     = "100.0".
Proof.
  match goal with
  | |- ?shown /\ _ => assert (G : shown)
  end.
  { intros st a H.
    eapply results_mono; [apply RichFacts.updateDistributionGrid_ends, H|].
    intros [] s' (C & _). rewrite C. clear C. f_equal.
    unfold RichFacts.cards.
    induction (Rich.details_of a) as [|[name data] rest IH]; [reflexivity|].
    cbn [filter flat_map fst snd]. unfold RichFacts.in_grid at 1.
    cbn [snd]. unfold Rich.total at 1.
    destruct (JsNumber.is_zero
                (JsNumber.add
                   (JsNumber.add (or_zero (monograms data))
                                 (or_zero (bigrams data)))
                   (or_zero (trigrams data)))) eqn:Hz; cbn [negb].
    - exact IH.
    - cbn [map app fst snd]. f_equal. exact IH. }
  split; [exact G|].
  split.
  { intros count total m e E H n. rewrite E.
    destruct (NumberFacts.toFixed_one_decimal false m e H) as (T & _ & R).
    split; [exact T | exact R]. }
  split; [|vm_compute; reflexivity].
  intros st a idle name data H D I1 I2 I3 D1 D2 D3.
  eapply results_mono; [apply (G st a H)|].
  intros [] s' C. rewrite C. unfold Rich.details_of. rewrite D.
  cbn [flat_map fst snd app]. rewrite I1, I2, I3, D1, D2, D3.
  vm_compute. reflexivity.
Qed.

Lemma distribution_grid_percentages_witness :
  ends Rich.updateDistributionGrid uploaded
    (fun st' =>
       prop (Rich.page st') "distribution-grid" "innerHTML"
       = Children
           [Element "distribution-card"
              [Str "Brand";
               Element "distribution-bar"
                 [Str "25.0%"; Str "25.0%"; Str "50.0%"];
               Element "distribution-legend"
                 [Str "Mono: 1 (25.0%)"; Str "Bi: 1 (25.0%)";
                  Str "Tri: 2 (50.0%)"]]]).
Proof.
  eapply results_mono;
    [apply (proj1 distribution_grid_percentages uploaded _ eq_refl)|].
  intros [] s' C. rewrite C. vm_compute. reflexivity.
Defined.

(** ** C6 *)

(** The analytics snapshot with the given spend and sales. *)
Definition snapshot (spent sold : option JsNumber.num) : Rich.Analytics :=
  {| Rich.totals :=
       {| original_rows := None; asins_removed := None;
          campaigns_processed := None; total_flagged := None;
          total_spend := spent; total_sales := sold; total_orders := None |};
     Rich.campaigns := None; Rich.campaignDetails := None;
     Rich.filename := None; Rich.processedAt := None |}.

(** C6.  [updateAnalyticsSection] returns with the ACOS field reading
    the ACOS text followed by a percent sign.  When sales are above zero
    the text is [toFixed(1)] of spend divided by sales, times 100; when
    sales are absent or zero it is "0".  Where the value is an ordinary
    non-negative Number the text is a whole part, a point and one digit,
    reading the number of tenths nearest to the value.  Spend 50 with
    sales 0 reads "0%", spend 50 with sales 200 reads "25.0%". *)
Theorem acos_rendering :
  (forall st a, Rich.analyticsData st = Some a ->
      ends Rich.updateAnalyticsSection st
        (fun st' => textContent (Rich.page st') "analytics-acos"
                    = Str (Rich.acos a ++ "%")))
  /\ (forall a,
      let spent := JsNumber.or_zero
                     (JsNumber.parseFloat_value (total_spend (Rich.totals a))) in
      let sold := JsNumber.or_zero
                    (JsNumber.parseFloat_value (total_sales (Rich.totals a))) in
      JsNumber.gt_zero sold = true ->
      Rich.acos a
      = JsNumber.toFixed 1
          (JsNumber.mul (JsNumber.div spent sold) JsNumber.hundred))
  /\ (forall a,
      total_sales (Rich.totals a) = None
      \/ (exists x, total_sales (Rich.totals a) = Some x
                    /\ JsNumber.is_zero x = true) ->
      Rich.acos a = "0")
  /\ (forall a m e,
      let spent := JsNumber.or_zero
                     (JsNumber.parseFloat_value (total_spend (Rich.totals a))) in
      let sold := JsNumber.or_zero
                    (JsNumber.parseFloat_value (total_sales (Rich.totals a))) in
      JsNumber.gt_zero sold = true ->
      JsNumber.mul (JsNumber.div spent sold) JsNumber.hundred
      = S754_finite false m e ->
      JsNumber.exact_num m e < 10 ^ 21 * JsNumber.exact_den e ->
      let n := JsNumber.round_fixed 1 (JsNumber.exact_num m e)
                 (JsNumber.exact_den e) in
      Rich.acos a
      = JsNumber.text (JsNumber.digits (n / 10)
                       ++ ["."%char; JsNumber.digit_char (n mod 10)])
      /\ 2 * n * JsNumber.exact_den e
         <= 2 * JsNumber.exact_num m e * 10 + JsNumber.exact_den e
         < 2 * (n + 1) * JsNumber.exact_den e)
  /\ Rich.acos (snapshot (Some (JsNumber.ofZ 50)) (Some (JsNumber.ofZ 0))) = "0"
  /\ Rich.acos (snapshot (Some (JsNumber.ofZ 50)) (Some (JsNumber.ofZ 200)))
     = "25.0"
  /\ (forall st,
      ends Rich.updateAnalyticsSection
        (Rich.set_analyticsData
           (Some (snapshot (Some (JsNumber.ofZ 50)) (Some (JsNumber.ofZ 0)))) st)
        (fun st' => textContent (Rich.page st') "analytics-acos" = Str "0%"))
  /\ (forall st,
      ends Rich.updateAnalyticsSection
        (Rich.set_analyticsData
           (Some (snapshot (Some (JsNumber.ofZ 50)) (Some (JsNumber.ofZ 200)))) st)
        (fun st' => textContent (Rich.page st') "analytics-acos" = Str "25.0%")).
Proof.
  assert (F : forall st a, Rich.analyticsData st = Some a ->
            ends Rich.updateAnalyticsSection st
              (fun st' => textContent (Rich.page st') "analytics-acos"
                          = Str (Rich.acos a ++ "%"))).
  { intros st a H.
    eapply results_mono; [apply RichFacts.updateAnalyticsSection_ends, H|].
    intros [] s' (C & _). exact C. }
  split; [exact F|].
  split.
  { intros a spent sold H. unfold Rich.acos. fold spent sold. rewrite H.
    reflexivity. }
  split.
  { intros a [H|(x & H & Hx)]; unfold Rich.acos; rewrite H.
    - reflexivity.
    - destruct x; try discriminate Hx. reflexivity. }
  split.
  { intros a m e spent sold H E R n. unfold Rich.acos. fold spent sold.
    rewrite H, E.
    destruct (NumberFacts.toFixed_one_decimal false m e R) as (T & _ & B).
    split; [exact T | exact B]. }
  split; [vm_compute; reflexivity|].
  split; [vm_compute; reflexivity|].
  split; intros st.
  - exact (F (Rich.set_analyticsData _ st)
             (snapshot (Some (JsNumber.ofZ 50)) (Some (JsNumber.ofZ 0))) eq_refl).
  - exact (F (Rich.set_analyticsData _ st)
             (snapshot (Some (JsNumber.ofZ 50)) (Some (JsNumber.ofZ 200))) eq_refl).
Qed.

Lemma acos_rendering_witness :
  ends Rich.updateAnalyticsSection uploaded
    (fun st' => textContent (Rich.page st') "analytics-acos" = Str "25.0%")
  /\ Rich.acos (snapshot (Some (JsNumber.ofZ 3)) None) = "0".
Proof.
  destruct acos_rendering as (H & _ & Z & _).
  split.
  - exact (H uploaded _ eq_refl).
  - apply Z. left. reflexivity.
Defined.

(** ** C7 *)






(** * Further properties of the script *)

Import PageFacts Footprint.

(** ** Choosing a file *)

(** X1.  A file whose name ends in [.csv] and whose size is at most
    52,428,800 bytes becomes the selected file.  The file info reads
    "Selected: <name> (<size>)" and is marked as a success, the settings
    panel (simpler variant) or process panel (richer variant) is put on
    show and scrolled to.  Nothing else happens: no other variable
    changes, nothing is sent, and every other element keeps its display,
    an error panel that was on show included. *)
Theorem handleFile_selects_valid :
  (forall file st,
      Upload.has_csv_name file = true -> Upload.too_large file = false ->
      ends (Simple.handleFile file) st
        (fun st' =>
           Simple.selectedFile st' = Some file
           /\ Simple.outputFilename st' = Simple.outputFilename st
           /\ textContent (Simple.page st') Simple.fileInfo
              = Str ("Selected: " ++ name file ++ " ("
                     ++ Format.formatFileSize (size file) ++ ")")
           /\ prop (Simple.page st') Simple.fileInfo "classList.success" = Flag true
           /\ display (Simple.page st') Simple.settingsSection = Str "block"
           /\ (forall el, el <> Simple.settingsSection ->
                 display (Simple.page st') el = display (Simple.page st) el)
           /\ Simple.trace st'
              = (Simple.trace st
                 ++ [Simple.ScrollIntoView Simple.settingsSection])%list))
  /\ (forall file st,
      Upload.has_csv_name file = true -> Upload.too_large file = false ->
      ends (Rich.handleFile file) st
        (fun st' =>
           Rich.selectedFile st' = Some file
           /\ Rich.outputFilename st' = Rich.outputFilename st
           /\ Rich.asinFilename st' = Rich.asinFilename st
           /\ Rich.lastProcessedData st' = Rich.lastProcessedData st
           /\ Rich.analyticsData st' = Rich.analyticsData st
           /\ textContent (Rich.page st') Rich.fileInfo
              = Str ("Selected: " ++ name file ++ " ("
                     ++ Format.formatFileSize (size file) ++ ")")
           /\ prop (Rich.page st') Rich.fileInfo "classList.success" = Flag true
           /\ display (Rich.page st') Rich.processSection = Str "block"
           /\ (forall el, el <> Rich.processSection ->
                 display (Rich.page st') el = display (Rich.page st) el)
           /\ Rich.trace st'
              = (Rich.trace st ++ [Rich.ScrollIntoView Rich.processSection])%list)).
Proof.
  split; intros file st H1 H2.
  - unfold Upload.has_csv_name, Upload.too_large in *.
    unfold Simple.handleFile. change (50 * 1024 * 1024)%N with 52428800%N.
    rewrite H1, H2. cbn [negb].
    eexists tt, _. split; [reflexivity|].
    repeat split.
    intros el Hne. unfold display.
    cbn [Simple.page Simple.on_page Simple.emit Simple.set_selectedFile].
    unfold Simple.settingsSection, Simple.fileInfo in *. elsewhere. reflexivity.
  - unfold Upload.has_csv_name, Upload.too_large in *.
    unfold Rich.handleFile. change (50 * 1024 * 1024)%N with 52428800%N.
    rewrite H1, H2. cbn [negb].
    eexists tt, _. split; [reflexivity|].
    repeat split.
    intros el Hne. unfold display.
    cbn [Rich.page Rich.on_page Rich.emit Rich.set_selectedFile].
    unfold Rich.processSection, Rich.fileInfo in *. elsewhere. reflexivity.
Qed.

Lemma handleFile_selects_valid_witness :
  ends (Rich.handleFile sample_file) Rich.initial
    (fun st' =>
       Rich.selectedFile st' = Some sample_file
       /\ textContent (Rich.page st') Rich.fileInfo
          = Str "Selected: Report.CSV (1.5 KB)"
       /\ Rich.trace st' = [Rich.ScrollIntoView Rich.processSection]).
Proof.
  destruct (proj2 handleFile_selects_valid sample_file Rich.initial
              eq_refl eq_refl) as (a & s & E & A & _ & _ & _ & _ & B & _ & _ & _ & C).
  exists a, s. split; [exact E|]. split; [exact A|]. split; [|exact C].
  rewrite B. vm_compute. reflexivity.
Defined.

(** ** Downloads *)

(** X2.  [downloadFile] and [downloadAsinFile] refuse to act on a name
    that is [null] or empty: the error panel reports that there is no
    file, and nothing is downloaded.  With a name, they request
    [/download/<name>] under that name and change nothing else.
    [downloadArchive] requests whatever name it is given. *)
Theorem downloads_need_a_name :
  (forall st, JsString.truthy (Simple.outputFilename st) = false ->
      ends Simple.downloadFile st
        (fun st' => SimpleFacts.reported "No file available for download." st'
                    /\ Simple.trace st' = Simple.trace st))
  /\ (forall st f, Simple.outputFilename st = Some f -> f <> "" ->
      Simple.downloadFile st
      = (Normal tt, Simple.emit (Simple.Download ("/download/" ++ f) f) st))
  /\ (forall st, Rich.has_panels st ->
      JsString.truthy (Rich.outputFilename st) = false ->
      ends Rich.downloadFile st
        (fun st' => RichFacts.reported "No file available for download." st'
                    /\ RichFacts.untouched st st'))
  /\ (forall st f, Rich.outputFilename st = Some f -> f <> "" ->
      Rich.downloadFile st
      = (Normal tt, Rich.emit (Rich.Download ("/download/" ++ f) f) st))
  /\ (forall st, Rich.has_panels st ->
      JsString.truthy (Rich.asinFilename st) = false ->
      ends Rich.downloadAsinFile st
        (fun st' => RichFacts.reported "No ASIN file available for download." st'
                    /\ RichFacts.untouched st st'))
  /\ (forall st f, Rich.asinFilename st = Some f -> f <> "" ->
      Rich.downloadAsinFile st
      = (Normal tt, Rich.emit (Rich.Download ("/download/" ++ f) f) st))
  /\ (forall st f,
      Navigation.downloadArchive f st
      = (Normal tt, Rich.emit (Rich.Download ("/download/" ++ f) f) st)).
Proof.
  split.
  { intros st H. unfold ends, results, Simple.downloadFile.
    unfold bind at 1, gets at 1. rewrite H. cbn [negb].
    eapply results_mono; [apply SimpleFacts.simple_showError_ends|].
    intros _ st' (R & _ & _ & T). auto. }
  split.
  { intros st f H Hne. unfold Simple.downloadFile.
    unfold bind at 1, gets at 1. rewrite H. cbn [JsString.truthy JsString.or_else].
    apply String.eqb_neq in Hne. rewrite Hne. reflexivity. }
  split.
  { intros st Hp H. unfold ends, results, Rich.downloadFile.
    unfold bind at 1, gets at 1. rewrite H. cbn [negb].
    eapply results_mono; [apply RichFacts.rich_showError_ends, Hp|].
    intros _ st' (R & U & _). auto. }
  split.
  { intros st f H Hne. unfold Rich.downloadFile.
    unfold bind at 1, gets at 1. rewrite H. cbn [JsString.truthy JsString.or_else].
    apply String.eqb_neq in Hne. rewrite Hne. reflexivity. }
  split.
  { intros st Hp H. unfold ends, results, Rich.downloadAsinFile.
    unfold bind at 1, gets at 1. rewrite H. cbn [negb].
    eapply results_mono; [apply RichFacts.rich_showError_ends, Hp|].
    intros _ st' (R & U & _). auto. }
  split.
  { intros st f H Hne. unfold Rich.downloadAsinFile.
    unfold bind at 1, gets at 1. rewrite H. cbn [JsString.truthy JsString.or_else].
    apply String.eqb_neq in Hne. rewrite Hne. reflexivity. }
  reflexivity.
Qed.

Lemma downloads_need_a_name_witness :
  Rich.downloadFile uploaded
  = (Normal tt,
     Rich.emit (Rich.Download "/download/ngrams.xlsx" "ngrams.xlsx") uploaded)
  /\ ends Rich.downloadAsinFile uploaded
       (fun st' => RichFacts.reported "No ASIN file available for download." st'
                   /\ RichFacts.untouched uploaded st')
  /\ ends Simple.downloadFile Simple.initial
       (fun st' => SimpleFacts.reported "No file available for download." st'
                   /\ Simple.trace st' = []).
Proof.
  destruct downloads_need_a_name as (S1 & _ & _ & R2 & R3 & _).
  split.
  - apply (R2 uploaded "ngrams.xlsx"); [reflexivity | discriminate].
  - split.
    + apply (R3 uploaded); [intros el _; reflexivity | reflexivity].
    + apply (S1 Simple.initial). reflexivity.
Defined.

(** ** The upload cycle *)

(** X3.  When the server reports success and the result carries the
    summary counts and the campaign list, [processFile] has sent one
    request, the file (with the two thresholds of the page in the simpler
    variant), and returns with the result stored: [outputFilename] is the
    result's output file and, in the richer variant, [asinFilename] its
    ASIN file, [lastProcessedData] the result itself and [analyticsData]
    a snapshot of it with the file's name and the time.  The results
    panel alone is on show, its fields read the summary, the campaign
    list has one item per campaign in order, and the ASIN button, where
    the page has one, is shown exactly when there is an ASIN file. *)
Theorem processFile_stores_result :
  (forall result s rows asins count flagged names st file,
      Simple.selectedFile st = Some file -> success result = true ->
      summary result = Some s -> original_rows s = Some rows ->
      asins_removed s = Some asins -> campaigns_processed s = Some count ->
      total_flagged s = Some flagged -> campaigns result = Some names ->
      ends (Simple.processFile (Json result)) st
        (fun st' =>
           SimpleFacts.exactly [Simple.resultsSection] st'
           /\ Simple.selectedFile st' = Some file
           /\ Simple.outputFilename st' = output_file result
           /\ Simple.trace st'
              = (Simple.trace st ++ [SimpleFlow.upload_request file st])%list
           /\ SimpleFlow.summary_shown s rows asins count flagged names st'))
  /\ (forall result s rows asins count names now st file,
      Rich.has_panels st -> Rich.selectedFile st = Some file ->
      success result = true ->
      summary result = Some s -> original_rows s = Some rows ->
      asins_removed s = Some asins -> campaigns_processed s = Some count ->
      campaigns result = Some names ->
      ends (Rich.processFile (Json result) now) st
        (fun st' =>
           RichFacts.exactly [Rich.resultsSection] st'
           /\ RichFlow.stored result file now st'
           /\ Rich.trace st'
              = (Rich.trace st ++ [RichFlow.upload_request file])%list
           /\ RichFlow.summary_shown s rows asins count names st'
           /\ RichFlow.asin_button result st')).
Proof.
  split.
  - exact SimpleFlow.simple_processFile_delivers.
  - exact RichFlow.processFile_delivers.
Qed.

Lemma processFile_stores_result_witness :
  ends (Rich.processFile (Json sample_result) sample_time)
    (exec (Rich.handleFile sample_file) Rich.initial)
    (fun st' =>
       RichFacts.exactly [Rich.resultsSection] st'
       /\ RichFlow.stored sample_result sample_file sample_time st'
       /\ Rich.trace st'
          = [Rich.ScrollIntoView Rich.processSection;
             RichFlow.upload_request sample_file]
       /\ RichFlow.summary_shown sample_summary (JsNumber.ofZ 120)
            (JsNumber.ofZ 4) (JsNumber.ofZ 1) ["Brand"] st'
       /\ RichFlow.asin_button sample_result st').
Proof.
  apply (proj2 processFile_stores_result sample_result sample_summary
           (JsNumber.ofZ 120) (JsNumber.ofZ 4) (JsNumber.ofZ 1) ["Brand"]
           sample_time (exec (Rich.handleFile sample_file) Rich.initial)
           sample_file);
    try reflexivity.
  intros el _. reflexivity.
Defined.

(** X4.  When the server answers without reporting success, the error
    panel shows the server's message, or "An error occurred while
    processing the file." when it gives none or an empty one.  When the
    request fails or the answer is not JSON, the panel shows the network
    message and one line goes to the console.  Either way one request
    was sent, the selected file stays selected, and no other variable
    has changed. *)
Theorem processFile_reports_failure :
  (forall result st file,
      Simple.selectedFile st = Some file -> success result = false ->
      ends (Simple.processFile (Json result)) st
        (fun st' =>
           SimpleFacts.reported
             (JsString.or_else (error result)
                "An error occurred while processing the file.") st'
           /\ Simple.selectedFile st' = Some file
           /\ Simple.outputFilename st' = Simple.outputFilename st
           /\ Simple.trace st'
              = (Simple.trace st ++ [SimpleFlow.upload_request file st])%list))
  /\ (forall (reply : fetched UploadResult) st file,
      Simple.selectedFile st = Some file ->
      reply = FetchRejected \/ reply = JsonRejected ->
      ends (Simple.processFile reply) st
        (fun st' =>
           SimpleFacts.reported
             "Network error. Please check your connection and try again." st'
           /\ Simple.selectedFile st' = Some file
           /\ Simple.outputFilename st' = Simple.outputFilename st
           /\ Simple.trace st'
              = (Simple.trace st ++ [SimpleFlow.upload_request file st;
                                     Simple.ConsoleError "Error:"])%list))
  /\ (forall result now st file,
      Rich.has_panels st -> Rich.selectedFile st = Some file ->
      success result = false ->
      ends (Rich.processFile (Json result) now) st
        (fun st' =>
           RichFacts.reported
             (JsString.or_else (error result)
                "An error occurred while processing the file.") st'
           /\ Rich.selectedFile st' = Some file
           /\ Rich.outputFilename st' = Rich.outputFilename st
           /\ Rich.asinFilename st' = Rich.asinFilename st
           /\ Rich.lastProcessedData st' = Rich.lastProcessedData st
           /\ Rich.analyticsData st' = Rich.analyticsData st
           /\ Rich.trace st'
              = (Rich.trace st ++ [RichFlow.upload_request file])%list))
  /\ (forall (reply : fetched UploadResult) now st file,
      Rich.has_panels st -> Rich.selectedFile st = Some file ->
      reply = FetchRejected \/ reply = JsonRejected ->
      ends (Rich.processFile reply now) st
        (fun st' =>
           RichFacts.reported
             "Network error. Please check your connection and try again." st'
           /\ Rich.selectedFile st' = Some file
           /\ Rich.outputFilename st' = Rich.outputFilename st
           /\ Rich.asinFilename st' = Rich.asinFilename st
           /\ Rich.lastProcessedData st' = Rich.lastProcessedData st
           /\ Rich.analyticsData st' = Rich.analyticsData st
           /\ Rich.trace st'
              = (Rich.trace st ++ [RichFlow.upload_request file;
                                   Rich.ConsoleError "Error:"])%list)).
Proof.
  split; [exact SimpleFlow.simple_processFile_refused|].
  split; [exact SimpleFlow.simple_processFile_unreachable|].
  split; [exact RichFlow.processFile_refused|].
  exact RichFlow.processFile_unreachable.
Qed.

(** A reply that reports a failure without saying why. *)
Definition silent_failure : UploadResult :=
  {| success := false; output_file := None; asin_file := None;
     summary := None; campaigns := None; campaign_details := None;
     error := Some "" |}.

Lemma processFile_reports_failure_witness :
  ends (Rich.processFile (Json silent_failure) sample_time) uploaded
    (fun st' =>
       RichFacts.reported "An error occurred while processing the file." st'
       /\ Rich.selectedFile st' = Some sample_file
       /\ Rich.outputFilename st' = Rich.outputFilename uploaded
       /\ Rich.asinFilename st' = Rich.asinFilename uploaded
       /\ Rich.lastProcessedData st' = Rich.lastProcessedData uploaded
       /\ Rich.analyticsData st' = Rich.analyticsData uploaded
       /\ Rich.trace st'
          = (Rich.trace uploaded ++ [RichFlow.upload_request sample_file])%list)
  /\ ends (Simple.processFile JsonRejected)
       (exec (Simple.handleFile sample_file) Simple.initial)
       (fun st' =>
          SimpleFacts.reported
            "Network error. Please check your connection and try again." st'
          /\ Simple.selectedFile st' = Some sample_file
          /\ Simple.outputFilename st'
             = Simple.outputFilename
                 (exec (Simple.handleFile sample_file) Simple.initial)
          /\ Simple.trace st'
             = (Simple.trace (exec (Simple.handleFile sample_file) Simple.initial)
                ++ [SimpleFlow.upload_request sample_file
                      (exec (Simple.handleFile sample_file) Simple.initial);
                    Simple.ConsoleError "Error:"])%list).
Proof.
  destruct processFile_reports_failure as (_ & S2 & R1 & _).
  split.
  - apply (R1 silent_failure sample_time uploaded sample_file);
      [intros el _; reflexivity | reflexivity | reflexivity].
  - apply (S2 JsonRejected _ sample_file); [reflexivity | right; reflexivity].
Defined.

(** X5.  A reply that reports success but lacks a summary count or the
    campaign list makes [displayResults] throw after the result has been
    stored: the error panel shows the network message although the
    request went through, one line goes to the console, and
    [outputFilename] (with [asinFilename], [lastProcessedData] and
    [analyticsData] in the richer variant) holds the new result. *)
Theorem processFile_malformed_success :
  (forall result st file,
      Simple.selectedFile st = Some file ->
      success result = true -> SimpleFacts.complete result = false ->
      ends (Simple.processFile (Json result)) st
        (fun st' =>
           SimpleFacts.reported
             "Network error. Please check your connection and try again." st'
           /\ Simple.selectedFile st' = Some file
           /\ Simple.outputFilename st' = output_file result
           /\ Simple.trace st'
              = (Simple.trace st ++ [SimpleFlow.upload_request file st;
                                     Simple.ConsoleError "Error:"])%list))
  /\ (forall result now st file,
      Rich.has_panels st -> Rich.selectedFile st = Some file ->
      success result = true -> RichFacts.complete result = false ->
      ends (Rich.processFile (Json result) now) st
        (fun st' =>
           RichFacts.reported
             "Network error. Please check your connection and try again." st'
           /\ RichFlow.stored result file now st'
           /\ Rich.trace st'
              = (Rich.trace st ++ [RichFlow.upload_request file;
                                   Rich.ConsoleError "Error:"])%list)).
Proof.
  split.
  - exact SimpleFlow.simple_processFile_malformed.
  - exact RichFlow.processFile_malformed.
Qed.

(** A reply that reports success and names an output file, but has no
    summary. *)
Definition bare_success : UploadResult :=
  {| success := true; output_file := Some "out.xlsx"; asin_file := None;
     summary := None; campaigns := Some []; campaign_details := None;
     error := None |}.

Lemma processFile_malformed_success_witness :
  ends (Rich.processFile (Json bare_success) sample_time)
    (exec (Rich.handleFile sample_file) Rich.initial)
    (fun st' =>
       RichFacts.reported
         "Network error. Please check your connection and try again." st'
       /\ RichFlow.stored bare_success sample_file sample_time st'
       /\ Rich.trace st'
          = [Rich.ScrollIntoView Rich.processSection;
             RichFlow.upload_request sample_file;
             Rich.ConsoleError "Error:"]).
Proof.
  apply (proj2 processFile_malformed_success bare_success sample_time
           (exec (Rich.handleFile sample_file) Rich.initial) sample_file);
    try reflexivity.
  intros el _. reflexivity.
Defined.

(** ** Archiving *)


Definition accepted : Rich.ArchiveReply :=
  {| Rich.reply_success := true; Rich.reply_error := None |}.


(** X7.  When the server refuses to archive, the error panel shows its
    message, or "Failed to archive report." when it gives none; when the
    request fails or the answer is not JSON, the panel shows "Failed to
    archive report. Please try again." and one line goes to the console.
    One request was sent, and no variable has changed. *)
Theorem archiveReport_reports_failure :
  (forall result now st out a,
      Rich.has_panels st ->
      Rich.outputFilename st = Some out -> out <> "" ->
      Rich.analyticsData st = Some a -> Rich.reply_success result = false ->
      ends (Rich.archiveReport (Json result) now) st
        (fun st' =>
           RichFacts.reported
             (JsString.or_else (Rich.reply_error result)
                "Failed to archive report.") st'
           /\ same_variables st st'
           /\ Rich.trace st'
              = (Rich.trace st ++ [RichFlow.archive_post st out a now])%list))
  /\ (forall (reply : fetched Rich.ArchiveReply) now st out a,
      Rich.has_panels st ->
      Rich.outputFilename st = Some out -> out <> "" ->
      Rich.analyticsData st = Some a ->
      reply = FetchRejected \/ reply = JsonRejected ->
      ends (Rich.archiveReport reply now) st
        (fun st' =>
           RichFacts.reported "Failed to archive report. Please try again." st'
           /\ same_variables st st'
           /\ Rich.trace st'
              = (Rich.trace st ++ [RichFlow.archive_post st out a now;
                                   Rich.ConsoleError "Error archiving:"])%list)).
Proof.
  split.
  - exact RichFlow.archiveReport_refused.
  - exact RichFlow.archiveReport_unreachable.
Qed.

Lemma archiveReport_reports_failure_witness :
  ends (Rich.archiveReport
          (Json {| Rich.reply_success := false;
                   Rich.reply_error := Some "Disk full" |}) sample_time)
    uploaded
    (fun st' =>
       RichFacts.reported "Disk full" st' /\ same_variables uploaded st'
       /\ Rich.trace st'
          = (Rich.trace uploaded
             ++ [RichFlow.archive_post uploaded "ngrams.xlsx"
                   (RichFlow.snapshot_of sample_result sample_file sample_time)
                   sample_time])%list).
Proof.
  apply (proj1 archiveReport_reports_failure
           {| Rich.reply_success := false; Rich.reply_error := Some "Disk full" |}
           sample_time uploaded "ngrams.xlsx"
           (RichFlow.snapshot_of sample_result sample_file sample_time));
    [intros el _; reflexivity | reflexivity | discriminate | reflexivity
    | reflexivity].
Defined.

(** ** The archive list *)

(** X8.  When the server answers with a list of at least one report, none
    of them [null], [loadArchive] hides the placeholder, shows the list
    container and fills the list with one item per report, in order.  An
    item shows the report's original file name, or "Search Term Report"
    when it has none, and zero campaigns, spend and sales when it has no
    summary. *)
Theorem loadArchive_lists_reports :
  (forall result items st,
      Rich.list_success result = true ->
      Rich.archives result = Some (map Some items) -> items <> [] ->
      ends (Rich.loadArchive (Json result)) st
        (fun st' =>
           display (Rich.page st') "archive-empty" = Str "none"
           /\ display (Rich.page st') "archive-content" = Str "block"
           /\ prop (Rich.page st') "archive-list" "innerHTML"
              = Children (map RichFlow.archiveEntry items)
           /\ Rich.trace st'
              = (Rich.trace st ++ [RichFacts.archive_request])%list))
  /\ (forall id file processed,
      RichFlow.archiveEntry
        {| Rich.item_id := id; Rich.item_filename := file;
           Rich.item_originalFilename := None;
           Rich.item_processedAt := processed; Rich.item_summary := None |}
      = Element "archive-item"
          [Str (Rich.interpolate id); Str "Search Term Report";
           DateText processed; Str (Rich.interpolate file); Str "0";
           Currency JsNumber.zero; Currency JsNumber.zero]).
Proof.
  split.
  - exact RichFlow.loadArchive_lists.
  - intros id file processed. reflexivity.
Qed.

Definition sample_item : Rich.ArchiveItem :=
  {| Rich.item_id := Some "7"; Rich.item_filename := Some "ngrams.xlsx";
     Rich.item_originalFilename := Some "Report.CSV";
     Rich.item_processedAt := Some sample_time;
     Rich.item_summary := Some sample_summary |}.

Lemma loadArchive_lists_reports_witness :
  ends (Rich.loadArchive
          (Json {| Rich.list_success := true;
                   Rich.archives := Some [Some sample_item] |})) Rich.initial
    (fun st' =>
       display (Rich.page st') "archive-empty" = Str "none"
       /\ display (Rich.page st') "archive-content" = Str "block"
       /\ prop (Rich.page st') "archive-list" "innerHTML"
          = Children [RichFlow.archiveEntry sample_item]
       /\ Rich.trace st' = [RichFacts.archive_request]).
Proof.
  apply (proj1 loadArchive_lists_reports
           {| Rich.list_success := true;
              Rich.archives := Some [Some sample_item] |} [sample_item]
           Rich.initial);
    [reflexivity | reflexivity | discriminate].
Defined.

(** X9.  A [null] among the reports of the list stops [loadArchive]
    after it has hidden the placeholder and shown the list container:
    the list keeps the items it had, and one line goes to the console. *)
Theorem loadArchive_null_entry_stops :
  forall result entries st,
    Rich.list_success result = true -> Rich.archives result = Some entries ->
    In None entries ->
    ends (Rich.loadArchive (Json result)) st
      (fun st' =>
         display (Rich.page st') "archive-empty" = Str "none"
         /\ display (Rich.page st') "archive-content" = Str "block"
         /\ prop (Rich.page st') "archive-list" "innerHTML"
            = prop (Rich.page st) "archive-list" "innerHTML"
         /\ Rich.trace st'
            = (Rich.trace st
               ++ [RichFacts.archive_request;
                   Rich.ConsoleError "Error loading archive:"])%list).
Proof. exact RichFlow.loadArchive_null_entry. Qed.

Lemma loadArchive_null_entry_stops_witness :
  ends (Rich.loadArchive
          (Json {| Rich.list_success := true;
                   Rich.archives := Some [Some sample_item; None] |}))
    Rich.initial
    (fun st' =>
       display (Rich.page st') "archive-empty" = Str "none"
       /\ display (Rich.page st') "archive-content" = Str "block"
       /\ prop (Rich.page st') "archive-list" "innerHTML" = Str ""
       /\ Rich.trace st'
          = [RichFacts.archive_request;
             Rich.ConsoleError "Error loading archive:"]).
Proof.
  apply (loadArchive_null_entry_stops
           {| Rich.list_success := true;
              Rich.archives := Some [Some sample_item; None] |}
           [Some sample_item; None] Rich.initial);
    [reflexivity | reflexivity | right; left; reflexivity].
Defined.

(** X10.  However [loadArchive] ends, it has written nothing but the
    display of the two placeholders of the archive view and the markup
    of the list, and has assigned to none of the script's variables. *)
Theorem loadArchive_keeps_to_its_view :
  forall reply st,
    page_kept RichFlow.archive_view st (exec (Rich.loadArchive reply) st)
    /\ same_variables st (exec (Rich.loadArchive reply) st).
Proof.
  intros reply st. split.
  - apply RichFlow.loadArchive_writes.
  - apply RichFlow.loadArchive_reads_only.
Qed.

(** ** The analytics view *)

(** X11.  However [updateAnalyticsSection] ends, it has written nothing
    but the analytics view (the display of its two placeholders, its
    eight fields and the markup of its two tables), has assigned to no
    variable and has done nothing outside the page.  Without a snapshot
    it returns with the empty placeholder shown and the content
    hidden. *)
Theorem updateAnalyticsSection_keeps_to_its_view :
  (forall st,
      page_kept RichFlow.analytics_view st (exec Rich.updateAnalyticsSection st)
      /\ same_variables st (exec Rich.updateAnalyticsSection st)
      /\ Rich.trace (exec Rich.updateAnalyticsSection st) = Rich.trace st)
  /\ (forall st, Rich.analyticsData st = None ->
      ends Rich.updateAnalyticsSection st
        (fun st' => display (Rich.page st') "analytics-empty" = Str "block"
                    /\ display (Rich.page st') "analytics-content" = Str "none")).
Proof.
  split.
  - intros st. split; [apply RichFlow.updateAnalyticsSection_writes|].
    split; [apply RichFlow.updateAnalyticsSection_reads_only|].
    unfold exec. destruct (Rich.analyticsData st) as [a|] eqn:H.
    + destruct (RichFacts.updateAnalyticsSection_ends st a H)
        as ([] & st' & E & _ & U).
      rewrite E. apply U.
    + destruct (RichFlow.updateAnalyticsSection_empty st H)
        as ([] & st' & E & _ & _ & U).
      rewrite E. apply U.
  - intros st H.
    eapply results_mono; [apply (RichFlow.updateAnalyticsSection_empty st H)|].
    intros _ st' (A & B & _). auto.
Qed.

Lemma updateAnalyticsSection_keeps_to_its_view_witness :
  ends Rich.updateAnalyticsSection Rich.initial
    (fun st' => display (Rich.page st') "analytics-empty" = Str "block"
                /\ display (Rich.page st') "analytics-content" = Str "none").
Proof.
  apply (proj2 updateAnalyticsSection_keeps_to_its_view Rich.initial).
  reflexivity.
Defined.

(** X12.  With a snapshot, [updateAnalyticsSection] shows the content
    and fills it.  The campaign count is [campaigns_processed] when that
    is a non-zero number, else the length of the campaign list, else 0;
    each n-gram total is the sum over the campaign details of the count,
    a missing count adding 0; spend, sales and orders read 0 when
    missing.  The breakdown table has one row per campaign detail, or,
    when there are no details, one row of dashes per campaign name; the
    distribution grid holds the cards. *)
Theorem updateAnalyticsSection_fills_view :
  (forall st a, Rich.analyticsData st = Some a ->
      ends Rich.updateAnalyticsSection st (RichFlow.overview a))
  /\ (forall a x,
      campaigns_processed (Rich.totals a) = Some x -> JsNumber.truthy x = true ->
      Rich.campaignCount a = x)
  /\ (forall a names,
      Server.or_zero (campaigns_processed (Rich.totals a)) = JsNumber.zero ->
      Rich.campaigns a = Some names ->
      Rich.campaignCount a = JsNumber.ofZ (Z.of_nat (List.length names)))
  /\ (forall a, Rich.no_details a = true ->
      RichFlow.sum_of monograms a = JsNumber.zero
      /\ RichFlow.sum_of bigrams a = JsNumber.zero
      /\ RichFlow.sum_of trigrams a = JsNumber.zero
      /\ RichFacts.cards (Rich.details_of a) = [])
  /\ (forall a names, Rich.no_details a = true -> Rich.campaigns a = Some names ->
      RichFlow.table_rows a = map RichFlow.dash_row names)
  /\ (forall a, Rich.no_details a = false ->
      RichFlow.table_rows a = map RichFlow.detail_row (Rich.details_of a)).
Proof.
  split; [exact RichFlow.updateAnalyticsSection_overview|].
  split.
  { intros a x H T. unfold Rich.campaignCount, Server.or_zero. rewrite H.
    unfold JsNumber.or_zero. rewrite T. rewrite T. reflexivity. }
  split.
  { intros a names H N. unfold Rich.campaignCount. rewrite H, N. reflexivity. }
  split.
  { intros a H. unfold RichFlow.sum_of.
    rewrite (RichFacts.no_details_cards a H). repeat split. }
  split.
  { intros a names H N. unfold RichFlow.table_rows. rewrite H, N. reflexivity. }
  intros a H. unfold RichFlow.table_rows. rewrite H. reflexivity.
Qed.

Lemma updateAnalyticsSection_fills_view_witness :
  ends Rich.updateAnalyticsSection uploaded
    (RichFlow.overview
       (RichFlow.snapshot_of sample_result sample_file sample_time))
  /\ Rich.campaignCount
       (RichFlow.snapshot_of sample_result sample_file sample_time)
     = JsNumber.ofZ 1.
Proof.
  destruct updateAnalyticsSection_fills_view as (H & C & _).
  split.
  - apply (H uploaded). reflexivity.
  - apply C; reflexivity.
Defined.

(** X13.  The two renderers do not test for a snapshot themselves:
    called without one, [updateCampaignBreakdownTable] and
    [updateDistributionGrid] throw, having emptied the table or the grid
    and changed nothing else. *)
Theorem renderers_need_a_snapshot :
  forall st, Rich.analyticsData st = None ->
    throws Rich.updateCampaignBreakdownTable st
      (fun st' => prop (Rich.page st') "campaign-breakdown-body" "innerHTML"
                  = Children []
                  /\ RichFacts.untouched st st')
    /\ throws Rich.updateDistributionGrid st
         (fun st' => prop (Rich.page st') "distribution-grid" "innerHTML"
                     = Children []
                     /\ RichFacts.untouched st st').
Proof. exact RichFlow.renderers_need_snapshot. Qed.

Lemma renderers_need_a_snapshot_witness :
  throws Rich.updateCampaignBreakdownTable Rich.initial
    (fun st' => prop (Rich.page st') "campaign-breakdown-body" "innerHTML"
                = Children []
                /\ RichFacts.untouched Rich.initial st')
  /\ throws Rich.updateDistributionGrid Rich.initial
       (fun st' => prop (Rich.page st') "distribution-grid" "innerHTML"
                   = Children []
                   /\ RichFacts.untouched Rich.initial st').
Proof. apply (renderers_need_a_snapshot Rich.initial). reflexivity. Defined.

(** ** Starting over *)



(** ** Navigation *)

(** A page with three navigation items and three sections. *)
Definition sample_layout : Navigation.Layout :=
  {| Navigation.navItems :=
       [("nav-dashboard", "dashboard"); ("nav-analytics", "analytics");
        ("nav-archive", "archive")];
     Navigation.sectionContents :=
       ["section-dashboard"; "section-analytics"; "section-archive"] |}.

Lemma sample_layout_distinct :
  NoDup (map fst (Navigation.navItems sample_layout)).
Proof.
  repeat constructor; cbn; intuition discriminate.
Defined.



(** X16.  A click on a navigation item prevents the default action and
    makes active the items that share its [data-section], the clicked
    one among them, and no other. *)
Theorem navItemClick_activates :
  forall layout item dataSection e archive st,
    NoDup (map fst (Navigation.navItems layout)) ->
    In (item, dataSection) (Navigation.navItems layout) ->
    results (Navigation.navItemClick layout dataSection e archive) st
      (fun e' st' =>
         Event.defaultPrevented e' = true
         /\ Event.propagationStopped e' = Event.propagationStopped e
         /\ prop (Rich.page st') item "classList.active" = Flag true
         /\ forall other section,
              In (other, section) (Navigation.navItems layout) ->
              section <> dataSection ->
              prop (Rich.page st') other "classList.active" = Flag false).
Proof.
  intros layout item ds e archive st Hn Hin.
  unfold Navigation.navItemClick. apply results_bind.
  eapply results_mono; [apply (NavigationFacts.navigateToSection_spec _ _ _ _ Hn)|].
  intros _ st' (N & _). apply results_ret.
  split; [reflexivity|]. split; [reflexivity|]. split.
  - rewrite (N item ds Hin), String.eqb_refl. reflexivity.
  - intros other section Ho Hne. rewrite (N other section Ho).
    apply String.eqb_neq in Hne. rewrite Hne. reflexivity.
Qed.

Lemma navItemClick_activates_witness :
  results (Navigation.navItemClick sample_layout "archive"
             (Event.carrying []) FetchRejected) Rich.initial
    (fun e' st' =>
       Event.defaultPrevented e' = true
       /\ Event.propagationStopped e' = false
       /\ prop (Rich.page st') "nav-archive" "classList.active" = Flag true
       /\ forall other section,
            In (other, section) (Navigation.navItems sample_layout) ->
            section <> "archive" ->
            prop (Rich.page st') other "classList.active" = Flag false).
Proof.
  apply (navItemClick_activates sample_layout "nav-archive" "archive"
           (Event.carrying []) FetchRejected Rich.initial
           sample_layout_distinct).
  right. right. left. reflexivity.
Defined.

(** ** Archived reports *)



(** X18.  [deleteArchive] does nothing at all when the user declines.
    Otherwise it sends one deletion request; on success it reloads the
    archive list and raises no alert; on a refusal the alert shows the
    server's message, or "Failed to delete archive." when it gives none,
    and the list is not reloaded; when the request fails or the answer
    is not JSON, one line goes to the console and the alert asks to try
    again. *)
Theorem deleteArchive_outcomes :
  (forall archiveId reply archive st,
      Navigation.deleteArchive archiveId false reply archive st
      = (Normal None, st))
  /\ (forall archiveId result archive st,
      Navigation.delete_success result = true ->
      Navigation.deleteArchive archiveId true (Json result) archive st
      = (Normal None,
         exec (Rich.loadArchive archive)
           (Rich.emit (NavigationFacts.delete_request archiveId) st)))
  /\ (forall archiveId result archive st,
      Navigation.delete_success result = false ->
      Navigation.deleteArchive archiveId true (Json result) archive st
      = (Normal (Some (JsString.or_else (Navigation.delete_error result)
                         "Failed to delete archive.")),
         Rich.emit (NavigationFacts.delete_request archiveId) st))
  /\ (forall archiveId (reply : fetched Navigation.DeleteReply) archive st,
      reply = FetchRejected \/ reply = JsonRejected ->
      Navigation.deleteArchive archiveId true reply archive st
      = (Normal (Some "Failed to delete archive. Please try again."),
         Rich.emit (Rich.ConsoleError "Error deleting archive:")
           (Rich.emit (NavigationFacts.delete_request archiveId) st))).
Proof.
  split; [exact NavigationFacts.deleteArchive_declined|].
  split; [exact NavigationFacts.deleteArchive_deleted|].
  split; [exact NavigationFacts.deleteArchive_refused|].
  exact NavigationFacts.deleteArchive_unreachable.
Qed.

Lemma deleteArchive_outcomes_witness :
  Navigation.deleteArchive "7" true
    (Json {| Navigation.delete_success := false;
             Navigation.delete_error := None |})
    FetchRejected Rich.initial
  = (Normal (Some "Failed to delete archive."),
     Rich.emit (NavigationFacts.delete_request "7") Rich.initial).
Proof.
  apply (proj1 (proj2 (proj2 deleteArchive_outcomes)) "7"
           {| Navigation.delete_success := false;
              Navigation.delete_error := None |} FetchRejected Rich.initial).
  reflexivity.
Defined.

(** ** Dropping and picking files *)



(** ** Whole sessions *)

(** X20.  Start from a freshly loaded page and let any sequence of the
    script's handlers run, each to its end before the next starts, with
    arbitrary events, server answers and times.  At every point the
    selected file, if any, has passed the two tests of [handleFile]; a
    download name is only there with a selected file; every request that
    carries a file is a POST to [/upload] of one that passed the tests;
    and every request that carries a report is a POST to [/archive] with
    a non-empty report name and the name of a file that passed the
    tests, never the fallback "Unknown". *)
Theorem session_requests_are_vouched :
  forall st actions, Session.fresh st ->
    let st' := Session.session st actions in
    (forall file, Rich.selectedFile st' = Some file -> Session.valid file)
    /\ (Rich.outputFilename st' <> None \/ Rich.asinFilename st' <> None ->
        Rich.selectedFile st' <> None)
    /\ (forall method url file,
          In (Rich.Fetch method url (Rich.FormData file)) (Rich.trace st') ->
          method = "POST" /\ url = "/upload" /\ Session.valid file)
    /\ (forall method url out original a now,
          In (Rich.Fetch method url (Rich.ArchiveRequest out original a now))
             (Rich.trace st') ->
          method = "POST" /\ url = "/archive"
          /\ JsString.truthy out = true /\ original <> "Unknown"
          /\ exists file, Session.valid file /\ original = name file).
Proof.
  intros st actions Hf st'.
  destruct (Session.session_sound actions st (Session.fresh_sound st Hf))
    as (V & N & T).
  split; [exact V|]. split; [exact N|]. split.
  - intros method url file H. apply (T _ H).
  - intros method url out original a now H.
    destruct (T _ H) as (Hm & Hu & Ht & file & Hv & ->).
    split; [exact Hm|]. split; [exact Hu|].
    split; [exact Ht|]. split; [|exists file; auto].
    intros E. destruct Hv as (Hv & _).
    unfold Upload.has_csv_name in Hv. rewrite E in Hv. discriminate.
Qed.

Lemma session_requests_are_vouched_witness :
  let st' :=
    Session.session Rich.initial
      [Session.PageLoaded FetchRejected;
       Session.FilesDropped (Event.carrying [text_file]);
       Session.FilesPicked (Event.carrying [sample_file; text_file]);
       Session.ClickProcess (Json sample_result) sample_time;
       Session.ClickArchive JsonRejected sample_time;
       Session.ClickReset] in
  (forall file, Rich.selectedFile st' = Some file -> Session.valid file)
  /\ (Rich.outputFilename st' <> None \/ Rich.asinFilename st' <> None ->
      Rich.selectedFile st' <> None)
  /\ (forall method url file,
        In (Rich.Fetch method url (Rich.FormData file)) (Rich.trace st') ->
        method = "POST" /\ url = "/upload" /\ Session.valid file)
  /\ (forall method url out original a now,
        In (Rich.Fetch method url (Rich.ArchiveRequest out original a now))
           (Rich.trace st') ->
        method = "POST" /\ url = "/archive"
        /\ JsString.truthy out = true /\ original <> "Unknown"
        /\ exists file, Session.valid file /\ original = name file).
Proof.
  apply (session_requests_are_vouched Rich.initial).
  repeat split.
Defined.

(** X21.  The same for the simpler variant: from a fresh page and
    through any sequence of its handlers, each run to its end, the
    selected file has passed the two tests of [handleFile], and the only
    requests ever sent are POSTs to [/upload] of a form with exactly the
    three fields [file], [min_clicks] and [min_spend], whose file has
    passed the tests. *)
Theorem simple_session_uploads_are_vouched :
  forall st actions, SimpleSession.fresh st ->
    let st' := SimpleSession.session st actions in
    (forall file, Simple.selectedFile st' = Some file ->
       SimpleSession.valid file)
    /\ (forall method url form,
          In (Simple.Fetch method url form) (Simple.trace st') ->
          method = "POST" /\ url = "/upload"
          /\ exists file clicks spend,
               SimpleSession.valid file
               /\ form = [("file", Simple.FileField file);
                          ("min_clicks", Simple.ValueField clicks);
                          ("min_spend", Simple.ValueField spend)]).
Proof.
  intros st actions Hf st'.
  destruct (SimpleSession.simple_session_sound actions st
              (SimpleSession.simple_fresh_sound st Hf)) as (V & T).
  split; [exact V|].
  intros method url form H. apply (T _ H).
Qed.

Lemma simple_session_uploads_are_vouched_witness :
  let st' :=
    SimpleSession.session Simple.initial
      [SimpleSession.FilesDropped (Event.carrying [text_file; sample_file]);
       SimpleSession.ClickProcess FetchRejected;
       SimpleSession.FilesPicked (Event.carrying [sample_file]);
       SimpleSession.ClickProcess JsonRejected;
       SimpleSession.ClickReset] in
  (forall file, Simple.selectedFile st' = Some file ->
     SimpleSession.valid file)
  /\ (forall method url form,
        In (Simple.Fetch method url form) (Simple.trace st') ->
        method = "POST" /\ url = "/upload"
        /\ exists file clicks spend,
             SimpleSession.valid file
             /\ form = [("file", Simple.FileField file);
                        ("min_clicks", Simple.ValueField clicks);
                        ("min_spend", Simple.ValueField spend)]).
Proof.
  apply (simple_session_uploads_are_vouched Simple.initial).
  repeat split.
Defined.

(** X22.  A report outlives the selection it was made from.  After an
    upload of one file went through, a second file that passes
    [handleFile] replaces the selection while the report and its
    snapshot stay; [archiveReport] then sends the report with the
    snapshot of the first file, which holds that file's name, under the
    name of the second file as its original name. *)
Theorem archiveReport_names_current_selection :
  forall st first second result now reply later,
    Rich.has_panels st -> Rich.selectedFile st = Some first ->
    Server.success result = true ->
    JsString.truthy (Server.output_file result) = true ->
    Session.valid second ->
    let st1 := exec (Rich.processFile (Json result) now) st in
    let st2 := exec (Rich.handleFile second) st1 in
    Rich.outputFilename st2 = Server.output_file result
    /\ Rich.analyticsData st2 = Some (RichFlow.snapshot_of result first now)
    /\ Rich.filename (RichFlow.snapshot_of result first now) = Some (name first)
    /\ In (Rich.Fetch "POST" "/archive"
             (Rich.ArchiveRequest (Server.output_file result) (name second)
                (RichFlow.snapshot_of result first now) later))
          (Rich.trace (exec (Rich.archiveReport reply later) st2)).
Proof.
  intros st first second result now reply later Hp H Hs Ht Hv. cbv zeta.
  destruct (Session.processFile_stores result now st first Hp H Hs)
    as (_ & O & _ & _ & A).
  destruct (Session.handleFile_keeps_report second
              (exec (Rich.processFile (Json result) now) st) Hv)
    as (S2 & O2 & _ & _ & A2).
  rewrite O in O2. rewrite A in A2.
  split; [exact O2|]. split; [exact A2|]. split; [reflexivity|].
  destruct (Server.output_file result) as [out|] eqn:Eo; [|discriminate].
  assert (Hne : out <> "").
  { intros ->. discriminate. }
  pose proof (Session.archiveReport_sends reply later _ out _ O2 Hne A2) as G.
  unfold RichFlow.archive_post, RichFlow.original_name in G.
  rewrite S2 in G. exact G.
Qed.

Lemma archiveReport_names_current_selection_witness :
  In (Rich.Fetch "POST" "/archive"
        (Rich.ArchiveRequest (Server.output_file sample_result) "other.csv"
           (RichFlow.snapshot_of sample_result sample_file sample_time)
           "later"))
     (Rich.trace
        (exec (Rich.archiveReport FetchRejected "later")
           (exec (Rich.handleFile {| name := "other.csv"; size := 10 |})
              uploaded))).
Proof.
  apply (archiveReport_names_current_selection
           (exec (Rich.handleFile sample_file) Rich.initial)
           sample_file {| name := "other.csv"; size := 10 |}
           sample_result sample_time FetchRejected "later").
  - intros el _. reflexivity.
  - reflexivity.
  - reflexivity.
  - reflexivity.
  - split; reflexivity.
Defined.

(** ** Which files are accepted *)

(** X23.  With no file selected, [handleFile] makes a file the selected
    one exactly when its name is anything, or nothing, followed by a
    point and the letters c, s and v, each in either case, and its size
    is at most 52,428,800 bytes.  This holds in both variants. *)
Theorem handleFile_accepts_exactly :
  forall file,
    let accepted :=
      (exists stem ext,
          name file = stem ++ ext /\ NameFacts.csv_extension ext)
      /\ (size file <= 52428800)%N in
    (forall st, Simple.selectedFile st = None ->
       Simple.selectedFile (exec (Simple.handleFile file) st) = Some file
       <-> accepted)
    /\ (forall st, Rich.selectedFile st = None ->
         Rich.selectedFile (exec (Rich.handleFile file) st) = Some file
         <-> accepted).
Proof.
  intros file accepted.
  assert (A : Upload.has_csv_name file && negb (Upload.too_large file) = true
              <-> accepted).
  { unfold accepted. rewrite <- NameFacts.has_csv_name_extension.
    rewrite andb_true_iff, negb_true_iff. unfold Upload.too_large.
    rewrite N.ltb_ge. reflexivity. }
  split; intros st H.
  - rewrite SimpleSession.simple_handleFile_selection, H, <- A.
    destruct (Upload.has_csv_name file && negb (Upload.too_large file));
      split; intros E; [reflexivity | reflexivity | discriminate | discriminate].
  - rewrite Session.handleFile_selection, H, <- A.
    destruct (Upload.has_csv_name file && negb (Upload.too_large file));
      split; intros E; [reflexivity | reflexivity | discriminate | discriminate].
Qed.

Lemma handleFile_accepts_exactly_witness :
  Rich.selectedFile (exec (Rich.handleFile sample_file) Rich.initial)
  = Some sample_file
  <-> (exists stem ext,
          name sample_file = stem ++ ext /\ NameFacts.csv_extension ext)
      /\ (size sample_file <= 52428800)%N.
Proof.
  apply (proj2 (handleFile_accepts_exactly sample_file) Rich.initial).
  reflexivity.
Defined.
